(** * shell-ai: a shallow embedding of the parser, config and suggestions packages

  The development follows the layout of the Go repository:

  - [GoString], [Utf8], [Strings]: the Go runtime and library behaviour the
    packages rely on (strings are byte sequences, [range] decodes UTF-8);
  - [Parser]: [internal/parser/parser.go];
  - [Config]: [internal/config/config.go];
  - [Suggestions]: [internal/suggestions/suggestions.go].

  A Go [string] is a [string] of Rocq (a sequence of bytes), a [rune] and an
  [int] are integers of [Z]. *)

From Stdlib Require Import ZArith List String Ascii Bool Lia PrimFloat DecimalString.
From stdpp Require Import gmap strings list.

(** A decimal literal denotes the nearest float64, here as in Go. *)
#[global] Set Warnings "-inexact-float".

Import ListNotations.
Local Open Scope Z_scope.

(** ** Bytes of a Go string *)

Module GoString.

Definition byte_of (a : ascii) : Z := Z.of_N (N_of_ascii a).
Definition ascii_of (b : Z) : ascii := ascii_of_N (Z.to_N b).

Definition bytes (s : string) : list Z :=
  List.map byte_of (list_ascii_of_string s).
Definition of_bytes (p : list Z) : string :=
  string_of_list_ascii (List.map ascii_of p).

End GoString.

(** ** Package unicode/utf8, as used by [range] and by [string([]rune)] *)

Module Utf8.

Definition rune := Z.

Definition RuneError : rune := 0xFFFD.
Definition MaxRune : rune := 0x10FFFF.

(** The table [first] of utf8.go together with [acceptRanges]: for a lead
    byte, the length of the sequence and the range allowed for the second
    byte. [None] is the entry [xx] (an invalid lead byte). *)
Definition first (p0 : Z) : option (Z * Z * Z) :=
  if p0 <? 0xC2 then None
  else if p0 <=? 0xDF then Some (2, 0x80, 0xBF)
  else if p0 =? 0xE0 then Some (3, 0xA0, 0xBF)
  else if p0 =? 0xED then Some (3, 0x80, 0x9F)
  else if p0 <=? 0xEF then Some (3, 0x80, 0xBF)
  else if p0 =? 0xF0 then Some (4, 0x90, 0xBF)
  else if p0 <=? 0xF3 then Some (4, 0x80, 0xBF)
  else if p0 =? 0xF4 then Some (4, 0x80, 0x8F)
  else None.

Definition between (lo hi b : Z) : bool := (lo <=? b) && (b <=? hi).
Definition cont (b : Z) : bool := between 0x80 0xBF b.
Definition low6 (b : Z) : Z := Z.land b 0x3F.

(** [utf8.DecodeRune]: the first rune of [p] and its width in bytes. Every
    malformed or truncated sequence gives [(RuneError, 1)]. *)
Definition DecodeRune (p : list Z) : rune * nat :=
  match p with
  | [] => (RuneError, 0%nat)
  | p0 :: t =>
    if p0 <? 0x80 then (p0, 1%nat)
    else
      match first p0 with
      | None => (RuneError, 1%nat)
      | Some (sz, lo, hi) =>
        match t with
        | [] => (RuneError, 1%nat)
        | b1 :: t1 =>
          if negb (between lo hi b1) then (RuneError, 1%nat)
          else if sz <=? 2 then
            (Z.lor (Z.shiftl (Z.land p0 0x1F) 6) (low6 b1), 2%nat)
          else
            match t1 with
            | [] => (RuneError, 1%nat)
            | b2 :: t2 =>
              if negb (cont b2) then (RuneError, 1%nat)
              else if sz <=? 3 then
                (Z.lor (Z.shiftl (Z.land p0 0x0F) 12)
                   (Z.lor (Z.shiftl (low6 b1) 6) (low6 b2)), 3%nat)
              else
                match t2 with
                | [] => (RuneError, 1%nat)
                | b3 :: _ =>
                  if negb (cont b3) then (RuneError, 1%nat)
                  else
                    (Z.lor (Z.shiftl (Z.land p0 0x07) 18)
                       (Z.lor (Z.shiftl (low6 b1) 12)
                          (Z.lor (Z.shiftl (low6 b2) 6) (low6 b3))), 4%nat)
                end
            end
        end
      end
  end.

(** [for _, c := range s]: the runes of [s] in order. [skip] counts the
    bytes of the rune decoded last that are still to be passed over. *)
Fixpoint range_from (skip : nat) (p : list Z) : list rune :=
  match p with
  | [] => []
  | _ :: t =>
    match skip with
    | S k => range_from k t
    | O => let '(r, sz) := DecodeRune p in r :: range_from (Nat.pred sz) t
    end
  end.

Definition range (s : string) : list rune :=
  range_from 0 (GoString.bytes s).

(** [utf8.AppendRune]: surrogates and values outside the Unicode range are
    written as [RuneError]. *)
Definition EncodeRune (r : rune) : list Z :=
  if (0 <=? r) && (r <? 0x80) then [r]
  else if (0 <=? r) && (r <? 0x800) then
    [Z.lor 0xC0 (Z.shiftr r 6); Z.lor 0x80 (low6 r)]
  else if (r <? 0) || (MaxRune <? r) || between 0xD800 0xDFFF r then
    [0xEF; 0xBF; 0xBD]
  else if r <? 0x10000 then
    [Z.lor 0xE0 (Z.shiftr r 12); Z.lor 0x80 (low6 (Z.shiftr r 6));
     Z.lor 0x80 (low6 r)]
  else
    [Z.lor 0xF0 (Z.shiftr r 18); Z.lor 0x80 (low6 (Z.shiftr r 12));
     Z.lor 0x80 (low6 (Z.shiftr r 6)); Z.lor 0x80 (low6 r)].

(** [string(rs)] for [rs : []rune] *)
Definition string_of_runes (rs : list rune) : string :=
  GoString.of_bytes (List.concat (List.map EncodeRune rs)).

End Utf8.

(** ** Package strings *)

Module Strings.

Import Utf8.

(** [strings.HasPrefix(s, prefix)] *)
Definition HasPrefix (s prefix : string) : bool := String.prefix prefix s.

(** [s[n:]] for [n <= len(s)] *)
Definition drop (n : nat) (s : string) : string :=
  string_of_list_ascii (skipn n (list_ascii_of_string s)).

(** [strings.TrimPrefix(s, prefix)] *)
Definition TrimPrefix (s prefix : string) : string :=
  if HasPrefix s prefix then drop (String.length prefix) s else s.

(** [unicode.IsSpace]: the code points of the White_Space property *)
Definition IsSpace (r : rune) : bool :=
  between 0x09 0x0D r || (r =? 0x20) || (r =? 0x85) || (r =? 0xA0)
  || (r =? 0x1680) || between 0x2000 0x200A r || (r =? 0x2028)
  || (r =? 0x2029) || (r =? 0x202F) || (r =? 0x205F) || (r =? 0x3000).

(** The number of leading bytes of [p] that belong to white space runes
    (the index [strings.TrimLeftFunc] cuts at). *)
Fixpoint leadingSpace (skip : nat) (p : list Z) : nat :=
  match p with
  | [] => 0%nat
  | _ :: t =>
    match skip with
    | S k => S (leadingSpace k t)
    | O =>
      let '(r, sz) := DecodeRune p in
      if IsSpace r then S (leadingSpace (Nat.pred sz) t) else 0%nat
    end
  end.

Definition RuneStart (b : Z) : bool := negb (Z.land b 0xC0 =? 0x80).

(** The last [n] bytes of [p] *)
Definition lastBytes (n : nat) (p : list Z) : list Z :=
  skipn (length p - n) p.

(** [utf8.DecodeLastRune]: the start of the last rune is looked for among
    the three bytes before the final one; a sequence that does not end
    exactly at the end of [p] counts as [(RuneError, 1)]. *)
Definition DecodeLastRune (p : list Z) : rune * nat :=
  let try (j : nat) :=
    let '(r, sz) := DecodeRune (lastBytes j p) in
    if (sz =? j)%nat then (r, sz) else (RuneError, 1%nat) in
  match rev p with
  | [] => (RuneError, 0%nat)
  | b :: before =>
    if b <? 0x80 then (b, 1%nat)
    else
      match before with
      | [] => (RuneError, 1%nat)
      | b1 :: before1 =>
        if RuneStart b1 then try 2%nat
        else
          match before1 with
          | [] => (RuneError, 1%nat)
          | b2 :: before2 =>
            if RuneStart b2 then try 3%nat
            else
              match before2 with
              | [] => (RuneError, 1%nat)
              | b3 :: _ => if RuneStart b3 then try 4%nat else (RuneError, 1%nat)
              end
          end
      end
  end.

(** The number of trailing bytes that belong to white space runes; [q] is the
    text reversed. *)
Fixpoint trailingSpace (skip : nat) (q : list Z) : nat :=
  match q with
  | [] => 0%nat
  | _ :: t =>
    match skip with
    | S k => S (trailingSpace k t)
    | O =>
      let '(r, sz) := DecodeLastRune (rev q) in
      if IsSpace r then S (trailingSpace (Nat.pred sz) t) else 0%nat
    end
  end.

Definition TrimLeft (p : list Z) : list Z := skipn (leadingSpace 0 p) p.
Definition TrimRight (p : list Z) : list Z :=
  firstn (length p - trailingSpace 0 (rev p)) p.

(** [strings.TrimSpace(s)] *)
Definition TrimSpace (s : string) : string :=
  GoString.of_bytes (TrimRight (TrimLeft (GoString.bytes s))).

End Strings.

(** ** Package regexp, for the two patterns of the parser

    Go's regexp returns the leftmost match and, among the matches that start
    there, the one a backtracking search finds first. The two patterns of
    the parser use literals, classes of single characters, an optional
    group, greedy and lazy stars over a class, and one capture group. All
    their literals are ASCII and their classes hold all or none of the bytes
    above 0x7F, so matching byte by byte and matching rune by rune agree. *)

Module Regexp.

Inductive regex :=
| Lit (s : string)
| Seq (r1 r2 : regex)
| Opt (r : regex)
| Star (class : Z -> bool)
| StarLazy (class : Z -> bool)
| Group (r : regex).

(** What is left to match, given the rest of the text and the capture. *)
Definition cont_t := list Z -> option (list Z) -> option (list Z).

Fixpoint lit (l : list Z) (s : list Z) : option (list Z) :=
  match l with
  | [] => Some s
  | c :: l' =>
    match s with
    | [] => None
    | d :: s' => if c =? d then lit l' s' else None
    end
  end.

(** [x*]: as many as possible first, then one less, ... *)
Fixpoint star (class : Z -> bool) (s : list Z) (k : list Z -> option (list Z)) : option (list Z) :=
  match s with
  | [] => k []
  | c :: t =>
    if class c then
      match star class t k with
      | Some m => Some m
      | None => k s
      end
    else k s
  end.

(** [x*?]: none first, then one more, ... *)
Fixpoint starLazy (class : Z -> bool) (s : list Z) (k : list Z -> option (list Z)) : option (list Z) :=
  match k s with
  | Some m => Some m
  | None =>
    match s with
    | [] => None
    | c :: t => if class c then starLazy class t k else None
    end
  end.

Fixpoint matchAt (r : regex) (s : list Z) (cap : option (list Z)) (k : cont_t) : option (list Z) :=
  match r with
  | Lit l =>
    match lit (GoString.bytes l) s with
    | Some rest => k rest cap
    | None => None
    end
  | Seq r1 r2 => matchAt r1 s cap (fun rest cap' => matchAt r2 rest cap' k)
  | Opt r1 =>
    match matchAt r1 s cap k with
    | Some m => Some m
    | None => k s cap
    end
  | Star class => star class s (fun rest => k rest cap)
  | StarLazy class => starLazy class s (fun rest => k rest cap)
  | Group r1 =>
    matchAt r1 s cap
      (fun rest _ => k rest (Some (firstn (length s - length rest) s)))
  end.

(** The text of capture group 1 of the first match: what
    [FindAllStringSubmatch(text, -1)[0][1]] reads, [None] when the list of
    matches is empty. *)
Fixpoint find (r : regex) (s : list Z) : option (list Z) :=
  match matchAt r s None (fun _ cap => Some (default [] cap)) with
  | Some m => Some m
  | None =>
    match s with
    | [] => None
    | _ :: t => find r t
    end
  end.

Definition FirstSubmatch (r : regex) (text : string) : option string :=
  GoString.of_bytes <$> find r (GoString.bytes text).

(** [\s] of the RE2 syntax: tab, newline, form feed, carriage return, space *)
Definition class_s (c : Z) : bool :=
  (c =? 0x09) || (c =? 0x0A) || (c =? 0x0C) || (c =? 0x0D) || (c =? 0x20).
(** [[\s\S]] *)
Definition class_any (c : Z) : bool := true.
(** [[^`]] *)
Definition class_not_backtick (c : Z) : bool := negb (c =? 0x60).

Definition newline : string := String (ascii_of_N 10) EmptyString.

End Regexp.

(** ** Errors and results

    A Go function returning [(T, error)] returns a [result T]. *)

Inductive error :=
| SyntaxError                        (* *json.SyntaxError *)
| UnmarshalTypeError                 (* *json.UnmarshalTypeError *)
| PathError (notExist : bool)        (* the error of os.ReadFile *)
| ClientError (msg : string)         (* an error of llm.Client *)
| ErrorParsingConfig (e : error)     (* fmt.Errorf("error parsing config file: %w", e) *)
| ErrorProcessingEnv (e : error)     (* fmt.Errorf("error processing environment variables: %w", e) *)
| FailedToGenerate (e : error).      (* fmt.Errorf("failed to generate suggestions: %v", e) *)

Inductive result (A : Type) :=
| Ok (a : A)
| Err (e : error).

Arguments Ok {A} a.
Arguments Err {A} e.

(** ** Package encoding/json, as far as [json.Unmarshal] into the two
    destinations of the repository needs it *)

Module Json.

Import Utf8.

Inductive token :=
| TLBrace | TRBrace | TLBracket | TRBracket | TColon | TComma
| TString (raw : list Z)
| TNumber (lit : list Z)
| TTrue | TFalse | TNull.

Definition isSpace (c : Z) : bool :=
  (c =? 0x20) || (c =? 0x09) || (c =? 0x0D) || (c =? 0x0A).
Definition isDigit (c : Z) : bool := between 0x30 0x39 c.
Definition isHex (c : Z) : bool :=
  isDigit c || between 0x61 0x66 c || between 0x41 0x46 c.
(** The bytes a number or a literal name is made of. *)
Definition isWordChar (c : Z) : bool :=
  isDigit c || between 0x61 0x7A c || between 0x41 0x5A c
  || (c =? 0x2B) || (c =? 0x2D) || (c =? 0x2E).

(** The number grammar of scanner.go ([stateNeg], [state0], [state1],
    [stateDot], [stateDot0], [stateE], [stateESign], [stateE0]). *)
Fixpoint skipDigits (p : list Z) : list Z :=
  match p with
  | c :: t => if isDigit c then skipDigits t else p
  | [] => []
  end.

Definition digits1 (p : list Z) : option (list Z) :=
  match p with
  | c :: t => if isDigit c then Some (skipDigits t) else None
  | [] => None
  end.

Definition numberExp (p : list Z) : bool :=
  match p with
  | [] => true
  | c :: t =>
    if (c =? 0x65) || (c =? 0x45) then
      let t' :=
        match t with
        | s :: u => if (s =? 0x2B) || (s =? 0x2D) then u else t
        | [] => []
        end in
      match digits1 t' with
      | Some [] => true
      | _ => false
      end
    else false
  end.

Definition numberFrac (p : list Z) : bool :=
  match p with
  | [] => true
  | c :: t =>
    if c =? 0x2E then
      match digits1 t with
      | Some rest => numberExp rest
      | None => false
      end
    else numberExp p
  end.

Definition numberInt (p : list Z) : bool :=
  match p with
  | [] => false
  | c :: t =>
    if c =? 0x30 then numberFrac t
    else if between 0x31 0x39 c then numberFrac (skipDigits t)
    else false
  end.

Definition isNumber (p : list Z) : bool :=
  match p with
  | [] => false
  | c :: t => if c =? 0x2D then numberInt t else numberInt p
  end.

Definition wordToken (w : list Z) : option token :=
  if bool_decide (w = GoString.bytes "true") then Some TTrue
  else if bool_decide (w = GoString.bytes "false") then Some TFalse
  else if bool_decide (w = GoString.bytes "null") then Some TNull
  else if isNumber w then Some (TNumber w)
  else None.

(** The scanner reads one byte at a time; [mode] says what it is inside of.
    The bytes gathered so far are kept last byte first. *)
Inductive mode :=
| MDefault
| MString (acc : list Z)
| MEscape (acc : list Z)
| MHex (acc : list Z) (more : nat)
| MWord (acc : list Z).

(** A byte between two tokens. *)
Definition start (toks : list token) (c : Z) : option (mode * list token) :=
  if isSpace c then Some (MDefault, toks)
  else if c =? 0x7B then Some (MDefault, TLBrace :: toks)
  else if c =? 0x7D then Some (MDefault, TRBrace :: toks)
  else if c =? 0x5B then Some (MDefault, TLBracket :: toks)
  else if c =? 0x5D then Some (MDefault, TRBracket :: toks)
  else if c =? 0x3A then Some (MDefault, TColon :: toks)
  else if c =? 0x2C then Some (MDefault, TComma :: toks)
  else if c =? 0x22 then Some (MString [], toks)
  else if isWordChar c then Some (MWord [c], toks)
  else None.

Definition isEscape (c : Z) : bool :=
  (c =? 0x62) || (c =? 0x66) || (c =? 0x6E) || (c =? 0x72) || (c =? 0x74)
  || (c =? 0x5C) || (c =? 0x2F) || (c =? 0x22).

Fixpoint lex (m : mode) (toks : list token) (p : list Z) : option (list token) :=
  match p with
  | [] =>
    match m with
    | MDefault => Some (rev toks)
    | MWord acc =>
      match wordToken (rev acc) with
      | Some tk => Some (rev (tk :: toks))
      | None => None
      end
    | _ => None
    end
  | c :: t =>
    match m with
    | MDefault =>
      match start toks c with
      | Some (m', toks') => lex m' toks' t
      | None => None
      end
    | MString acc =>
      if c =? 0x22 then lex MDefault (TString (rev acc) :: toks) t
      else if c =? 0x5C then lex (MEscape (c :: acc)) toks t
      else if c <? 0x20 then None
      else lex (MString (c :: acc)) toks t
    | MEscape acc =>
      if isEscape c then lex (MString (c :: acc)) toks t
      else if c =? 0x75 then lex (MHex (c :: acc) 4) toks t
      else None
    | MHex acc more =>
      if isHex c then
        match more with
        | S O => lex (MString (c :: acc)) toks t
        | S more' => lex (MHex (c :: acc) more') toks t
        | O => None
        end
      else None
    | MWord acc =>
      if isWordChar c then lex (MWord (c :: acc)) toks t
      else
        match wordToken (rev acc) with
        | Some tk =>
          match start (tk :: toks) c with
          | Some (m', toks') => lex m' toks' t
          | None => None
          end
        | None => None
        end
    end
  end.

(** A JSON value; strings and keys keep the text between their quotes. *)
#[warnings="-register-all"]
Inductive json :=
| JNull
| JBool (b : bool)
| JNumber (lit : list Z)
| JString (raw : list Z)
| JArray (elems : list json)
| JObject (members : list (list Z * json)).

(** An array or object being read, as in the [parseState] stack of the
    scanner: what it holds so far, last first, and the key that waits for
    its value. *)
Inductive frame :=
| FArray (elems : list json)
| FObject (members : list (list Z * json)) (key : option (list Z)).

Inductive expect :=
| EValue            (* stateBeginValue *)
| EValueOrEnd       (* stateBeginValueOrEmpty, after [ *)
| EKeyOrEnd         (* stateBeginStringOrEmpty, after { *)
| EKey              (* stateBeginString, after a comma in an object *)
| EColon            (* stateEndValue in parseObjectKey *)
| ECommaOrEnd       (* stateEndValue in parseObjectValue or parseArrayValue *)
| EDone (v : json). (* stateEndTop *)

Definition maxNestingDepth : Z := 10000.

Definition deliver (v : json) (stack : list frame) : option (expect * list frame) :=
  match stack with
  | [] => Some (EDone v, [])
  | FArray elems :: rest => Some (ECommaOrEnd, FArray (v :: elems) :: rest)
  | FObject members (Some k) :: rest =>
    Some (ECommaOrEnd, FObject ((k, v) :: members) None :: rest)
  | FObject _ None :: _ => None
  end.

Definition push (f : frame) (e : expect) (stack : list frame) : option (expect * list frame) :=
  if maxNestingDepth <? Z.of_nat (length (f :: stack)) then None
  else Some (e, f :: stack).

Definition beginValue (tk : token) (stack : list frame) : option (expect * list frame) :=
  match tk with
  | TLBrace => push (FObject [] None) EKeyOrEnd stack
  | TLBracket => push (FArray []) EValueOrEnd stack
  | TString raw => deliver (JString raw) stack
  | TNumber l => deliver (JNumber l) stack
  | TTrue => deliver (JBool true) stack
  | TFalse => deliver (JBool false) stack
  | TNull => deliver JNull stack
  | _ => None
  end.

Definition close (tk : token) (stack : list frame) : option (expect * list frame) :=
  match tk, stack with
  | TRBracket, FArray elems :: rest => deliver (JArray (rev elems)) rest
  | TRBrace, FObject members None :: rest => deliver (JObject (rev members)) rest
  | _, _ => None
  end.

Definition step (st : expect * list frame) (tk : token) : option (expect * list frame) :=
  let '(e, stack) := st in
  match e with
  | EValue => beginValue tk stack
  | EValueOrEnd =>
    match tk with
    | TRBracket => close tk stack
    | _ => beginValue tk stack
    end
  | EKeyOrEnd =>
    match tk, stack with
    | TRBrace, _ => close tk stack
    | TString k, FObject members None :: rest =>
      Some (EColon, FObject members (Some k) :: rest)
    | _, _ => None
    end
  | EKey =>
    match tk, stack with
    | TString k, FObject members None :: rest =>
      Some (EColon, FObject members (Some k) :: rest)
    | _, _ => None
    end
  | EColon =>
    match tk with
    | TColon => Some (EValue, stack)
    | _ => None
    end
  | ECommaOrEnd =>
    match tk, stack with
    | TComma, FArray _ :: _ => Some (EValue, stack)
    | TComma, FObject _ _ :: _ => Some (EKey, stack)
    | _, _ => close tk stack
    end
  | EDone _ => None
  end.

Fixpoint steps (st : expect * list frame) (toks : list token) : option json :=
  match toks with
  | [] =>
    match st with
    | (EDone v, _) => Some v
    | _ => None
    end
  | tk :: toks' =>
    match step st tk with
    | Some st' => steps st' toks'
    | None => None
    end
  end.

(** The value [data] denotes, [None] when [checkValid] rejects [data]. *)
Definition parse (data : string) : option json :=
  match lex MDefault [] (GoString.bytes data) with
  | Some toks => steps (EValue, []) toks
  | None => None
  end.

(** [getu4]: the value of a [\uXXXX] escape at the head of [p] *)
Definition hexval (c : Z) : Z :=
  if isDigit c then c - 0x30
  else if between 0x61 0x66 c then c - 0x61 + 10
  else c - 0x41 + 10.

Definition getu4 (p : list Z) : option Z :=
  match p with
  | b :: u :: h1 :: h2 :: h3 :: h4 :: _ =>
    if (b =? 0x5C) && (u =? 0x75) && isHex h1 && isHex h2 && isHex h3 && isHex h4
    then Some (hexval h1 * 4096 + hexval h2 * 256 + hexval h3 * 16 + hexval h4)
    else None
  | _ => None
  end.

(** [utf16.IsSurrogate] and [utf16.DecodeRune] *)
Definition IsSurrogate (r : rune) : bool := between 0xD800 0xDFFF r.

Definition DecodeSurrogates (r1 r2 : rune) : rune :=
  if between 0xD800 0xDBFF r1 && between 0xDC00 0xDFFF r2
  then (r1 - 0xD800) * 1024 + (r2 - 0xDC00) + 0x10000
  else RuneError.

Definition escapeByte (c : Z) : Z :=
  if c =? 0x62 then 0x08
  else if c =? 0x66 then 0x0C
  else if c =? 0x6E then 0x0A
  else if c =? 0x72 then 0x0D
  else if c =? 0x74 then 0x09
  else c.

(** [unquoteBytes] on the text between the quotes of a literal the scanner
    has accepted: escapes are replaced, a lone surrogate and every byte
    that is not UTF-8 become U+FFFD. [skip] counts the bytes already
    consumed by the step before. *)
Fixpoint unquoteFrom (skip : nat) (p : list Z) : list Z :=
  match p with
  | [] => []
  | c :: t =>
    match skip with
    | S k => unquoteFrom k t
    | O =>
      if c =? 0x5C then
        match t with
        | [] => []
        | e :: _ =>
          if e =? 0x75 then
            match getu4 p with
            | None => []
            | Some rr =>
              if IsSurrogate rr then
                match getu4 (skipn 6 p) with
                | Some rr1 =>
                  if DecodeSurrogates rr rr1 =? RuneError
                  then EncodeRune RuneError ++ unquoteFrom 5 t
                  else EncodeRune (DecodeSurrogates rr rr1) ++ unquoteFrom 11 t
                | None => EncodeRune RuneError ++ unquoteFrom 5 t
                end
              else EncodeRune rr ++ unquoteFrom 5 t
            end
          else escapeByte e :: unquoteFrom 1 t
        end
      else if c <? 0x80 then c :: unquoteFrom 0 t
      else
        let '(rr, sz) := DecodeRune p in
        EncodeRune rr ++ unquoteFrom (Nat.pred sz) t
    end
  end.

Definition unquote (raw : list Z) : string :=
  GoString.of_bytes (unquoteFrom 0 raw).

(** How a key is compared with the name of a struct field when the two are
    not equal byte for byte: without regard to the case of ASCII letters.
    (For a name without the letters k and s, as [command], Unicode case
    folding adds nothing to this.) *)
Definition upper (c : Z) : Z := if between 0x61 0x7A c then c - 0x20 else c.

Definition equalFold (a b : string) : bool :=
  bool_decide (List.map upper (GoString.bytes a) = List.map upper (GoString.bytes b)).

(** A member of an object stored into a struct whose only field is a
    [string] named [name]: a string sets the field, [null] leaves it, any
    other value is a type error, which is kept while decoding goes on; a
    member with another key is skipped. *)
Definition storeMember (name : string) (st : string * option error)
    (m : list Z * json) : string * option error :=
  let '(field, saved) := st in
  let '(k, v) := m in
  if equalFold (unquote k) name then
    match v with
    | JString raw => (unquote raw, saved)
    | JNull => (field, saved)
    | _ => (field, Some (default UnmarshalTypeError saved))
    end
  else (field, saved).

(** [json.Unmarshal(data, &v)] for [v] a struct whose only field is a
    [string] with the JSON name [name]; the result is the field. *)
Definition UnmarshalStringField (name : string) (data : string) : result string :=
  match parse data with
  | None => Err SyntaxError
  | Some JNull => Ok EmptyString
  | Some (JObject members) =>
    match fold_left (storeMember name) members (EmptyString, None) with
    | (field, None) => Ok field
    | (_, Some e) => Err e
    end
  | Some _ => Err UnmarshalTypeError
  end.

Definition storeEntry (st : gmap string string * option error)
    (m : list Z * json) : gmap string string * option error :=
  let '(mp, saved) := st in
  let '(k, v) := m in
  match v with
  | JString raw => (<[unquote k := unquote raw]> mp, saved)
  | JNull => (<[unquote k := EmptyString]> mp, saved)
  | _ => (<[unquote k := EmptyString]> mp, Some (default UnmarshalTypeError saved))
  end.

(** [json.Unmarshal(data, &m)] for [m] a nil [map[string]string] *)
Definition UnmarshalStringMap (data : string) : result (gmap string string) :=
  match parse data with
  | None => Err SyntaxError
  | Some JNull => Ok ∅
  | Some (JObject members) =>
    match fold_left storeEntry members (∅, None) with
    | (mp, None) => Ok mp
    | (_, Some e) => Err e
    end
  | Some _ => Err UnmarshalTypeError
  end.

End Json.

(** ** Package strconv *)

Module Strconv.

Import Utf8.

Fixpoint digitsValue (acc : Z) (p : list Z) : option Z :=
  match p with
  | [] => Some acc
  | c :: t =>
    if Json.isDigit c then digitsValue (acc * 10 + (c - 0x30)) t else None
  end.

(** [strconv.Atoi] with a 64-bit [int]: an optional sign, then one decimal
    digit or more, nothing else; a value outside the range of [int] is an
    error as well. [None] stands for a non-nil error. *)
Definition Atoi (s : string) : option Z :=
  match GoString.bytes s with
  | [] => None
  | c :: t =>
    let neg := c =? 0x2D in
    let ds := if neg || (c =? 0x2B) then t else c :: t in
    match ds with
    | [] => None
    | _ =>
      match digitsValue 0 ds with
      | None => None
      | Some n =>
        let v := if neg then - n else n in
        if (- 2 ^ 63 <=? v) && (v <=? 2 ^ 63 - 1) then Some v else None
      end
    end
  end.

(** [strconv.ParseBool] *)
Definition ParseBool (str : string) : option bool :=
  if bool_decide (str ∈ ["1"; "t"; "T"; "TRUE"; "true"; "True"]%string) then Some true
  else if bool_decide (str ∈ ["0"; "f"; "F"; "FALSE"; "false"; "False"]%string) then Some false
  else None.

End Strconv.

(** ** internal/parser/parser.go *)

Module Parser.

Import Utf8.

(** MaxContextTokens is the maximum number of tokens to keep in context *)
Definition MaxContextTokens : Z := 1500.

Record ContextManager := mkContextManager {
  tokenBuffer : list rune;
  maxTokens : Z
}.

(** [make([]rune, 0, n)] panics for a negative capacity; the capacity of a
    slice is otherwise not observable through this package. *)
Definition make_runes (cap : Z) : option (list rune) :=
  if cap <? 0 then None else Some [].

Definition NewContextManager : ContextManager :=
  {| tokenBuffer := []; maxTokens := MaxContextTokens |}.

(** [cm.tokenBuffer[1:]] panics on an empty slice (low bound 1 above the
    length 0); [None] stands for the panic. *)
Definition AddToken (cm : ContextManager) (token : rune) : option ContextManager :=
  if maxTokens cm <=? Z.of_nat (length (tokenBuffer cm)) then
    match tokenBuffer cm with
    | [] => None
    | _ :: rest =>
      Some {| tokenBuffer := rest ++ [token]; maxTokens := maxTokens cm |}
    end
  else
    Some {| tokenBuffer := tokenBuffer cm ++ [token]; maxTokens := maxTokens cm |}.

Definition Flush (cm : ContextManager) : option ContextManager :=
  match make_runes (maxTokens cm) with
  | None => None
  | Some b => Some {| tokenBuffer := b; maxTokens := maxTokens cm |}
  end.

(** The loop [for _, c := range chunk { cm.AddToken(c) }] *)
Fixpoint AddTokens (cm : ContextManager) (cs : list rune) : option ContextManager :=
  match cs with
  | [] => Some cm
  | c :: cs' =>
    match AddToken cm c with
    | None => None
    | Some cm' => AddTokens cm' cs'
    end
  end.

Definition AddChunk (cm : ContextManager) (chunk : string) : option ContextManager :=
  match Flush cm with
  | None => None
  | Some cm0 => AddTokens cm0 (range chunk)
  end.

Definition GetContext (cm : ContextManager) : string :=
  if (length (tokenBuffer cm) =? 0)%nat then EmptyString
  else string_of_runes (tokenBuffer cm).

(** CommandResponse represents the parsed command from the LLM response *)
Record CommandResponse := mkCommandResponse {
  Command : string   (* `json:"command"` *)
}.

(** [json.Unmarshal([]byte(jsonContent), &commandResp)] *)
Definition Unmarshal (data : string) : result CommandResponse :=
  match Json.UnmarshalStringField "command" data with
  | Ok c => Ok {| Command := c |}
  | Err e => Err e
  end.

Import Regexp.

(** The pattern of a code block: three backticks, optionally [json], white
    space ending in a newline, as capture group 1 the shortest run of
    characters that is followed by a newline and three backticks. *)
Definition codeBlockRegex : regex :=
  Seq (Lit "```")
    (Seq (Opt (Lit "json"))
       (Seq (Star class_s)
          (Seq (Lit newline)
             (Seq (Group (StarLazy class_any))
                (Lit (newline ++ "```")))))).

(** The pattern of inline code: a backtick, as capture group 1 the longest
    run of characters other than a backtick, and a backtick. *)
Definition inlineCodeRegex : regex :=
  Seq (Lit "`") (Seq (Group (Star class_not_backtick)) (Lit "`")).

(** extractJSONFromMarkdown extracts JSON content from markdown code blocks *)
Definition extractJSONFromMarkdown (markdown : string) : string :=
  match FirstSubmatch codeBlockRegex markdown with
  | Some content => Strings.TrimSpace content
  | None =>
    match FirstSubmatch inlineCodeRegex markdown with
    | Some content => Strings.TrimSpace content
    | None => EmptyString
    end
  end.

(** The text handed to [json.Unmarshal]. *)
Definition jsonContent (response : string) : string :=
  let content := extractJSONFromMarkdown response in
  if bool_decide (content = EmptyString) then response else content.

(** ParseLLMResponse parses the LLM response to extract the command. None
    of its steps can panic: the patterns are constants that compile, the
    index [matches[0][1]] is read only when a match exists, and
    [json.Unmarshal] is given a pointer to a struct. *)
Definition ParseLLMResponse (response : string) : result string :=
  match Unmarshal (jsonContent response) with
  | Err err => Err err
  | Ok commandResp => Ok (Command commandResp)
  end.

End Parser.

(** ** internal/config/config.go *)

Module Config.

(** Config holds the application configuration *)
Record Config := mkConfig {
  OpenAIAPIKey : string;
  OpenAIModel : string;
  OpenAIMaxTokens : Z;
  OpenAIAPIBase : string;
  OpenAIOrganization : string;
  OpenAIProxy : string;
  OpenAIAPIVersion : string;
  GroqAPIKey : string;
  GroqModel : string;
  APIProvider : string;
  SuggestionCount : Z;
  SkipConfirm : bool;
  SkipHistory : bool;
  Temperature : float;
  Debug : bool;
  ContextMode : bool
}.

(** The assignments [cfg.F = v] *)
Definition set_OpenAIAPIKey (v : string) (cfg : Config) : Config :=
  {| OpenAIAPIKey := v; OpenAIModel := OpenAIModel cfg;
     OpenAIMaxTokens := OpenAIMaxTokens cfg;
     OpenAIAPIBase := OpenAIAPIBase cfg;
     OpenAIOrganization := OpenAIOrganization cfg;
     OpenAIProxy := OpenAIProxy cfg;
     OpenAIAPIVersion := OpenAIAPIVersion cfg; GroqAPIKey := GroqAPIKey cfg;
     GroqModel := GroqModel cfg; APIProvider := APIProvider cfg;
     SuggestionCount := SuggestionCount cfg; SkipConfirm := SkipConfirm cfg;
     SkipHistory := SkipHistory cfg; Temperature := Temperature cfg;
     Debug := Debug cfg; ContextMode := ContextMode cfg |}.
Definition set_OpenAIModel (v : string) (cfg : Config) : Config :=
  {| OpenAIAPIKey := OpenAIAPIKey cfg; OpenAIModel := v;
     OpenAIMaxTokens := OpenAIMaxTokens cfg;
     OpenAIAPIBase := OpenAIAPIBase cfg;
     OpenAIOrganization := OpenAIOrganization cfg;
     OpenAIProxy := OpenAIProxy cfg;
     OpenAIAPIVersion := OpenAIAPIVersion cfg; GroqAPIKey := GroqAPIKey cfg;
     GroqModel := GroqModel cfg; APIProvider := APIProvider cfg;
     SuggestionCount := SuggestionCount cfg; SkipConfirm := SkipConfirm cfg;
     SkipHistory := SkipHistory cfg; Temperature := Temperature cfg;
     Debug := Debug cfg; ContextMode := ContextMode cfg |}.
Definition set_OpenAIMaxTokens (v : Z) (cfg : Config) : Config :=
  {| OpenAIAPIKey := OpenAIAPIKey cfg; OpenAIModel := OpenAIModel cfg;
     OpenAIMaxTokens := v; OpenAIAPIBase := OpenAIAPIBase cfg;
     OpenAIOrganization := OpenAIOrganization cfg;
     OpenAIProxy := OpenAIProxy cfg;
     OpenAIAPIVersion := OpenAIAPIVersion cfg; GroqAPIKey := GroqAPIKey cfg;
     GroqModel := GroqModel cfg; APIProvider := APIProvider cfg;
     SuggestionCount := SuggestionCount cfg; SkipConfirm := SkipConfirm cfg;
     SkipHistory := SkipHistory cfg; Temperature := Temperature cfg;
     Debug := Debug cfg; ContextMode := ContextMode cfg |}.
Definition set_OpenAIAPIBase (v : string) (cfg : Config) : Config :=
  {| OpenAIAPIKey := OpenAIAPIKey cfg; OpenAIModel := OpenAIModel cfg;
     OpenAIMaxTokens := OpenAIMaxTokens cfg; OpenAIAPIBase := v;
     OpenAIOrganization := OpenAIOrganization cfg;
     OpenAIProxy := OpenAIProxy cfg;
     OpenAIAPIVersion := OpenAIAPIVersion cfg; GroqAPIKey := GroqAPIKey cfg;
     GroqModel := GroqModel cfg; APIProvider := APIProvider cfg;
     SuggestionCount := SuggestionCount cfg; SkipConfirm := SkipConfirm cfg;
     SkipHistory := SkipHistory cfg; Temperature := Temperature cfg;
     Debug := Debug cfg; ContextMode := ContextMode cfg |}.
Definition set_OpenAIOrganization (v : string) (cfg : Config) : Config :=
  {| OpenAIAPIKey := OpenAIAPIKey cfg; OpenAIModel := OpenAIModel cfg;
     OpenAIMaxTokens := OpenAIMaxTokens cfg;
     OpenAIAPIBase := OpenAIAPIBase cfg; OpenAIOrganization := v;
     OpenAIProxy := OpenAIProxy cfg;
     OpenAIAPIVersion := OpenAIAPIVersion cfg; GroqAPIKey := GroqAPIKey cfg;
     GroqModel := GroqModel cfg; APIProvider := APIProvider cfg;
     SuggestionCount := SuggestionCount cfg; SkipConfirm := SkipConfirm cfg;
     SkipHistory := SkipHistory cfg; Temperature := Temperature cfg;
     Debug := Debug cfg; ContextMode := ContextMode cfg |}.
Definition set_OpenAIProxy (v : string) (cfg : Config) : Config :=
  {| OpenAIAPIKey := OpenAIAPIKey cfg; OpenAIModel := OpenAIModel cfg;
     OpenAIMaxTokens := OpenAIMaxTokens cfg;
     OpenAIAPIBase := OpenAIAPIBase cfg;
     OpenAIOrganization := OpenAIOrganization cfg; OpenAIProxy := v;
     OpenAIAPIVersion := OpenAIAPIVersion cfg; GroqAPIKey := GroqAPIKey cfg;
     GroqModel := GroqModel cfg; APIProvider := APIProvider cfg;
     SuggestionCount := SuggestionCount cfg; SkipConfirm := SkipConfirm cfg;
     SkipHistory := SkipHistory cfg; Temperature := Temperature cfg;
     Debug := Debug cfg; ContextMode := ContextMode cfg |}.
Definition set_OpenAIAPIVersion (v : string) (cfg : Config) : Config :=
  {| OpenAIAPIKey := OpenAIAPIKey cfg; OpenAIModel := OpenAIModel cfg;
     OpenAIMaxTokens := OpenAIMaxTokens cfg;
     OpenAIAPIBase := OpenAIAPIBase cfg;
     OpenAIOrganization := OpenAIOrganization cfg;
     OpenAIProxy := OpenAIProxy cfg; OpenAIAPIVersion := v;
     GroqAPIKey := GroqAPIKey cfg; GroqModel := GroqModel cfg;
     APIProvider := APIProvider cfg; SuggestionCount := SuggestionCount cfg;
     SkipConfirm := SkipConfirm cfg; SkipHistory := SkipHistory cfg;
     Temperature := Temperature cfg; Debug := Debug cfg;
     ContextMode := ContextMode cfg |}.
Definition set_GroqAPIKey (v : string) (cfg : Config) : Config :=
  {| OpenAIAPIKey := OpenAIAPIKey cfg; OpenAIModel := OpenAIModel cfg;
     OpenAIMaxTokens := OpenAIMaxTokens cfg;
     OpenAIAPIBase := OpenAIAPIBase cfg;
     OpenAIOrganization := OpenAIOrganization cfg;
     OpenAIProxy := OpenAIProxy cfg;
     OpenAIAPIVersion := OpenAIAPIVersion cfg; GroqAPIKey := v;
     GroqModel := GroqModel cfg; APIProvider := APIProvider cfg;
     SuggestionCount := SuggestionCount cfg; SkipConfirm := SkipConfirm cfg;
     SkipHistory := SkipHistory cfg; Temperature := Temperature cfg;
     Debug := Debug cfg; ContextMode := ContextMode cfg |}.
Definition set_GroqModel (v : string) (cfg : Config) : Config :=
  {| OpenAIAPIKey := OpenAIAPIKey cfg; OpenAIModel := OpenAIModel cfg;
     OpenAIMaxTokens := OpenAIMaxTokens cfg;
     OpenAIAPIBase := OpenAIAPIBase cfg;
     OpenAIOrganization := OpenAIOrganization cfg;
     OpenAIProxy := OpenAIProxy cfg;
     OpenAIAPIVersion := OpenAIAPIVersion cfg; GroqAPIKey := GroqAPIKey cfg;
     GroqModel := v; APIProvider := APIProvider cfg;
     SuggestionCount := SuggestionCount cfg; SkipConfirm := SkipConfirm cfg;
     SkipHistory := SkipHistory cfg; Temperature := Temperature cfg;
     Debug := Debug cfg; ContextMode := ContextMode cfg |}.
Definition set_APIProvider (v : string) (cfg : Config) : Config :=
  {| OpenAIAPIKey := OpenAIAPIKey cfg; OpenAIModel := OpenAIModel cfg;
     OpenAIMaxTokens := OpenAIMaxTokens cfg;
     OpenAIAPIBase := OpenAIAPIBase cfg;
     OpenAIOrganization := OpenAIOrganization cfg;
     OpenAIProxy := OpenAIProxy cfg;
     OpenAIAPIVersion := OpenAIAPIVersion cfg; GroqAPIKey := GroqAPIKey cfg;
     GroqModel := GroqModel cfg; APIProvider := v;
     SuggestionCount := SuggestionCount cfg; SkipConfirm := SkipConfirm cfg;
     SkipHistory := SkipHistory cfg; Temperature := Temperature cfg;
     Debug := Debug cfg; ContextMode := ContextMode cfg |}.
Definition set_SuggestionCount (v : Z) (cfg : Config) : Config :=
  {| OpenAIAPIKey := OpenAIAPIKey cfg; OpenAIModel := OpenAIModel cfg;
     OpenAIMaxTokens := OpenAIMaxTokens cfg;
     OpenAIAPIBase := OpenAIAPIBase cfg;
     OpenAIOrganization := OpenAIOrganization cfg;
     OpenAIProxy := OpenAIProxy cfg;
     OpenAIAPIVersion := OpenAIAPIVersion cfg; GroqAPIKey := GroqAPIKey cfg;
     GroqModel := GroqModel cfg; APIProvider := APIProvider cfg;
     SuggestionCount := v; SkipConfirm := SkipConfirm cfg;
     SkipHistory := SkipHistory cfg; Temperature := Temperature cfg;
     Debug := Debug cfg; ContextMode := ContextMode cfg |}.
Definition set_SkipConfirm (v : bool) (cfg : Config) : Config :=
  {| OpenAIAPIKey := OpenAIAPIKey cfg; OpenAIModel := OpenAIModel cfg;
     OpenAIMaxTokens := OpenAIMaxTokens cfg;
     OpenAIAPIBase := OpenAIAPIBase cfg;
     OpenAIOrganization := OpenAIOrganization cfg;
     OpenAIProxy := OpenAIProxy cfg;
     OpenAIAPIVersion := OpenAIAPIVersion cfg; GroqAPIKey := GroqAPIKey cfg;
     GroqModel := GroqModel cfg; APIProvider := APIProvider cfg;
     SuggestionCount := SuggestionCount cfg; SkipConfirm := v;
     SkipHistory := SkipHistory cfg; Temperature := Temperature cfg;
     Debug := Debug cfg; ContextMode := ContextMode cfg |}.
Definition set_SkipHistory (v : bool) (cfg : Config) : Config :=
  {| OpenAIAPIKey := OpenAIAPIKey cfg; OpenAIModel := OpenAIModel cfg;
     OpenAIMaxTokens := OpenAIMaxTokens cfg;
     OpenAIAPIBase := OpenAIAPIBase cfg;
     OpenAIOrganization := OpenAIOrganization cfg;
     OpenAIProxy := OpenAIProxy cfg;
     OpenAIAPIVersion := OpenAIAPIVersion cfg; GroqAPIKey := GroqAPIKey cfg;
     GroqModel := GroqModel cfg; APIProvider := APIProvider cfg;
     SuggestionCount := SuggestionCount cfg; SkipConfirm := SkipConfirm cfg;
     SkipHistory := v; Temperature := Temperature cfg; Debug := Debug cfg;
     ContextMode := ContextMode cfg |}.
Definition set_Temperature (v : float) (cfg : Config) : Config :=
  {| OpenAIAPIKey := OpenAIAPIKey cfg; OpenAIModel := OpenAIModel cfg;
     OpenAIMaxTokens := OpenAIMaxTokens cfg;
     OpenAIAPIBase := OpenAIAPIBase cfg;
     OpenAIOrganization := OpenAIOrganization cfg;
     OpenAIProxy := OpenAIProxy cfg;
     OpenAIAPIVersion := OpenAIAPIVersion cfg; GroqAPIKey := GroqAPIKey cfg;
     GroqModel := GroqModel cfg; APIProvider := APIProvider cfg;
     SuggestionCount := SuggestionCount cfg; SkipConfirm := SkipConfirm cfg;
     SkipHistory := SkipHistory cfg; Temperature := v; Debug := Debug cfg;
     ContextMode := ContextMode cfg |}.
Definition set_Debug (v : bool) (cfg : Config) : Config :=
  {| OpenAIAPIKey := OpenAIAPIKey cfg; OpenAIModel := OpenAIModel cfg;
     OpenAIMaxTokens := OpenAIMaxTokens cfg;
     OpenAIAPIBase := OpenAIAPIBase cfg;
     OpenAIOrganization := OpenAIOrganization cfg;
     OpenAIProxy := OpenAIProxy cfg;
     OpenAIAPIVersion := OpenAIAPIVersion cfg; GroqAPIKey := GroqAPIKey cfg;
     GroqModel := GroqModel cfg; APIProvider := APIProvider cfg;
     SuggestionCount := SuggestionCount cfg; SkipConfirm := SkipConfirm cfg;
     SkipHistory := SkipHistory cfg; Temperature := Temperature cfg;
     Debug := v; ContextMode := ContextMode cfg |}.
Definition set_ContextMode (v : bool) (cfg : Config) : Config :=
  {| OpenAIAPIKey := OpenAIAPIKey cfg; OpenAIModel := OpenAIModel cfg;
     OpenAIMaxTokens := OpenAIMaxTokens cfg;
     OpenAIAPIBase := OpenAIAPIBase cfg;
     OpenAIOrganization := OpenAIOrganization cfg;
     OpenAIProxy := OpenAIProxy cfg;
     OpenAIAPIVersion := OpenAIAPIVersion cfg; GroqAPIKey := GroqAPIKey cfg;
     GroqModel := GroqModel cfg; APIProvider := APIProvider cfg;
     SuggestionCount := SuggestionCount cfg; SkipConfirm := SkipConfirm cfg;
     SkipHistory := SkipHistory cfg; Temperature := Temperature cfg;
     Debug := Debug cfg; ContextMode := v |}.

(** A guarded assignment: [if v, ok := ...; ok { cfg.F = v }] *)
Definition assign {A : Type} (set : A -> Config -> Config) (val : option A)
    (cfg : Config) : Config :=
  match val with
  | Some v => set v cfg
  | None => cfg
  end.

(** The zero value of [Config], then the defaults of [LoadConfig]. *)
Definition zero : Config :=
  {| OpenAIAPIKey := ""; OpenAIModel := ""; OpenAIMaxTokens := 0;
     OpenAIAPIBase := ""; OpenAIOrganization := ""; OpenAIProxy := "";
     OpenAIAPIVersion := ""; GroqAPIKey := ""; GroqModel := "";
     APIProvider := ""; SuggestionCount := 0; SkipConfirm := false;
     SkipHistory := false; Temperature := 0%float; Debug := false;
     ContextMode := false |}.

Definition defaults : Config :=
  set_OpenAIAPIVersion "2023-05-15"
    (set_Temperature 0.05%float
       (set_GroqModel "llama-3.3-70b-versatile"
          (set_APIProvider "groq"
             (set_SuggestionCount 3
                (set_OpenAIModel "gpt-3.5-turbo" zero))))).

(** [os.Getenv]: the value of the variable, empty when it is not set. *)
Definition Getenv (env : gmap string string) (key : string) : string :=
  default EmptyString (env !! key).

(** [if val := os.Getenv(key); val != "" { ... val ... }] *)
Definition nonEmpty (val : string) : option string :=
  if bool_decide (val = EmptyString) then None else Some val.

Section WithParseFloat.

(** [strconv.ParseFloat(val, 64)], [None] standing for a non-nil error. The
    conversion of decimal text to the nearest float64 is left to the
    library. *)
Variable ParseFloat : string -> option float.

(** loadFromConfigFile loads configuration from a JSON file. [file] is what
    [os.ReadFile(configPath)] returns. The configuration is left as it was
    whenever an error is returned. *)
Definition loadFromConfigFile (file : result string) (cfg : Config) : Config * option error :=
  match file with
  | Err err => (cfg, Some err)
  | Ok data =>
    match Json.UnmarshalStringMap data with
    | Err err => (cfg, Some (ErrorParsingConfig err))
    | Ok configMap =>
      let cfg := assign set_OpenAIAPIKey (configMap !! "OPENAI_API_KEY") cfg in
      let cfg := assign set_OpenAIModel (configMap !! "OPENAI_MODEL") cfg in
      let cfg := assign set_OpenAIMaxTokens (configMap !! "OPENAI_MAX_TOKENS" ≫= Strconv.Atoi) cfg in
      let cfg := assign set_OpenAIAPIBase (configMap !! "OPENAI_API_BASE") cfg in
      let cfg := assign set_OpenAIOrganization (configMap !! "OPENAI_ORGANIZATION") cfg in
      let cfg := assign set_OpenAIProxy (configMap !! "OPENAI_PROXY") cfg in
      let cfg := assign set_OpenAIAPIVersion (configMap !! "OPENAI_API_VERSION") cfg in
      let cfg := assign set_GroqAPIKey (configMap !! "GROQ_API_KEY") cfg in
      let cfg := assign set_GroqModel (configMap !! "GROQ_MODEL") cfg in
      let cfg := assign set_APIProvider (configMap !! "SHAI_API_PROVIDER") cfg in
      let cfg := assign set_SuggestionCount (configMap !! "SHAI_SUGGESTION_COUNT" ≫= Strconv.Atoi) cfg in
      let cfg := assign set_SkipConfirm (configMap !! "SHAI_SKIP_CONFIRM" ≫= Strconv.ParseBool) cfg in
      let cfg := assign set_SkipHistory (configMap !! "SHAI_SKIP_HISTORY" ≫= Strconv.ParseBool) cfg in
      let cfg := assign set_Temperature (configMap !! "SHAI_TEMPERATURE" ≫= ParseFloat) cfg in
      let cfg := assign set_Debug (configMap !! "DEBUG" ≫= Strconv.ParseBool) cfg in
      let cfg := assign set_ContextMode (configMap !! "CTX" ≫= Strconv.ParseBool) cfg in
      (cfg, None)
    end
  end.

(** loadFromEnv loads configuration from environment variables *)
Definition loadFromEnv (env : gmap string string) (cfg : Config) : Config * option error :=
  let cfg := assign set_OpenAIAPIKey (nonEmpty (Getenv env "OPENAI_API_KEY")) cfg in
  let cfg := assign set_OpenAIModel (nonEmpty (Getenv env "OPENAI_MODEL")) cfg in
  let cfg := assign set_OpenAIMaxTokens (nonEmpty (Getenv env "OPENAI_MAX_TOKENS") ≫= Strconv.Atoi) cfg in
  let cfg := assign set_OpenAIAPIBase (nonEmpty (Getenv env "OPENAI_API_BASE")) cfg in
  let cfg := assign set_OpenAIOrganization (nonEmpty (Getenv env "OPENAI_ORGANIZATION")) cfg in
  let cfg := assign set_OpenAIProxy (nonEmpty (Getenv env "OPENAI_PROXY")) cfg in
  let cfg := assign set_OpenAIAPIVersion (nonEmpty (Getenv env "OPENAI_API_VERSION")) cfg in
  let cfg := assign set_GroqAPIKey (nonEmpty (Getenv env "GROQ_API_KEY")) cfg in
  let cfg := assign set_GroqModel (nonEmpty (Getenv env "GROQ_MODEL")) cfg in
  let cfg := assign set_APIProvider (nonEmpty (Getenv env "SHAI_API_PROVIDER")) cfg in
  let cfg := assign set_SuggestionCount (nonEmpty (Getenv env "SHAI_SUGGESTION_COUNT") ≫= Strconv.Atoi) cfg in
  let cfg := assign set_SkipConfirm (nonEmpty (Getenv env "SHAI_SKIP_CONFIRM") ≫= Strconv.ParseBool) cfg in
  let cfg := assign set_SkipHistory (nonEmpty (Getenv env "SHAI_SKIP_HISTORY") ≫= Strconv.ParseBool) cfg in
  let cfg := assign set_Temperature (nonEmpty (Getenv env "SHAI_TEMPERATURE") ≫= ParseFloat) cfg in
  let cfg := assign set_Debug (nonEmpty (Getenv env "DEBUG") ≫= Strconv.ParseBool) cfg in
  let cfg := assign set_ContextMode (nonEmpty (Getenv env "CTX") ≫= Strconv.ParseBool) cfg in
  (cfg, None).

(** LoadConfig loads the configuration from environment variables and
    config file. An error of [loadFromConfigFile] is dropped (with a
    warning on the error stream unless the file does not exist). *)
Definition LoadConfig (file : result string) (env : gmap string string) : result Config :=
  let cfg := defaults in
  let '(cfg, _) := loadFromConfigFile file cfg in
  match loadFromEnv env cfg with
  | (_, Some err) => Err (ErrorProcessingEnv err)
  | (cfg, None) => Ok cfg
  end.

End WithParseFloat.

End Config.

(** ** internal/suggestions/suggestions.go

    The file exists in two variants (a plain menu and a promptui menu);
    what is modelled here is the same in both. *)

Module Suggestions.

Import Parser Config.

(** TextEditors is a list of common text editors *)
Definition TextEditors : list string :=
  ["vi"; "vim"; "emacs"; "nano"; "ed"; "micro"; "joe"; "nvim"]%string.

(** startsWithAny checks if a string starts with any of the given prefixes *)
Fixpoint startsWithAny (s : string) (prefixes : list string) : bool :=
  match prefixes with
  | [] => false
  | prefix :: rest =>
    if Strings.HasPrefix s prefix then true else startsWithAny s rest
  end.

(** One turn of the loop of [deduplicate]: [seen] is the map used as a set,
    [result] the slice appended to. *)
Definition dedupStep (st : gset string * list string) (item : string) : gset string * list string :=
  let '(seen, result) := st in
  if bool_decide (item ∈ seen) then (seen, result)
  else ({[item]} ∪ seen, result ++ [item]).

(** deduplicate removes duplicate strings from a slice *)
Definition deduplicate (slice : list string) : list string :=
  snd (fold_left dedupStep slice (∅, [])).

(** The two slices the goroutines of a round share under the mutex. *)
Record round := mkRound {
  suggestions : list string;
  errors : list error
}.

(** The body of one goroutine, given the reply of the client to its
    request. *)
Definition task (st : round) (reply : result string) : round :=
  match reply with
  | Err err => {| suggestions := suggestions st; errors := errors st ++ [err] |}
  | Ok response =>
    match ParseLLMResponse response with
    | Err err => {| suggestions := suggestions st; errors := errors st ++ [err] |}
    | Ok command =>
      if bool_decide (command ≠ EmptyString)
      then {| suggestions := suggestions st ++ [command]; errors := errors st |}
      else st
    end
  end.

(** The state of the two slices after [wg.Wait()]. The goroutines run
    concurrently and each touches the slices once at most, under the
    mutex; what the slices hold depends on the order in which the
    goroutines get there only. [client prompt context i] is the reply
    [client.GenerateShellCommand(prompt, context)] gives to the goroutine
    that is number [i] in that order. The context manager is not written
    to during a round. *)
Definition collect (client : string -> string -> nat -> result string)
    (cm : ContextManager) (cfg : Config) (prompt : string) : round :=
  let context := if ContextMode cfg then GetContext cm else EmptyString in
  fold_left task
    (List.map (client prompt context) (seq 0 (Z.to_nat (SuggestionCount cfg))))
    {| suggestions := []; errors := [] |}.

(** generateSuggestions generates shell command suggestions. [None] stands
    for a panic: [make([]string, 0, n)] panics for a negative [n]. *)
Definition generateSuggestions (client : string -> string -> nat -> result string)
    (cm : ContextManager) (cfg : Config) (prompt : string) : option (result (list string)) :=
  if SuggestionCount cfg <? 0 then None
  else
    let st := collect client cm cfg prompt in
    if (length (suggestions st) =? 0)%nat && (0 <? length (errors st))%nat then
      match errors st with
      | first :: _ => Some (Err (FailedToGenerate first))
      | [] => None
      end
    else Some (Ok (deduplicate (suggestions st))).

(** What [Run] does with the confirmed command in context mode (the else
    branch of [if !cfg.ContextMode]), before it asks for the next prompt. *)
Inductive execution :=
| RunAttached (command : string)  (* sh -c command on the terminal's streams *)
| ChangeDir (path : string)       (* os.Chdir, the path not yet expanded and cleaned *)
| RunCaptured (command : string). (* sh -c command, its output into the context *)

Definition executeInContext (userCommand : string) : execution :=
  if startsWithAny userCommand TextEditors then RunAttached userCommand
  else if Strings.HasPrefix userCommand "cd" then
    ChangeDir (Strings.TrimSpace (Strings.TrimPrefix userCommand "cd"))
  else RunCaptured userCommand.

End Suggestions.

(** ** Notions the statements below are written with *)

Module Spec.

(** The last [n] elements of a list, all of it when it is shorter. *)
Definition lastn {A : Type} (n : nat) (l : list A) : list A :=
  skipn (length l - n) l.

(** The position at which [x] first occurs in [l]. *)
Fixpoint firstIndex (x : string) (l : list string) : option nat :=
  match l with
  | [] => None
  | y :: l' => if bool_decide (x = y) then Some 0%nat else S <$> firstIndex x l'
  end.

(** Test data is written with an apostrophe where the text has a double
    quote. *)
Definition quoted (s : string) : string :=
  string_of_list_ascii
    (List.map (fun a => if Ascii.eqb a "'"%char then ascii_of_N 34 else a)
       (list_ascii_of_string s)).

Definition nl : string := Regexp.newline.

(** What a task adds to the slice of suggestions, and what it records in
    the slice of errors, given the reply of the client. *)
Definition taskSuggestion (reply : result string) : option string :=
  match reply with
  | Err _ => None
  | Ok response =>
    match Parser.ParseLLMResponse response with
    | Ok command => if bool_decide (command = EmptyString) then None else Some command
    | Err _ => None
    end
  end.

Definition taskError (reply : result string) : option error :=
  match reply with
  | Err err => Some err
  | Ok response =>
    match Parser.ParseLLMResponse response with
    | Ok _ => None
    | Err err => Some err
    end
  end.

(** The fields of [Config], the key each is read from in the file and in
    the environment, and its value in a configuration. *)
Inductive field :=
| FOpenAIAPIKey
| FOpenAIModel
| FOpenAIMaxTokens
| FOpenAIAPIBase
| FOpenAIOrganization
| FOpenAIProxy
| FOpenAIAPIVersion
| FGroqAPIKey
| FGroqModel
| FAPIProvider
| FSuggestionCount
| FSkipConfirm
| FSkipHistory
| FTemperature
| FDebug
| FContextMode.

Definition key (f : field) : string :=
  match f with
  | FOpenAIAPIKey => "OPENAI_API_KEY"
  | FOpenAIModel => "OPENAI_MODEL"
  | FOpenAIMaxTokens => "OPENAI_MAX_TOKENS"
  | FOpenAIAPIBase => "OPENAI_API_BASE"
  | FOpenAIOrganization => "OPENAI_ORGANIZATION"
  | FOpenAIProxy => "OPENAI_PROXY"
  | FOpenAIAPIVersion => "OPENAI_API_VERSION"
  | FGroqAPIKey => "GROQ_API_KEY"
  | FGroqModel => "GROQ_MODEL"
  | FAPIProvider => "SHAI_API_PROVIDER"
  | FSuggestionCount => "SHAI_SUGGESTION_COUNT"
  | FSkipConfirm => "SHAI_SKIP_CONFIRM"
  | FSkipHistory => "SHAI_SKIP_HISTORY"
  | FTemperature => "SHAI_TEMPERATURE"
  | FDebug => "DEBUG"
  | FContextMode => "CTX"
  end.

Inductive value :=
| VString (s : string)
| VInt (i : Z)
| VBool (b : bool)
| VFloat (x : float).

Definition get (f : field) (cfg : Config.Config) : value :=
  match f with
  | FOpenAIAPIKey => VString (Config.OpenAIAPIKey cfg)
  | FOpenAIModel => VString (Config.OpenAIModel cfg)
  | FOpenAIMaxTokens => VInt (Config.OpenAIMaxTokens cfg)
  | FOpenAIAPIBase => VString (Config.OpenAIAPIBase cfg)
  | FOpenAIOrganization => VString (Config.OpenAIOrganization cfg)
  | FOpenAIProxy => VString (Config.OpenAIProxy cfg)
  | FOpenAIAPIVersion => VString (Config.OpenAIAPIVersion cfg)
  | FGroqAPIKey => VString (Config.GroqAPIKey cfg)
  | FGroqModel => VString (Config.GroqModel cfg)
  | FAPIProvider => VString (Config.APIProvider cfg)
  | FSuggestionCount => VInt (Config.SuggestionCount cfg)
  | FSkipConfirm => VBool (Config.SkipConfirm cfg)
  | FSkipHistory => VBool (Config.SkipHistory cfg)
  | FTemperature => VFloat (Config.Temperature cfg)
  | FDebug => VBool (Config.Debug cfg)
  | FContextMode => VBool (Config.ContextMode cfg)
  end.

(** How the text found under the key of a field is read: as it is for a
    string, with [strconv.Atoi] for an int, with [strconv.ParseBool] for a
    bool, with [strconv.ParseFloat] for the float. [None]: the text does not
    parse. *)
Definition parseAs (ParseFloat : string -> option float) (f : field) (val : string) : option value :=
  match f with
  | FOpenAIAPIKey => Some (VString val)
  | FOpenAIModel => Some (VString val)
  | FOpenAIMaxTokens => VInt <$> Strconv.Atoi val
  | FOpenAIAPIBase => Some (VString val)
  | FOpenAIOrganization => Some (VString val)
  | FOpenAIProxy => Some (VString val)
  | FOpenAIAPIVersion => Some (VString val)
  | FGroqAPIKey => Some (VString val)
  | FGroqModel => Some (VString val)
  | FAPIProvider => Some (VString val)
  | FSuggestionCount => VInt <$> Strconv.Atoi val
  | FSkipConfirm => VBool <$> Strconv.ParseBool val
  | FSkipHistory => VBool <$> Strconv.ParseBool val
  | FTemperature => VFloat <$> ParseFloat val
  | FDebug => VBool <$> Strconv.ParseBool val
  | FContextMode => VBool <$> Strconv.ParseBool val
  end.

(** In the examples no temperature is set, and any function can stand for
    [strconv.ParseFloat]. *)
Definition noParseFloat (val : string) : option float := None.

(** Replies for the examples: the reply the system prompt asks for, with a
    command that is empty and with a command that holds a pair of
    backticks. *)
Definition replyEmptyCommand : string := quoted "{'command': ''}".
Definition replyBacktickCommand : string := quoted "{'command': 'echo `date`'}".

(** Files and environments for the examples. *)
Definition fileGroqKey : result string :=
  Ok (quoted "{'GROQ_API_KEY': 'file-key', 'SHAI_SUGGESTION_COUNT': '5'}").

Definition fileMalformedCount : result string :=
  Ok (quoted "{'SHAI_SUGGESTION_COUNT': 'five', 'SHAI_SKIP_CONFIRM': 'yes'}").

Definition noFile : result string := Err (PathError true).

Definition envGroqKey : gmap string string :=
  {[ "GROQ_API_KEY" := "env-key" ]}.

Definition envMalformed : gmap string string :=
  <[ "SHAI_SUGGESTION_COUNT" := "many" ]> {[ "SHAI_SKIP_CONFIRM" := "maybe" ]}.

(** Clients for the examples: one whose every request fails, one whose
    second request fails and whose others give the same command, one that
    always gives an empty command. *)
Definition failingClient (prompt context : string) (i : nat) : result string :=
  Err (ClientError "API request failed with status 500").

Definition mixedClient (prompt context : string) (i : nat) : result string :=
  match i with
  | 1%nat => Err (ClientError "API request failed with status 500")
  | _ => Ok (quoted "{'command': 'ls -la'}")
  end.

Definition emptyClient (prompt context : string) (i : nat) : result string :=
  Ok (quoted "{'command': ''}").

(** The replies of the client to the tasks of a round, in the order in which
    the tasks reach the shared slices. *)
Definition replies (client : string -> string -> nat -> result string)
    (cm : Parser.ContextManager) (cfg : Config.Config) (prompt : string) : list (result string) :=
  List.map
    (client prompt
       (if Config.ContextMode cfg then Parser.GetContext cm else EmptyString))
    (seq 0 (Z.to_nat (Config.SuggestionCount cfg))).

End Spec.

(** ** Package strings, continued *)

Module StringsMore.

(** [strings.Contains(s, substr)] *)
Fixpoint Contains (s substr : string) : bool :=
  if String.prefix substr s then true
  else
    match s with
    | EmptyString => false
    | String _ s' => Contains s' substr
    end.

End StringsMore.

(** ** Sequences of calls on a context manager *)

Module ContextOps.

Import Utf8 Parser.

(** A call of one of the three methods that write to the manager. *)
Inductive op :=
| OpAddToken (token : rune)
| OpFlush
| OpAddChunk (chunk : string).

Definition call (cm : ContextManager) (o : op) : option ContextManager :=
  match o with
  | OpAddToken token => AddToken cm token
  | OpFlush => Flush cm
  | OpAddChunk chunk => AddChunk cm chunk
  end.

(** The calls one after the other; [None] when one of them panics. *)
Fixpoint calls (cm : ContextManager) (ops : list op) : option ContextManager :=
  match ops with
  | [] => Some cm
  | o :: ops' =>
    match call cm o with
    | None => None
    | Some cm' => calls cm' ops'
    end
  end.

(** The tokens handed to the manager since it was last emptied, [acc] being
    those handed over before [ops]. *)
Fixpoint pending (acc : list rune) (ops : list op) : list rune :=
  match ops with
  | [] => acc
  | OpAddToken token :: ops' => pending (acc ++ [token]) ops'
  | OpFlush :: ops' => pending [] ops'
  | OpAddChunk chunk :: ops' => pending (range chunk) ops'
  end.

End ContextOps.

(** ** Further examples *)

Module Examples.

Import Spec.

(** A client whose first request fails and whose others give the command
    that [mixedClient] gives. *)
Definition lateClient (prompt context : string) (i : nat) : result string :=
  match i with
  | O => Err (ClientError "API request failed with status 500")
  | _ => Ok (quoted "{'command': 'ls -la'}")
  end.



Definition envNegativeCount : gmap string string :=
  {[ "SHAI_SUGGESTION_COUNT" := "-1" ]}.

Definition envZeroCount : gmap string string :=
  {[ "SHAI_SUGGESTION_COUNT" := "0" ]}.

End Examples.

(** ** Replies of the shape the system prompt asks for *)

Module Replies.

Import Spec.

(** The JSON object with the one member [command], written as in the
    system prompt. *)
Definition reply (command : string) : string :=
  (quoted "{'command': '" ++ command ++ quoted "'}")%string.

(** A byte that stands for itself in a JSON string and is a character of
    its own: ASCII, no control character, no double quote, no backslash. *)
Definition plain (b : Z) : bool :=
  (0x20 <=? b) && (b <? 0x80) && negb (b =? 0x22) && negb (b =? 0x5C).

End Replies.

(** ** Package fmt, for the formats of the repository

    The formats used are constants whose only verbs are [%d], [%s] and
    [%v], without flags or widths; a format is written here as the list of
    its pieces. *)

Module Fmt.

(** An operand, with the name of its Go type when it is an integer. *)
Inductive arg :=
| Int (type : string) (n : Z)
| Str (s : string).

Inductive verb := Vd | Vs | Vv.

Inductive piece :=
| Text (t : string)
| Verb (v : verb).

(** [strconv.Itoa], [%d] *)
Definition decimal (n : Z) : string := NilZero.string_of_int (Z.to_int n).

(** The operand under [%v] *)
Definition value (a : arg) : string :=
  match a with
  | Int _ n => decimal n
  | Str s => s
  end.

Definition typeName (a : arg) : string :=
  match a with
  | Int type _ => type
  | Str _ => "string"
  end.

Definition verbName (v : verb) : string :=
  match v with
  | Vd => "d"
  | Vs => "s"
  | Vv => "v"
  end.

(** An operand under a verb; a verb the type does not have is reported in
    the output ([badVerb]). *)
Definition render (v : verb) (a : arg) : string :=
  match v, a with
  | Vd, Int _ n => decimal n
  | Vs, Str s => s
  | Vv, _ => value a
  | _, _ => ("%!" ++ verbName v ++ "(" ++ typeName a ++ "=" ++ value a ++ ")")%string
  end.

Fixpoint extra (a : list arg) : string :=
  match a with
  | [] => EmptyString
  | [x] => (typeName x ++ "=" ++ value x)%string
  | x :: a' => (typeName x ++ "=" ++ value x ++ ", " ++ extra a')%string
  end.

(** [fmt.Sprintf]: a verb without operand is reported as missing, operands
    left over at the end as extra. *)
Fixpoint Sprintf (format : list piece) (a : list arg) : string :=
  match format with
  | [] =>
    match a with
    | [] => EmptyString
    | _ => ("%!(EXTRA " ++ extra a ++ ")")%string
    end
  | Text t :: rest => (t ++ Sprintf rest a)%string
  | Verb v :: rest =>
    match a with
    | [] => ("%!" ++ verbName v ++ "(MISSING)" ++ Sprintf rest [])%string
    | x :: a' => (render v x ++ Sprintf rest a')%string
    end
  end.

End Fmt.

(** ** internal/llm/client.go *)

Module Llm.

Import Fmt.

(** Message represents a chat message *)
Record Message := mkMessage {
  Role : string;
  Content : string
}.

(** ChatRequest represents a chat completion request; [MaxTokens] is left
    out of the JSON when it is 0. *)
Record ChatRequest := mkChatRequest {
  Model : string;
  Messages : list Message;
  Temperature : float;
  MaxTokens : Z
}.

(** What is handed to [http.NewRequest] and [req.Header.Set]: a POST of the
    JSON of [Body] to [URL]. *)
Record Request := mkRequest {
  URL : string;
  Header : gmap string string;
  Body : ChatRequest
}.

(** The switch on the provider: [apiURL], [model] and [headers]. *)
Definition provider (cfg : Config.Config) : result (string * string * gmap string string) :=
  if bool_decide (Config.APIProvider cfg = "openai") then
    let apiURL :=
      if bool_decide (Config.OpenAIAPIBase cfg <> EmptyString)
      then (Config.OpenAIAPIBase cfg ++ "/v1/chat/completions")%string
      else "https://api.openai.com/v1/chat/completions" in
    let apiKey := Config.OpenAIAPIKey cfg in
    let headers : gmap string string :=
      <["Authorization" := ("Bearer " ++ apiKey)%string]>
        {["Content-Type" := "application/json"]} in
    let headers :=
      if bool_decide (Config.OpenAIOrganization cfg <> EmptyString)
      then <["OpenAI-Organization" := Config.OpenAIOrganization cfg]> headers
      else headers in
    Ok (apiURL, Config.OpenAIModel cfg, headers)
  else if bool_decide (Config.APIProvider cfg = "groq") then
    let apiKey := Config.GroqAPIKey cfg in
    Ok ("https://api.groq.com/openai/v1/chat/completions",
        Config.GroqModel cfg,
        <["Authorization" := ("Bearer " ++ apiKey)%string]>
          {["Content-Type" := "application/json"]})
  else
    Err (ClientError
           (Sprintf [Text "unsupported API provider: "; Verb Vs]
              [Str (Config.APIProvider cfg)])).

(** [json.Marshal(requestBody)] fails on a float that is not finite, with
    an [UnsupportedValueError] that names the value, and on nothing else in
    a [ChatRequest]. *)
Definition Marshal (requestBody : ChatRequest) : result ChatRequest :=
  let f := Temperature requestBody in
  if PrimFloat.is_nan f then Err (ClientError "json: unsupported value: NaN")
  else if PrimFloat.is_infinity f then
    Err (ClientError
           (if PrimFloat.ltb f PrimFloat.zero
            then "json: unsupported value: -Inf"
            else "json: unsupported value: +Inf"))
  else Ok requestBody.

(** [GenerateCompletion] up to the point where the request is created. *)
Definition prepare (cfg : Config.Config) (systemPrompt userPrompt : string) : result Request :=
  match provider cfg with
  | Err err => Err err
  | Ok (apiURL, model, headers) =>
    let messages :=
      [ {| Role := "system"; Content := systemPrompt |};
        {| Role := "user"; Content := userPrompt |} ] in
    let requestBody :=
      {| Model := model;
         Messages := messages;
         Temperature := Config.Temperature cfg;
         MaxTokens :=
           if 0 <? Config.OpenAIMaxTokens cfg then Config.OpenAIMaxTokens cfg else 0 |} in
    match Marshal requestBody with
    | Err err => Err err
    | Ok jsonBody => Ok {| URL := apiURL; Header := headers; Body := jsonBody |}
    end
  end.

Section WithNetwork.

(** [http.NewRequest], [c.client.Do] and [io.ReadAll] on one request: the
    status code and the body of the response, or the error of the first of
    the three that fails. *)
Variable Do : Request -> result (Z * string).

(** [json.Unmarshal(body, &chatResponse)]: the [Message.Content] of each of
    the [Choices], or the error. *)
Variable Unmarshal : string -> result (list string).

(** GenerateCompletion generates a completion from the LLM *)
Definition GenerateCompletion (cfg : Config.Config) (systemPrompt userPrompt : string) : result string :=
  match prepare cfg systemPrompt userPrompt with
  | Err err => Err err
  | Ok req =>
    match Do req with
    | Err err => Err err
    | Ok (StatusCode, body) =>
      if negb (StatusCode =? 200) then
        Err (ClientError
               (Sprintf [Text "API request failed with status "; Verb Vd; Text ": "; Verb Vs]
                  [Int "int" StatusCode; Str body]))
      else
        match Unmarshal body with
        | Err err => Err err
        | Ok [] => Err (ClientError "no completions returned from API")
        | Ok (content :: _) => Ok content
        end
    end
  end.

(** What [getPlatformInfo()] returns; it depends on [runtime.GOOS] only. *)
Variable platformInfo : string.

Definition instructions : string :=
  Spec.quoted "You are an expert at using shell commands. I need you to provide a response in the format `{'command': 'your_shell_command_here'}`. Only provide a single executable line of shell code as the value for the 'command' key. Never output any text outside the JSON structure. The command will be directly executed in a shell.".

(** GenerateShellCommand generates a shell command from a user prompt;
    [len(context)] is the number of bytes of the context. *)
Definition GenerateShellCommand (cfg : Config.Config) (userPrompt context : string) : result string :=
  let systemPrompt := instructions in
  let systemPrompt := (systemPrompt ++ " " ++ platformInfo)%string in
  let systemPrompt :=
    if bool_decide (context <> EmptyString) then
      (systemPrompt ++
       Sprintf [Text " Between [], these are the last "; Verb Vd;
                Text " tokens from the previous command's output, you can use them as context: [";
                Verb Vs; Text "]"]
         [Int "int" (Z.of_nat (String.length context)); Str context])%string
    else systemPrompt in
  let userPromptWithPrefix :=
    Sprintf [Text "Generate a shell command that satisfies this user request: "; Verb Vs]
      [Str userPrompt] in
  GenerateCompletion cfg systemPrompt userPromptWithPrefix.

End WithNetwork.

(** The client that [generateSuggestions] is given: the task that is
    number [i] of a round gets the response [Do i] of the network. *)
Definition client (Do : nat -> Request -> result (Z * string))
    (Unmarshal : string -> result (list string)) (platformInfo : string)
    (cfg : Config.Config) (prompt context : string) (i : nat) : result string :=
  GenerateShellCommand (Do i) Unmarshal platformInfo cfg prompt context.

End Llm.

(** ** internal/suggestions/suggestions.go: the shell history *)

Module History.

Import StringsMore Fmt.

Section WithFiles.

(** [filepath.Clean] *)
Variable Clean : string -> string.

(** [os.OpenFile(path, os.O_APPEND|os.O_WRONLY|os.O_CREATE, 0644)]: the
    error, if there is one. *)
Variable OpenFile : string -> option string.

(** [file.WriteString(entry)] on the file opened at a path: the error, if
    there is one. *)
Variable WriteString : string -> string -> option string.

(** [filepath.Join(dir, name)] for a [name] that is not empty: empty
    elements are left out, the others joined with the separator and
    cleaned. *)
Definition Join (dir name : string) : string :=
  Clean (if bool_decide (dir = EmptyString) then name else (dir ++ "/" ++ name)%string).

(** The switch on the shell: [historyFilePath] and [historyFormat]. *)
Definition historyFile (shell home : string) : option (string * list piece) :=
  if Contains shell "zsh" then
    Some (Join home ".zsh_history",
          [Text ": "; Verb Vd; Text ":0;"; Verb Vs; Text Spec.nl])
  else if Contains shell "bash" then
    Some (Join home ".bash_history", [Verb Vs; Text Spec.nl])
  else if Contains shell "csh" || Contains shell "tcsh" then
    Some (Join home ".history", [Verb Vs; Text Spec.nl])
  else if Contains shell "ksh" then
    Some (Join home ".sh_history", [Verb Vs; Text Spec.nl])
  else if Contains shell "fish" then
    Some (Join home ".local/share/fish/fish_history",
          [Text "- cmd: "; Verb Vs; Text Spec.nl; Text "  when: "; Verb Vd; Text Spec.nl])
  else None.

(** writeToShellHistory writes a command to the shell history. The result
    is the error returned, if there is one, and the path of the file opened
    with the entry handed to [WriteString], if the file was opened.
    [timestamp] is [time.Now().Unix()]. *)
Definition writeToShellHistory (env : gmap string string) (timestamp : Z)
    (command : string) : option string * option (string * string) :=
  let shell := Config.Getenv env "SHELL" in
  if bool_decide (shell = EmptyString) then
    (Some "SHELL environment variable not set", None)
  else
    match historyFile shell (Config.Getenv env "HOME") with
    | None =>
      (Some (Sprintf [Text "unsupported shell: "; Verb Vs] [Str shell]), None)
    | Some (historyFilePath, historyFormat) =>
      match OpenFile historyFilePath with
      | Some err => (Some err, None)
      | None =>
        let entry :=
          if Contains shell "zsh" then
            Sprintf historyFormat [Int "int64" timestamp; Str command]
          else if Contains shell "fish" then
            Sprintf historyFormat [Str command; Int "int64" timestamp]
          else
            Sprintf historyFormat [Str command] in
        (WriteString historyFilePath entry, Some (historyFilePath, entry))
      end
    end.

End WithFiles.

End History.

(** ** internal/suggestions/suggestions.go: the session loop

    [Run] in the variant with the plain menu. What [Run] asks of the world
    around it (the terminal, the model, the shell, the file system) is kept
    as the sequence of its calls, each with what it returned; the world is
    a state that every call moves on and that decides what the next call
    returns. *)

Module Session.

Import Parser Config Suggestions Fmt.

(** System options *)
Definition OptGenSuggestions : string := "Generate new suggestions".
Definition OptDismiss : string := "Dismiss".
Definition OptNewCommand : string := "Enter a new command".

(** What [reader.ReadString('\n')] returns: the text read, or an error. *)
Inductive input :=
| Line (text : string)
| Failed (err : string).

(** A call with its result. An error is kept as its text, [None] is no
    error. *)
Inductive event :=
| Stdout (text : string)
| Stderr (text : string)
| Getwd (dir : option string)
| Round (prompt context : string) (replies : list (result string))
| NewReader
| ReadString (result : input)
| WriteToShellHistory (command : string) (err : option string)
| CmdRun (command : string) (err : option string)
| CombinedOutput (command output : string) (err : option string)
| Chdir (path : string) (err : option string).

(** What [Run] returns. *)
Inductive exit :=
| Nil
| GenerateError (err : error)
| InputError (err : string).

(** The places of [Run] where a panic can arise: [make] in
    [generateSuggestions], the index expression [options[index-1]], and
    [ContextManager.AddChunk]. *)
Inductive site :=
| InMake
| InIndex
| InAddChunk.

(** The end of one turn of the loop. *)
Inductive next :=
| Continue (prompt : string) (cm : ContextManager)
| Return (err : exit)
| Panic (at_ : site).

(** The end of a run, or none within the turns allowed. *)
Inductive outcome :=
| Returned (err : exit)
| Panicked (at_ : site)
| Unfinished.

(** [strings.Join(elems, sep)] *)
Fixpoint Join (elems : list string) (sep : string) : string :=
  match elems with
  | [] => EmptyString
  | [e] => e
  | e :: rest => (e ++ sep ++ Join rest sep)%string
  end.

Definition warning : string :=
  ("WARNING Context mode: data will be sent to the LLM, be careful if any sensitive data..."
     ++ Spec.nl ++ Spec.nl)%string.

Section World.

Variable world : Type.

(** The world after a call. *)
Variable after : world -> event -> world.

(** What the calls return in a world: [os.Getwd] ([None] for an error),
    [client.GenerateShellCommand] for the task that is number [i] of a
    round, [reader.ReadString], [writeToShellHistory], [cmd.Run],
    [cmd.CombinedOutput], [os.Chdir]. *)
Variable getwd : world -> option string.
Variable client : world -> string -> string -> nat -> result string.
Variable readString : world -> input.
Variable historyError : world -> string -> option string.
Variable runError : world -> string -> option string.
Variable combinedOutput : world -> string -> string * option string.
Variable chdirError : world -> string -> option string.

(** [os.ExpandEnv], which reads the environment, and [filepath.Clean]. *)
Variable ExpandEnv : world -> string -> string.
Variable Clean : string -> string.

(** [fmt.Sscanf(input, "%d", &index)]: the index when the error is nil. *)
Variable Sscanf : string -> option Z.

(** A computation in the world: the calls it makes, in order, and its
    result. *)
Definition M (A : Type) : Type := world -> list event * A.

Definition ret {A : Type} (a : A) : M A := fun _ => ([], a).

Definition bind {A B : Type} (m : M A) (k : A -> M B) : M B :=
  fun w =>
    let '(es, a) := m w in
    let '(es', b) := k a (fold_left after es w) in
    (es ++ es', b).

Notation "'let*' x := m 'in' k" := (bind m (fun x => k))
  (at level 10, x binder, m at level 200, k at level 200, only parsing).

(** A call whose result is read off the world it is made in. *)
Definition call {A : Type} (returns : world -> A) (e : A -> event) : M A :=
  fun w => ([e (returns w)], returns w).

(** What is read off the world without a call. *)
Definition observe {A : Type} (f : world -> A) : M A := fun w => ([], f w).

Definition Print (text : string) : M unit :=
  call (fun _ => tt) (fun _ => Stdout text).

Definition readLine : M input := call readString ReadString.

(** getCurrentDir returns the current directory *)
Definition getCurrentDir : M string :=
  let* dir := call getwd Getwd in
  ret (default "." dir).

(** [for i, option := range options { fmt.Printf("%d. %s\n", i+1, option) }],
    from the index [i] on *)
Fixpoint printOptions (i : Z) (options : list string) : M unit :=
  match options with
  | [] => ret tt
  | option :: rest =>
    let* _ := Print (Sprintf [Verb Vd; Text ". "; Verb Vs; Text Spec.nl]
                       [Int "int" (i + 1); Str option]) in
    printOptions (i + 1) rest
  end.

(** [if err != nil { fmt.Printf(format, err) }] *)
Definition report (format : list piece) (err : option string) : M unit :=
  match err with
  | Some msg => Print (Sprintf format [Str msg])
  | None => ret tt
  end.

(** The call of [generateSuggestions]; [None] when it panics, which it does
    before any request is made. *)
Definition generate (cfg : Config) (prompt : string) (cm : ContextManager) : M (option (result (list string))) :=
  fun w =>
    match generateSuggestions (client w) cm cfg prompt with
    | None => ([], None)
    | Some r =>
      let context := if ContextMode cfg then GetContext cm else EmptyString in
      ([Round prompt context
          (List.map (client w prompt context) (seq 0 (Z.to_nat (SuggestionCount cfg))))],
       Some r)
    end.

(** The context-mode branch up to the prompt for the next command: the
    manager after it, [None] when [AddChunk] panics. *)
Definition execute (cm : ContextManager) (userCommand : string) : M (option ContextManager) :=
  match executeInContext userCommand with
  | RunAttached command =>
    let* err := call (fun w => runError w command) (CmdRun command) in
    let* _ := report [Text "Error executing command: "; Verb Vv; Text Spec.nl] err in
    ret (Some cm)
  | ChangeDir path =>
    let* path := observe (fun w => ExpandEnv w path) in
    let path := Clean path in
    let* err := call (fun w => chdirError w path) (Chdir path) in
    let* _ := report [Text "Error changing directory: "; Verb Vv; Text Spec.nl] err in
    ret (Some cm)
  | RunCaptured command =>
    let* '(output, err) :=
      call (fun w => combinedOutput w command)
        (fun r => CombinedOutput command (fst r) (snd r)) in
    let* _ := report [Text "Error executing command: "; Verb Vv; Text Spec.nl] err in
    let* _ :=
      if (0 <? String.length output)%nat
      then Print (Sprintf [Text Spec.nl; Verb Vs] [Str output])
      else ret tt in
    ret (AddChunk cm output)
  end.

(** The default case of the switch: the user selected a command. *)
Definition selected (cfg : Config) (cm : ContextManager) (selection : string) : M next :=
  let userCommand := selection in
  let* confirmed :=
    if negb (SkipConfirm cfg) then
      let* _ := Print (Sprintf [Text "Confirm ["; Verb Vs; Text "]: "] [Str userCommand]) in
      let* input := readLine in
      match input with
      | Failed err => ret (inr err)
      | Line input =>
        let input := Strings.TrimSpace input in
        ret (inl (if bool_decide (input <> EmptyString) then input else userCommand))
      end
    else ret (inl userCommand) in
  match confirmed with
  | inr err => ret (Return (InputError err))
  | inl userCommand =>
    let* _ :=
      if negb (SkipHistory cfg) then
        let* err :=
          call (fun w => historyError w userCommand) (WriteToShellHistory userCommand) in
        report [Text "Warning: "; Verb Vs; Text Spec.nl] err
      else ret tt in
    if negb (ContextMode cfg) then
      let* err := call (fun w => runError w userCommand) (CmdRun userCommand) in
      let* _ := report [Text "Error executing command: "; Verb Vv; Text Spec.nl] err in
      ret (Return Nil)
    else
      let* written := execute cm userCommand in
      match written with
      | None => ret (Panic InAddChunk)
      | Some cm =>
        let* dir := getCurrentDir in
        let* _ := Print (Sprintf [Text ">>> "; Verb Vs; Text Spec.nl; Text "New command: "]
                           [Str dir]) in
        let* input := readLine in
        match input with
        | Failed err => ret (Return (InputError err))
        | Line input => ret (Continue (Strings.TrimSpace input) cm)
        end
      end
  end.

(** One turn of the loop of [Run]. *)
Definition turn (cfg : Config) (prompt : string) (cm : ContextManager) : M next :=
  let* round := generate cfg prompt cm in
  match round with
  | None => ret (Panic InMake)
  | Some (Err err) => ret (Return (GenerateError err))
  | Some (Ok suggestions) =>
    let options := suggestions ++ [OptGenSuggestions; OptNewCommand; OptDismiss] in
    let* _ := Print ("Select a command:" ++ Spec.nl)%string in
    let* _ := printOptions 0 options in
    let* _ := Print ("Enter selection (1-" ++ decimal (Z.of_nat (length options)) ++ "): ")%string in
    let* _ := call (fun _ => tt) (fun _ => NewReader) in
    let* input := readLine in
    match input with
    | Failed err => ret (Return (InputError err))
    | Line input =>
      let input := Strings.TrimSpace input in
      let invalid :=
        let* _ := Print ("Invalid selection, please try again." ++ Spec.nl)%string in
        ret (Continue prompt cm) in
      match Sscanf input with
      | None => invalid
      | Some index =>
        if (index <? 1) || (Z.of_nat (length options) <? index) then invalid
        else
          match options !! Z.to_nat (index - 1) with
          | None => ret (Panic InIndex)
          | Some selection =>
            if bool_decide (selection = OptDismiss) then ret (Return Nil)
            else if bool_decide (selection = OptNewCommand) then
              let* _ := Print "New command: " in
              let* input := readLine in
              match input with
              | Failed err => ret (Return (InputError err))
              | Line input => ret (Continue (Strings.TrimSpace input) cm)
              end
            else if bool_decide (selection = OptGenSuggestions) then
              ret (Continue prompt cm)
            else selected cfg cm selection
          end
      end
    end
  end.

(** The loop of [Run], for [turns] turns at most. *)
Fixpoint loop (turns : nat) (cfg : Config) (prompt : string) (cm : ContextManager) : M outcome :=
  match turns with
  | O => ret Unfinished
  | S turns' =>
    let* n := turn cfg prompt cm in
    match n with
    | Continue prompt cm => loop turns' cfg prompt cm
    | Return err => ret (Returned err)
    | Panic at_ => ret (Panicked at_)
    end
  end.

(** Run runs the suggestions engine. The package variable [ContextManager]
    is what [NewContextManager] returned when the package was set up. *)
Definition Run (turns : nat) (cfg : Config) (promptArgs : list string) : M outcome :=
  let prompt := Join promptArgs " " in
  let* _ :=
    if ContextMode cfg then
      let* _ := Print warning in
      let* dir := getCurrentDir in
      Print (Sprintf [Text ">>> "; Verb Vs; Text Spec.nl] [Str dir])
    else ret tt in
  loop turns cfg prompt NewContextManager.

End World.

End Session.

(** ** internal/config/config.go: the warning of [LoadConfig] *)

Module ConfigWarning.

Import Config.

(** [os.IsNotExist(err)]: true of the error of [os.ReadFile] for a file
    that does not exist; an error made by [fmt.Errorf] is not looked
    into. *)
Definition IsNotExist (err : error) : bool :=
  match err with
  | PathError notExist => notExist
  | _ => false
  end.

(** The error that [LoadConfig] reports on standard error, in the line
    [Warning: Error reading config file: ...], when it writes that line:
    the error of [loadFromConfigFile], unless it says that the file does
    not exist. *)
Definition warned (ParseFloat : string -> option float) (file : result string) : option error :=
  match snd (loadFromConfigFile ParseFloat file defaults) with
  | Some err => if IsNotExist err then None else Some err
  | None => None
  end.

End ConfigWarning.

(** ** cmd/shai/main.go *)

Module Main.

Import Config Session.

(** What [kong.Parse(&CLI)] has filled in. *)
Record CLI := mkCLI {
  Debug : bool;
  Ctx : bool;
  Prompt : list string
}.

(** How the process ends: with an exit status ([os.Exit], or 0 when [main]
    returns), with a panic, or not within the turns allowed to [Run]. *)
Inductive ending :=
| Exit (code : Z)
| Crash
| Running.

(** [fmt.Println(a, b)] *)
Definition line2 (a b : string) : string := (a ++ " " ++ b ++ Spec.nl)%string.

Section World.

Variable world : Type.
Variable after : world -> event -> world.
Variable getwd : world -> option string.
Variable readString : world -> input.
Variable historyError : world -> string -> option string.
Variable runError : world -> string -> option string.
Variable combinedOutput : world -> string -> string * option string.
Variable chdirError : world -> string -> option string.
Variable ExpandEnv : world -> string -> string.
Variable Clean : string -> string.
Variable Sscanf : string -> option Z.

(** The network and the libraries of the client, as in [Llm]. *)
Variable Do : world -> nat -> Llm.Request -> result (Z * string).
Variable Unmarshal : string -> result (list string).
Variable platformInfo : string.

Variable ParseFloat : string -> option float.

(** The text of an error, as [%v] writes it. *)
Variable errorText : error -> string.

Notation "'let*' x := m 'in' k" := (bind world after m (fun x => k))
  (at level 10, x binder, m at level 200, k at level 200, only parsing).

(** [file] is what [os.ReadFile] returns for the configuration file and
    [env] the environment of the process. *)
Definition main (turns : nat) (cli : CLI) (file : result string) (env : gmap string string) : M world ending :=
  let* _ :=
    match ConfigWarning.warned ParseFloat file with
    | Some err =>
      call world (fun _ => tt)
        (fun _ => Stderr ("Warning: Error reading config file: " ++ errorText err ++ Spec.nl)%string)
    | None => ret world tt
    end in
  match LoadConfig ParseFloat file env with
  | Err err =>
    let* _ := call world (fun _ => tt)
                (fun _ => Stderr ("Error loading configuration: " ++ errorText err ++ Spec.nl)%string) in
    ret world (Exit 1)
  | Ok cfg =>
    let cfg := if Debug cli then set_Debug true cfg else cfg in
    let cfg := if Ctx cli then set_ContextMode true cfg else cfg in
    if bool_decide (OpenAIAPIKey cfg = EmptyString) && bool_decide (GroqAPIKey cfg = EmptyString) then
      let* _ := Print world (line2 "DEBUG: OpenAI API Key:" (OpenAIAPIKey cfg)) in
      let* _ := Print world (line2 "DEBUG: Groq API Key:" (GroqAPIKey cfg)) in
      let* _ := Print world (line2 "DEBUG: API Provider:" (APIProvider cfg)) in
      let* _ := Print world
        ("Please set either the OPENAI_API_KEY or GROQ_API_KEY environment variable."
           ++ Spec.nl)%string in
      let* _ := Print world
        ("You can also create `config.json` under `~/.config/shell-ai/` to set the API key, see README.md for more information."
           ++ Spec.nl)%string in
      ret world (Exit 1)
    else
      let client := fun w => Llm.client (Do w) Unmarshal platformInfo cfg in
      if (length (Prompt cli) =? 0)%nat then
        let* _ := Print world
          ("Describe what you want to do as a single sentence. `shai <sentence>`"
             ++ Spec.nl)%string in
        ret world (Exit 0)
      else
        let* err :=
          Run world after getwd client readString historyError runError
            combinedOutput chdirError ExpandEnv Clean Sscanf turns cfg (Prompt cli) in
        match err with
        | Returned Nil => ret world (Exit 0)
        | Returned (GenerateError e) =>
          let* _ := call world (fun _ => tt)
                      (fun _ => Stderr ("Error running suggestions: " ++ errorText e ++ Spec.nl)%string) in
          ret world (Exit 1)
        | Returned (InputError e) =>
          let* _ := call world (fun _ => tt)
                      (fun _ => Stderr ("Error running suggestions: " ++ e ++ Spec.nl)%string) in
          ret world (Exit 1)
        | Panicked _ => ret world Crash
        | Unfinished => ret world Running
        end
  end.

End World.

End Main.

(** ** What can be read off the calls of a session *)

Module Traces.

Import Utf8 Parser Suggestions Session.

(** The output of the command captured last, [output] when there is none. *)
Fixpoint lastOutput (output : string) (es : list event) : string :=
  match es with
  | [] => output
  | CombinedOutput _ output' _ :: es' => lastOutput output' es'
  | _ :: es' => lastOutput output es'
  end.

(** The context of every round is the text of the last 1500 characters of
    the output captured last before it ([output] when there is none), in
    context mode, and empty otherwise. *)
Fixpoint contextsFollow (mode : bool) (output : string) (es : list event) : Prop :=
  match es with
  | [] => True
  | Round _ context _ :: es' =>
    context = (if mode then string_of_runes (Spec.lastn 1500 (range output)) else EmptyString)
    /\ contextsFollow mode output es'
  | CombinedOutput _ output' _ :: es' => contextsFollow mode output' es'
  | _ :: es' => contextsFollow mode output es'
  end.

(** Every command that is run was written to the history just before, and
    every command written to the history is run next: [pending] is the
    command written and not yet run. A change of directory runs a command
    that begins with cd. *)
Fixpoint logged (pending : option string) (es : list event) : Prop :=
  match es with
  | [] => pending = None
  | WriteToShellHistory command _ :: es' => pending = None /\ logged (Some command) es'
  | CmdRun command _ :: es' => pending = Some command /\ logged None es'
  | CombinedOutput command _ _ :: es' => pending = Some command /\ logged None es'
  | Chdir _ _ :: es' =>
    (exists command : string,
       pending = Some command /\ Strings.HasPrefix command "cd" = true)
    /\ logged None es'
  | _ :: es' => logged pending es'
  end.

Definition isHistory (e : event) : bool :=
  match e with
  | WriteToShellHistory _ _ => true
  | _ => false
  end.

(** The commands handed to the shell, in order. *)
Fixpoint commands (es : list event) : list string :=
  match es with
  | [] => []
  | CmdRun command _ :: es' => command :: commands es'
  | CombinedOutput command _ _ :: es' => command :: commands es'
  | _ :: es' => commands es'
  end.

(** The calls that are made in context mode only. *)
Definition contextOnly (e : event) : bool :=
  match e with
  | Getwd _ | CombinedOutput _ _ _ | Chdir _ _ => true
  | _ => false
  end.

(** A text that is one of the system options. *)
Definition isOption (selection : string) : Prop :=
  selection = OptDismiss \/ selection = OptNewCommand \/ selection = OptGenSuggestions.

(** Every command written to the history or run is one that the round
    before it offered ([offered] when there is none) and is no system
    option; a change of directory comes from such a command. *)
Fixpoint offeredOnly (offered : list string) (es : list event) : Prop :=
  match es with
  | [] => True
  | Round _ _ replies :: es' => offeredOnly (omap Spec.taskSuggestion replies) es'
  | WriteToShellHistory command _ :: es' =>
    (command ∈ offered /\ ~ isOption command) /\ offeredOnly offered es'
  | CmdRun command _ :: es' =>
    (command ∈ offered /\ ~ isOption command) /\ offeredOnly offered es'
  | CombinedOutput command _ _ :: es' =>
    (command ∈ offered /\ ~ isOption command) /\ offeredOnly offered es'
  | Chdir _ _ :: es' =>
    (exists command : string,
       command ∈ offered /\ ~ isOption command /\ Strings.HasPrefix command "cd" = true)
    /\ offeredOnly offered es'
  | _ :: es' => offeredOnly offered es'
  end.

(** What is printed after a call that returned [err]: nothing when there
    is no error, or one line with its text. *)
Definition reported (label : string) (err : option string) : list event :=
  match err with
  | Some msg => [Stdout (label ++ msg ++ Spec.nl)%string]
  | None => []
  end.

(** The calls of [Run] before the loop. *)
Definition preamble (cfg : Config.Config) (pre : list event) : Prop :=
  if Config.ContextMode cfg then
    exists (dir : option string) (text : string),
      pre = [Stdout warning; Getwd dir; Stdout text]
  else pre = [].

End Traces.

(** ** Scenarios for the examples *)

Module Scenarios.

(** An environment that names the provider with capital letters. *)
Definition envCapitalProvider : gmap string string :=
  {[ "SHAI_API_PROVIDER" := "OpenAI" ]}.

(** A network that answers every request with a status and a body, and a
    decoder that finds no choice in any body. *)
Definition answering (status : Z) (body : string) (i : nat) (req : Llm.Request) : result (Z * string) :=
  Ok (status, body).

Definition noChoices (body : string) : result (list string) := Ok [].

(** The environment of a user of fish whose name begins with bash. *)
Definition envFish : gmap string string :=
  <[ "SHELL" := "/home/bashir/.local/bin/fish" ]> {[ "HOME" := "/home/bashir" ]}.

(** A file system where every file opens and every write succeeds, and
    paths that are clean as they are. *)
Definition opens (path : string) : option string := None.
Definition writes (path entry : string) : option string := None.
Definition clean (path : string) : string := path.

(** A terminal at which the lines [lines] are typed, one for every read,
    and then the input ends; every command succeeds and prints its own
    text; the directory is /home/user and does not change. The world is the
    lines that are still to be read. *)
Definition typed (lines : list string) (e : Session.event) : list string :=
  match e with
  | Session.ReadString _ => tail lines
  | _ => lines
  end.

Definition reads (lines : list string) : Session.input :=
  match lines with
  | [] => Session.Failed "EOF"
  | line :: _ => Session.Line (line ++ Spec.nl)%string
  end.

Definition home (lines : list string) : option string := Some "/home/user".
Definition succeeds (lines : list string) (command : string) : option string := None.
Definition echoes (lines : list string) (command : string) : string * option string :=
  (command, None).
Definition expands (lines : list string) (path : string) : string := path.

(** A model that always gives the same command. *)
Definition always (command : string) (lines : list string) (prompt context : string) (i : nat) : result string :=
  Ok (Replies.reply command).

(** [Run] at this terminal, with a model that always gives [command]. The
    index is read with [strconv.Atoi], which agrees with [fmt.Sscanf] on
    the lines typed in the examples. *)
Definition session (command : string) (turns : nat) (cfg : Config.Config)
    (promptArgs lines : list string) : list Session.event * Session.outcome :=
  Session.Run (list string) typed home (always command) reads succeeds succeeds
    echoes succeeds expands clean Strconv.Atoi turns cfg promptArgs lines.

(** Context mode without confirmation and without history. *)
Definition contextConfig : Config.Config :=
  Config.set_ContextMode true
    (Config.set_SkipConfirm true (Config.set_SkipHistory true Config.defaults)).

End Scenarios.

(** * Properties *)

Import Utf8 Parser Config Suggestions Spec.
Local Open Scope string_scope.
Local Open Scope list_scope.
Local Open Scope Z_scope.

(** ** The context buffer *)

Section ContextBuffer.

Variable C : Z.
Hypothesis C_pos : 1 <= C.

Lemma lastn_all {A : Type} (n : nat) (l : list A) :
  (length l <= n)%nat -> lastn n l = l.
Proof.
  intros Hle. unfold lastn.
  replace (length l - n)%nat with 0%nat by lia. reflexivity.
Qed.

Lemma lastn_length {A : Type} (n : nat) (l : list A) :
  length (lastn n l) = Nat.min (length l) n.
Proof. unfold lastn. rewrite length_skipn. lia. Qed.

Lemma lastn_cons_full {A : Type} (n : nat) (x : A) (l : list A) :
  (n <= length l)%nat -> lastn n (x :: l) = lastn n l.
Proof.
  intros Hle. unfold lastn. cbn [length].
  replace (S (length l) - n)%nat with (S (length l - n)) by lia.
  reflexivity.
Qed.

(** A token added to a buffer within its capacity: the oldest token goes
    when the buffer is full. *)
Lemma AddToken_window (buf : list rune) (c : rune) :
  Z.of_nat (length buf) <= C ->
  AddToken {| tokenBuffer := buf; maxTokens := C |} c =
  Some {| tokenBuffer := lastn (Z.to_nat C) (buf ++ [c]); maxTokens := C |}.
Proof.
  intros Hlen. unfold AddToken. cbn [tokenBuffer maxTokens].
  destruct (C <=? Z.of_nat (length buf)) eqn:Hfull.
  - apply Z.leb_le in Hfull.
    destruct buf as [|b rest]; [cbn [length] in Hfull; lia|].
    do 2 f_equal. cbn [app]. rewrite lastn_cons_full.
    + rewrite lastn_all; [reflexivity|].
      rewrite length_app. cbn [length] in *. lia.
    + rewrite length_app. cbn [length] in *. lia.
  - apply Z.leb_gt in Hfull. do 2 f_equal.
    rewrite lastn_all; [reflexivity|]. rewrite length_app. cbn [length]. lia.
Qed.

Lemma lastn_lastn_app {A : Type} (n : nat) (l1 l2 : list A) :
  lastn n (lastn n l1 ++ l2) = lastn n (l1 ++ l2).
Proof.
  unfold lastn.
  rewrite <- (drop_app_le l1 l2) by lia.
  rewrite drop_drop. f_equal.
  rewrite length_drop, length_app. lia.
Qed.

(** The loop of [AddChunk] keeps the last [C] tokens of what the buffer
    held followed by what is added. *)
Lemma AddTokens_window (cs : list rune) :
  forall buf : list rune,
  Z.of_nat (length buf) <= C ->
  AddTokens {| tokenBuffer := buf; maxTokens := C |} cs =
  Some {| tokenBuffer := lastn (Z.to_nat C) (buf ++ cs); maxTokens := C |}.
Proof.
  induction cs as [|c cs IH]; intros buf Hlen.
  - cbn [AddTokens]. rewrite app_nil_r, lastn_all by lia. reflexivity.
  - cbn [AddTokens]. rewrite AddToken_window by exact Hlen.
    rewrite IH.
    + rewrite lastn_lastn_app, <- app_assoc. reflexivity.
    + rewrite lastn_length. lia.
Qed.

End ContextBuffer.

(** On a text of ASCII characters the runes are the bytes. *)
Lemma range_from_ascii (p : list Z) :
  Forall (fun b => b < 0x80) p -> range_from 0 p = p.
Proof.
  induction p as [|b t IH]; intros Hall; [reflexivity|].
  apply Forall_cons in Hall as [Hb Ht].
  cbn [range_from DecodeRune].
  rewrite (proj2 (Z.ltb_lt b 0x80) Hb). cbn [Nat.pred].
  rewrite IH by exact Ht. reflexivity.
Qed.

Lemma EncodeRune_ascii (rs : list rune) :
  Forall (fun r => 0 <= r < 0x80) rs -> List.concat (List.map EncodeRune rs) = rs.
Proof.
  induction rs as [|r rs IH]; intros Hall; [reflexivity|].
  apply Forall_cons in Hall as [Hr Hrs].
  cbn [List.map List.concat]. rewrite IH by exact Hrs.
  unfold EncodeRune.
  rewrite (proj2 (Z.leb_le 0 r)) by lia.
  rewrite (proj2 (Z.ltb_lt r 0x80)) by lia.
  reflexivity.
Qed.

Lemma bytes_nonneg (s : string) : Forall (fun b => 0 <= b) (GoString.bytes s).
Proof.
  unfold GoString.bytes. apply Forall_forall. intros b Hb.
  apply list_elem_of_fmap in Hb as (a & -> & _).
  unfold GoString.byte_of. lia.
Qed.

(** A text has no more runes than bytes. *)
Lemma range_from_length (p : list Z) :
  forall skip : nat, (length (range_from skip p) <= length p)%nat.
Proof.
  induction p as [|b t IH]; intros skip; [cbn; lia|].
  cbn [range_from]. destruct skip as [|k].
  - destruct (DecodeRune (b :: t)) as [r sz]. cbn [length].
    specialize (IH (Nat.pred sz)). lia.
  - cbn [length]. specialize (IH k). lia.
Qed.

Lemma range_length (s : string) : (length (range s) <= String.length s)%nat.
Proof.
  unfold range. etransitivity; [apply range_from_length|].
  unfold GoString.bytes. rewrite length_map.
  induction s as [|a s IH]; cbn; lia.
Qed.

(** C1. After [AddChunk(text)] on a context manager of capacity 1500, whatever
    it held before, [GetContext()] is the string of the last
    [min(len(text), 1500)] characters of [text] and of nothing else, the
    characters being the runes [range] yields, whether [len] counts these or,
    as in Go, the bytes of [text]; the buffer holds no more than 1500
    characters, and the call does not panic. For a text of ASCII characters
    the context is the last [min(len(text), 1500)] bytes of [text]. *)
Theorem AddChunk_trailing_window (cm : ContextManager) (text : string) :
  maxTokens cm = MaxContextTokens ->
  exists cm' : ContextManager,
    AddChunk cm text = Some cm' /\
    GetContext cm' =
      string_of_runes (lastn (Nat.min (length (range text)) 1500) (range text)) /\
    GetContext cm' =
      string_of_runes (lastn (Nat.min (String.length text) 1500) (range text)) /\
    (length (tokenBuffer cm') <= 1500)%nat /\
    maxTokens cm' = MaxContextTokens /\
    (Forall (fun b => b < 0x80) (GoString.bytes text) ->
     GetContext cm' =
       GoString.of_bytes
         (lastn (Nat.min (length (GoString.bytes text)) 1500) (GoString.bytes text))).
Proof.
  intros Hcap.
  exists {| tokenBuffer := lastn 1500 (range text); maxTokens := MaxContextTokens |}.
  assert (Hrun : AddChunk cm text =
    Some {| tokenBuffer := lastn 1500 (range text); maxTokens := MaxContextTokens |}).
  { unfold AddChunk, Flush, make_runes. rewrite Hcap.
    change (MaxContextTokens <? 0) with false. cbv iota.
    rewrite (AddTokens_window MaxContextTokens) by (cbn; unfold MaxContextTokens; lia).
    reflexivity. }
  assert (Hmin : forall (l : list Z) (n : nat),
            (length l <= n)%nat -> lastn (Nat.min n 1500) l = lastn 1500 l).
  { intros l n Hn. unfold lastn. f_equal. lia. }
  assert (Hget : GetContext
            {| tokenBuffer := lastn 1500 (range text); maxTokens := MaxContextTokens |}
            = string_of_runes (lastn 1500 (range text))).
  { unfold GetContext. cbn [tokenBuffer].
    destruct (lastn 1500 (range text)) as [|r rs]; reflexivity. }
  split; [exact Hrun|]. split; [|split; [|split; [|split]]].
  - rewrite Hmin by apply Nat.le_refl. exact Hget.
  - rewrite Hmin by apply range_length. exact Hget.
  - cbn [tokenBuffer]. rewrite lastn_length. lia.
  - reflexivity.
  - intros Hascii. rewrite Hmin by apply Nat.le_refl. rewrite Hget.
    unfold range. rewrite range_from_ascii by exact Hascii.
    unfold string_of_runes. rewrite EncodeRune_ascii; [reflexivity|].
    unfold lastn. apply Forall_drop.
    pose proof (bytes_nonneg text) as Hnn.
    rewrite Forall_forall in Hascii, Hnn |- *.
    intros b Hb. specialize (Hascii b Hb). specialize (Hnn b Hb).
    cbn beta in *. lia.
Qed.

(** A manager that holds a first chunk is given a second one: the context
    is the second chunk alone. *)
Lemma AddChunk_trailing_window_witness :
  exists cm' : ContextManager,
    AddChunk {| tokenBuffer := range "first chunk"; maxTokens := 1500 |} "3 files" = Some cm' /\
    GetContext cm' = "3 files".
Proof.
  destruct (AddChunk_trailing_window
              {| tokenBuffer := range "first chunk"; maxTokens := 1500 |}
              "3 files" eq_refl) as (cm' & Hrun & Hget & _).
  exists cm'. split; [exact Hrun|]. rewrite Hget. vm_compute. reflexivity.
Defined.

(** ** Deduplication *)

Lemma dedup_fold_snoc (l : list string) (a : string) (st : gset string * list string) :
  fold_left dedupStep (l ++ [a]) st = dedupStep (fold_left dedupStep l st) a.
Proof. rewrite fold_left_app. reflexivity. Qed.

(** The map [seen] holds the items met so far. *)
Lemma dedup_seen (l : list string) (x : string) :
  x ∈ fst (fold_left dedupStep l (∅, [])) <-> x ∈ l.
Proof.
  induction l as [|a l IH] using rev_ind.
  - cbn. rewrite elem_of_empty. split; [contradiction|]. apply elem_of_nil.
  - rewrite dedup_fold_snoc.
    destruct (fold_left dedupStep l (∅, [])) as [seen result].
    cbn [fst] in IH. unfold dedupStep.
    rewrite elem_of_app, list_elem_of_singleton, <- IH.
    case_bool_decide as Hin; cbn [fst].
    + split; [tauto|]. intros [Hx | ->]; assumption.
    + rewrite elem_of_union, elem_of_singleton. tauto.
Qed.

Lemma deduplicate_snoc (l : list string) (a : string) :
  deduplicate (l ++ [a]) =
  if bool_decide (a ∈ l) then deduplicate l else deduplicate l ++ [a].
Proof.
  unfold deduplicate. rewrite dedup_fold_snoc.
  pose proof (dedup_seen l a) as Hseen.
  destruct (fold_left dedupStep l (∅, [])) as [seen result].
  cbn [fst] in Hseen. unfold dedupStep.
  repeat case_bool_decide; cbn [snd]; tauto.
Qed.

Lemma deduplicate_elem (l : list string) (x : string) :
  x ∈ deduplicate l <-> x ∈ l.
Proof.
  induction l as [|a l IH] using rev_ind.
  - reflexivity.
  - rewrite deduplicate_snoc.
    case_bool_decide as Hin.
    + rewrite IH, elem_of_app, list_elem_of_singleton.
      split; [tauto|]. intros [Hx | ->]; assumption.
    + rewrite !elem_of_app, IH. tauto.
Qed.

Lemma deduplicate_NoDup (l : list string) : NoDup (deduplicate l).
Proof.
  induction l as [|a l IH] using rev_ind.
  - cbn. constructor.
  - rewrite deduplicate_snoc. case_bool_decide as Hin; [exact IH|].
    apply NoDup_app. split; [exact IH|]. split.
    + intros x Hx Hxa. apply (proj1 (deduplicate_elem l x)) in Hx.
      apply list_elem_of_singleton in Hxa. subst x. exact (Hin Hx).
    + apply NoDup_singleton.
Qed.

Lemma firstIndex_elem (x : string) (l : list string) :
  x ∈ l -> exists i : nat, firstIndex x l = Some i /\ (i < length l)%nat.
Proof.
  induction l as [|y l IH]; intros Hin.
  - apply elem_of_nil in Hin. contradiction.
  - cbn [firstIndex]. case_bool_decide as Hxy.
    + exists 0%nat. split; [reflexivity|]. cbn. lia.
    + apply elem_of_cons in Hin as [Heq|Hl]; [contradiction|].
      destruct (IH Hl) as (i & Hi & Hlt).
      exists (S i). rewrite Hi. split; [reflexivity|]. cbn. lia.
Qed.

Lemma firstIndex_app_l (x : string) (l k : list string) :
  x ∈ l -> firstIndex x (l ++ k) = firstIndex x l.
Proof.
  induction l as [|y l IH]; intros Hin.
  - apply elem_of_nil in Hin. contradiction.
  - cbn [app firstIndex]. case_bool_decide as Hxy; [reflexivity|].
    apply elem_of_cons in Hin as [Heq|Hl]; [contradiction|].
    rewrite IH by exact Hl. reflexivity.
Qed.

Lemma firstIndex_fresh (x : string) (l : list string) :
  x ∉ l -> firstIndex x (l ++ [x]) = Some (length l).
Proof.
  induction l as [|y l IH]; intros Hnin.
  - cbn. rewrite bool_decide_eq_true_2 by reflexivity. reflexivity.
  - apply not_elem_of_cons in Hnin as [Hne Hnin].
    cbn [app firstIndex length].
    rewrite bool_decide_eq_false_2 by exact Hne.
    rewrite IH by exact Hnin. reflexivity.
Qed.

(** The items of the result stand in the order in which they are first met
    in the input. *)
Lemma deduplicate_order (l : list string) :
  forall (i j : nat) (x y : string),
  deduplicate l !! i = Some x -> deduplicate l !! j = Some y -> (i < j)%nat ->
  exists a b : nat,
    firstIndex x l = Some a /\ firstIndex y l = Some b /\ (a < b)%nat.
Proof.
  induction l as [|c l IH] using rev_ind; intros i j x y Hi Hj Hij.
  - cbn in Hi. discriminate.
  - rewrite deduplicate_snoc in Hi, Hj.
    assert (Hkeep : forall (k : nat) (z : string),
               deduplicate l !! k = Some z -> firstIndex z (l ++ [c]) = firstIndex z l).
    { intros k z Hk. apply firstIndex_app_l, deduplicate_elem.
      apply list_elem_of_lookup. eauto. }
    case_bool_decide as Hin.
    + destruct (IH i j x y Hi Hj Hij) as (a & b & Ha & Hb & Hab).
      exists a, b. rewrite (Hkeep i x Hi), (Hkeep j y Hj). auto.
    + destruct (decide (j < length (deduplicate l))%nat) as [Hjl|Hjl].
      * rewrite lookup_app_l in Hi, Hj by lia.
        destruct (IH i j x y Hi Hj Hij) as (a & b & Ha & Hb & Hab).
        exists a, b. rewrite (Hkeep i x Hi), (Hkeep j y Hj). auto.
      * assert (Hjlen : j = length (deduplicate l)).
        { apply lookup_lt_Some in Hj. rewrite length_app in Hj. cbn in Hj. lia. }
        subst j. rewrite list_lookup_middle in Hj by reflexivity.
        injection Hj as <-.
        rewrite lookup_app_l in Hi by lia.
        assert (Hx : x ∈ l).
        { apply deduplicate_elem, list_elem_of_lookup. eauto. }
        destruct (firstIndex_elem x l Hx) as (a & Ha & Hlt).
        exists a, (length l).
        rewrite (Hkeep i x Hi), Ha, firstIndex_fresh by exact Hin. auto.
Qed.

(** C5. [deduplicate] returns each distinct string of its input once, the
    strings in the order of their first appearance in the input, and no
    string that the input does not hold. *)
Theorem deduplicate_first_seen (slice : list string) :
  NoDup (deduplicate slice) /\
  (forall x : string, x ∈ deduplicate slice <-> x ∈ slice) /\
  (forall (i j : nat) (x y : string),
     deduplicate slice !! i = Some x -> deduplicate slice !! j = Some y ->
     (i < j)%nat ->
     exists a b : nat,
       firstIndex x slice = Some a /\ firstIndex y slice = Some b /\ (a < b)%nat).
Proof.
  split; [apply deduplicate_NoDup|].
  split; [apply deduplicate_elem|apply deduplicate_order].
Qed.

(** A slice with repetitions: in the result b comes before c because it is
    met first at position 1 and c at position 3. *)
Lemma deduplicate_first_seen_witness :
  deduplicate ["a"; "b"; "a"; "c"; "b"] = ["a"; "b"; "c"] /\
  NoDup (deduplicate ["a"; "b"; "a"; "c"; "b"]) /\
  exists a b : nat,
    firstIndex "b" ["a"; "b"; "a"; "c"; "b"] = Some a /\
    firstIndex "c" ["a"; "b"; "a"; "c"; "b"] = Some b /\ (a < b)%nat.
Proof.
  destruct (deduplicate_first_seen ["a"; "b"; "a"; "c"; "b"]) as (Hnd & _ & Hord).
  split; [vm_compute; reflexivity|]. split; [exact Hnd|].
  apply (Hord 1%nat 2%nat "b" "c"); [vm_compute; reflexivity| vm_compute; reflexivity | lia].
Defined.

(** ** The generation round *)

Lemma task_fold (rs : list (result string)) (st : round) :
  fold_left task rs st =
  {| suggestions := suggestions st ++ omap taskSuggestion rs;
     errors := errors st ++ omap taskError rs |}.
Proof.
  revert st. induction rs as [|r rs IH]; intros st.
  - cbn. rewrite !app_nil_r. destruct st; reflexivity.
  - cbn [fold_left]. rewrite IH. cbn [omap list_omap].
    unfold task, taskSuggestion, taskError.
    destruct r as [response|err].
    + destruct (ParseLLMResponse response) as [command|err].
      * repeat case_bool_decide; try tauto; cbn [suggestions errors];
          rewrite <- ?app_assoc; reflexivity.
      * cbn [suggestions errors]. rewrite <- app_assoc. reflexivity.
    + cbn [suggestions errors]. rewrite <- app_assoc. reflexivity.
Qed.

(** The two slices after [wg.Wait()]. *)
Lemma collect_slices (client : string -> string -> nat -> result string)
    (cm : ContextManager) (cfg : Config) (prompt : string) :
  collect client cm cfg prompt =
  {| suggestions := omap taskSuggestion (replies client cm cfg prompt);
     errors := omap taskError (replies client cm cfg prompt) |}.
Proof. unfold collect. rewrite task_fold. reflexivity. Qed.

(** C2. In a round with a requested count of at least 1,
    [generateSuggestions] returns an error exactly when the slice of
    suggestions is empty and the slice of errors is not, the error being
    [fmt.Errorf("failed to generate suggestions: %v", errors[0])] for the
    error recorded first; in every other case it returns the slice of
    suggestions deduplicated, and no error. *)
Theorem generateSuggestions_error_iff
    (client : string -> string -> nat -> result string)
    (cm : ContextManager) (cfg : Config) (prompt : string) :
  1 <= SuggestionCount cfg ->
  let collected := omap taskSuggestion (replies client cm cfg prompt) in
  let recorded := omap taskError (replies client cm cfg prompt) in
  (forall e : error,
     generateSuggestions client cm cfg prompt = Some (Err e) <->
     collected = [] /\
     exists first : error, head recorded = Some first /\ e = FailedToGenerate first) /\
  ((exists e : error, generateSuggestions client cm cfg prompt = Some (Err e)) <->
   collected = [] /\ recorded <> []) /\
  (~ (collected = [] /\ recorded <> []) ->
   generateSuggestions client cm cfg prompt = Some (Ok (deduplicate collected))).
Proof.
  intros HN collected recorded.
  unfold generateSuggestions.
  rewrite collect_slices. fold collected recorded. cbn [suggestions errors].
  destruct (SuggestionCount cfg <? 0) eqn:Hneg; [apply Z.ltb_lt in Hneg; lia|].
  destruct collected as [|s ss], recorded as [|first rest]; cbn.
  - split; [|split].
    + intros e. split; [discriminate|]. intros (_ & f & Hf & _). discriminate.
    + split; [intros [e He]; discriminate|]. intros [_ Hne]. congruence.
    + reflexivity.
  - split; [|split].
    + intros e. split.
      * intros [= <-]. split; [reflexivity|]. exists first. auto.
      * intros (_ & f & [= <-] & ->). reflexivity.
    + split; [|eauto]. intros _. split; [reflexivity|discriminate].
    + intros Hnot. exfalso. apply Hnot. split; [reflexivity|discriminate].
  - split; [|split].
    + intros e. split; [discriminate|]. intros [Hs _]. discriminate.
    + split; [intros [e He]; discriminate|]. intros [Hs _]. discriminate.
    + reflexivity.
  - split; [|split].
    + intros e. split; [discriminate|]. intros [Hs _]. discriminate.
    + split; [intros [e He]; discriminate|]. intros [Hs _]. discriminate.
    + reflexivity.
Qed.

(** The two rounds of three tasks the specification describes: every
    request fails, and one request out of three fails while the two others
    give the same command. *)
Lemma generateSuggestions_error_iff_witness :
  generateSuggestions failingClient NewContextManager defaults "list files" =
    Some (Err (FailedToGenerate (ClientError "API request failed with status 500"))) /\
  generateSuggestions mixedClient NewContextManager defaults "list files" =
    Some (Ok ["ls -la"]).
Proof.
  split.
  - destruct (generateSuggestions_error_iff failingClient NewContextManager
                defaults "list files") as (Herr & _ & _); [vm_compute; discriminate|].
    apply Herr. split; [vm_compute; reflexivity|].
    eexists. split; vm_compute; reflexivity.
  - destruct (generateSuggestions_error_iff mixedClient NewContextManager
                defaults "list files") as (_ & _ & Hok); [vm_compute; discriminate|].
    rewrite Hok; [vm_compute; reflexivity|].
    intros [Hnil _]. vm_compute in Hnil. discriminate.
Defined.

Lemma omap_all_None {A B : Type} (f : A -> option B) (l : list A) :
  (forall x : A, x ∈ l -> f x = None) -> omap f l = [].
Proof.
  induction l as [|a l IH]; intros Hall; [reflexivity|].
  cbn [omap list_omap]. rewrite (Hall a) by apply list_elem_of_here.
  apply IH. intros x Hx. apply Hall. apply list_elem_of_further. exact Hx.
Qed.

(** C10. When no task of a round records an error and no task yields a
    command that is not empty, [generateSuggestions] returns the empty list
    of suggestions and no error. *)
Theorem generateSuggestions_all_empty
    (client : string -> string -> nat -> result string)
    (cm : ContextManager) (cfg : Config) (prompt : string) :
  0 <= SuggestionCount cfg ->
  (forall reply : result string, reply ∈ replies client cm cfg prompt ->
     taskError reply = None /\ taskSuggestion reply = None) ->
  generateSuggestions client cm cfg prompt = Some (Ok []).
Proof.
  intros HN Hall. unfold generateSuggestions.
  destruct (SuggestionCount cfg <? 0) eqn:Hneg; [apply Z.ltb_lt in Hneg; lia|].
  rewrite collect_slices. cbn [suggestions errors].
  rewrite (omap_all_None taskSuggestion) by (intros r Hr; apply (Hall r Hr)).
  rewrite (omap_all_None taskError) by (intros r Hr; apply (Hall r Hr)).
  reflexivity.
Qed.

(** A round of three tasks whose every reply is a JSON object with the
    empty command. *)
Lemma generateSuggestions_all_empty_witness :
  ParseLLMResponse (quoted "{'command': ''}") = Ok "" /\
  generateSuggestions emptyClient NewContextManager defaults "list files" = Some (Ok []).
Proof.
  split; [vm_compute; reflexivity|].
  apply generateSuggestions_all_empty; [vm_compute; discriminate|].
  intros reply Hin. unfold replies, emptyClient in Hin.
  apply list_elem_of_fmap in Hin as (i & -> & _).
  split; vm_compute; reflexivity.
Defined.

(** ** The session loop in context mode *)





(** ** The configuration layers *)

Section Layers.

Variable ParseFloat : string -> option float.

Lemma assign_other {A B : Type} (proj : Config -> B) (set : A -> Config -> Config)
    (val : option A) (cfg : Config) :
  (forall (v : A) (c : Config), proj (set v c) = proj c) ->
  proj (assign set val cfg) = proj cfg.
Proof. intros Hset. destruct val; [apply Hset|reflexivity]. Qed.

Lemma assign_same {A : Type} (proj : Config -> A) (set : A -> Config -> Config)
    (val : option A) (cfg : Config) :
  (forall (v : A) (c : Config), proj (set v c) = v) ->
  proj (assign set val cfg) = default (proj cfg) val.
Proof. intros Hset. destruct val; [apply Hset|reflexivity]. Qed.

(** A field read through a chain of guarded assignments: the assignments
    to other fields are passed over. *)
Ltac through_assign :=
  repeat match goal with
  | |- context [?p (assign ?s ?v ?c)] =>
    first [ rewrite (assign_other p s v c) by (intros; reflexivity)
          | rewrite (assign_same p s v c) by (intros; reflexivity) ]
  end.

(** What the environment layer does to a field: the text of its variable,
    when not empty and when it parses, replaces the value. *)
Lemma loadFromEnv_field (env : gmap string string) (cfg : Config) (f : field) :
  get f (fst (loadFromEnv ParseFloat env cfg)) =
  default (get f cfg) (nonEmpty (Getenv env (key f)) ≫= parseAs ParseFloat f).
Proof.
  destruct f; unfold loadFromEnv; cbn [fst get key parseAs]; through_assign;
    (destruct (nonEmpty _) as [val|]; [|reflexivity]); cbn;
    match goal with
    | |- context [Strconv.Atoi ?v] => destruct (Strconv.Atoi v)
    | |- context [Strconv.ParseBool ?v] => destruct (Strconv.ParseBool v)
    | |- context [ParseFloat ?v] => destruct (ParseFloat v)
    | _ => idtac
    end; reflexivity.
Qed.

Lemma loadFromEnv_no_error (env : gmap string string) (cfg : Config) :
  snd (loadFromEnv ParseFloat env cfg) = None.
Proof. reflexivity. Qed.

(** What the file layer does to a field when the file is a JSON object of
    strings: the text under its key, when it parses, replaces the value. *)
Lemma loadFromConfigFile_field (data : string) (configMap : gmap string string)
    (cfg : Config) (f : field) :
  Json.UnmarshalStringMap data = Ok configMap ->
  get f (fst (loadFromConfigFile ParseFloat (Ok data) cfg)) =
  default (get f cfg) (configMap !! key f ≫= parseAs ParseFloat f).
Proof.
  intros Hmap.
  destruct f; unfold loadFromConfigFile; rewrite Hmap; cbn [fst get key parseAs];
    through_assign;
    (destruct (configMap !! _) as [val|]; [|reflexivity]); cbn;
    match goal with
    | |- context [Strconv.Atoi ?v] => destruct (Strconv.Atoi v)
    | |- context [Strconv.ParseBool ?v] => destruct (Strconv.ParseBool v)
    | |- context [ParseFloat ?v] => destruct (ParseFloat v)
    | _ => idtac
    end; reflexivity.
Qed.

(** A file that cannot be read, or that is no JSON object of strings,
    changes nothing. *)
Lemma loadFromConfigFile_error (file : result string) (cfg : Config) (e : error) :
  snd (loadFromConfigFile ParseFloat file cfg) = Some e ->
  fst (loadFromConfigFile ParseFloat file cfg) = cfg.
Proof.
  unfold loadFromConfigFile. destruct file as [data|err]; [|reflexivity].
  destruct (Json.UnmarshalStringMap data); [discriminate|reflexivity].
Qed.

(** [LoadConfig] is the environment layer on top of the file layer on top
    of the defaults, and returns no error. *)
Lemma LoadConfig_layers (file : result string) (env : gmap string string) :
  LoadConfig ParseFloat file env =
  Ok (fst (loadFromEnv ParseFloat env
             (fst (loadFromConfigFile ParseFloat file defaults)))).
Proof.
  unfold LoadConfig.
  destruct (loadFromConfigFile ParseFloat file defaults) as [cfg e].
  reflexivity.
Qed.

End Layers.

(** C6. In the file layer and in the environment layer alike, the text of a
    numeric or boolean field that does not parse is passed over: the field
    keeps the value it had before the layer, and [LoadConfig] returns a
    configuration, never an error. A file that cannot be read or decoded
    changes no field. *)
Theorem malformed_value_ignored (ParseFloat : string -> option float)
    (file : result string) (env : gmap string string) :
  (exists cfg : Config, LoadConfig ParseFloat file env = Ok cfg) /\
  (forall (f : field) (cfg : Config),
     parseAs ParseFloat f (Getenv env (key f)) = None ->
     get f (fst (loadFromEnv ParseFloat env cfg)) = get f cfg) /\
  (forall (f : field) (cfg : Config) (data : string)
          (configMap : gmap string string) (val : string),
     file = Ok data ->
     Json.UnmarshalStringMap data = Ok configMap ->
     configMap !! key f = Some val ->
     parseAs ParseFloat f val = None ->
     get f (fst (loadFromConfigFile ParseFloat file cfg)) = get f cfg) /\
  (forall (cfg : Config) (e : error),
     snd (loadFromConfigFile ParseFloat file cfg) = Some e ->
     fst (loadFromConfigFile ParseFloat file cfg) = cfg).
Proof.
  split; [|split; [|split]].
  - eexists. apply LoadConfig_layers.
  - intros f cfg Hbad. rewrite loadFromEnv_field.
    unfold nonEmpty. case_bool_decide; [reflexivity|].
    cbn. rewrite Hbad. reflexivity.
  - intros f cfg data configMap val -> Hmap Hval Hbad.
    rewrite (loadFromConfigFile_field ParseFloat data configMap cfg f Hmap).
    rewrite Hval. cbn. rewrite Hbad. reflexivity.
  - intros cfg e. apply loadFromConfigFile_error.
Qed.

(** A count and a flag that do not parse: in the environment, on top of a
    file that sets the count to 5, and in the file, on top of the
    defaults. *)
Lemma malformed_value_ignored_witness :
  get FSuggestionCount (fst (loadFromEnv noParseFloat envMalformed
     (fst (loadFromConfigFile noParseFloat fileGroqKey defaults)))) = VInt 5 /\
  get FSkipConfirm (fst (loadFromEnv noParseFloat envMalformed defaults)) = VBool false /\
  get FSuggestionCount (fst (loadFromConfigFile noParseFloat fileMalformedCount defaults))
    = VInt 3.
Proof.
  destruct (malformed_value_ignored noParseFloat fileMalformedCount envMalformed)
    as (_ & Henv & Hfile & _).
  split; [|split].
  - rewrite Henv by (vm_compute; reflexivity). vm_compute. reflexivity.
  - rewrite Henv by (vm_compute; reflexivity). vm_compute. reflexivity.
  - erewrite Hfile; [vm_compute; reflexivity|reflexivity| | |].
    + vm_compute. reflexivity.
    + vm_compute. reflexivity.
    + vm_compute. reflexivity.
Defined.

(** C7. With no configuration file and none of the variables set in the
    environment, [LoadConfig] succeeds with the defaults: OpenAIModel
    gpt-3.5-turbo, SuggestionCount 3, APIProvider groq, GroqModel
    llama-3.3-70b-versatile, Temperature 0.05. *)
Theorem LoadConfig_defaults (ParseFloat : string -> option float)
    (err : error) (env : gmap string string) :
  (forall f : field, Getenv env (key f) = "") ->
  exists cfg : Config,
    LoadConfig ParseFloat (Err err) env = Ok cfg /\
    OpenAIModel cfg = "gpt-3.5-turbo" /\
    SuggestionCount cfg = 3 /\
    APIProvider cfg = "groq" /\
    GroqModel cfg = "llama-3.3-70b-versatile" /\
    Temperature cfg = 0.05%float.
Proof.
  intros Hunset. eexists. split; [apply LoadConfig_layers|].
  assert (Hkeep : forall f : field,
            get f (fst (loadFromEnv ParseFloat env
                          (fst (loadFromConfigFile ParseFloat (Err err) defaults))))
            = get f defaults).
  { intros f. rewrite loadFromEnv_field, Hunset. reflexivity. }
  pose proof (Hkeep FOpenAIModel) as H1. pose proof (Hkeep FSuggestionCount) as H2.
  pose proof (Hkeep FAPIProvider) as H3. pose proof (Hkeep FGroqModel) as H4.
  pose proof (Hkeep FTemperature) as H5.
  cbn [get] in H1, H2, H3, H4, H5.
  repeat split.
  - transitivity (OpenAIModel defaults); [congruence|reflexivity].
  - transitivity (SuggestionCount defaults); [congruence|reflexivity].
  - transitivity (APIProvider defaults); [congruence|reflexivity].
  - transitivity (GroqModel defaults); [congruence|reflexivity].
  - transitivity (Temperature defaults); [congruence|reflexivity].
Qed.

(** The file missing and the environment empty. *)
Lemma LoadConfig_defaults_witness :
  exists cfg : Config,
    LoadConfig noParseFloat noFile ∅ = Ok cfg /\
    OpenAIModel cfg = "gpt-3.5-turbo" /\
    SuggestionCount cfg = 3 /\
    APIProvider cfg = "groq" /\
    GroqModel cfg = "llama-3.3-70b-versatile" /\
    Temperature cfg = 0.05%float.
Proof.
  apply (LoadConfig_defaults noParseFloat (PathError true) ∅).
  intros f. reflexivity.
Defined.

(** C8. A field that the file and the environment both set takes the value
    of the environment: whatever the file holds, a variable whose text is
    not empty and parses for the field gives the field its value. So the
    resolved GroqAPIKey is the text of GROQ_API_KEY in the environment when
    that is not empty. *)
Theorem environment_overrides_file (ParseFloat : string -> option float)
    (file : result string) (env : gmap string string) :
  exists cfg : Config,
    LoadConfig ParseFloat file env = Ok cfg /\
    (forall (f : field) (val : string) (v : value),
       Getenv env (key f) = val -> val <> "" ->
       parseAs ParseFloat f val = Some v ->
       get f cfg = v) /\
    (forall val : string,
       Getenv env "GROQ_API_KEY" = val -> val <> "" -> GroqAPIKey cfg = val).
Proof.
  eexists. split; [apply LoadConfig_layers|].
  assert (Hall : forall (f : field) (val : string) (v : value),
            Getenv env (key f) = val -> val <> "" ->
            parseAs ParseFloat f val = Some v ->
            get f (fst (loadFromEnv ParseFloat env
                          (fst (loadFromConfigFile ParseFloat file defaults)))) = v).
  { intros f val v Hval Hne Hparse. rewrite loadFromEnv_field, Hval.
    unfold nonEmpty. rewrite bool_decide_eq_false_2 by exact Hne.
    cbn. rewrite Hparse. reflexivity. }
  split; [exact Hall|].
  intros val Hval Hne.
  pose proof (Hall FGroqAPIKey val (VString val) Hval Hne eq_refl) as H.
  cbn [get] in H. congruence.
Qed.

(** A file that sets GROQ_API_KEY to file-key: the resolved key is env-key
    when the environment sets that, and file-key when the environment is
    empty. *)
Lemma environment_overrides_file_witness :
  (exists cfg : Config,
     LoadConfig noParseFloat fileGroqKey envGroqKey = Ok cfg /\
     GroqAPIKey cfg = "env-key") /\
  (exists cfg : Config,
     LoadConfig noParseFloat fileGroqKey ∅ = Ok cfg /\
     GroqAPIKey cfg = "file-key").
Proof.
  split.
  - destruct (environment_overrides_file noParseFloat fileGroqKey envGroqKey)
      as (cfg & Hload & _ & Hgroq).
    exists cfg. split; [exact Hload|].
    apply Hgroq; [vm_compute; reflexivity|discriminate].
  - eexists. split; [apply LoadConfig_layers|]. vm_compute. reflexivity.
Defined.

(** ** The response extractor *)

(** The tests of parser_test.go. *)
Example test_valid_JSON :
  ParseLLMResponse (quoted "{'command': 'ls -la'}") = Ok "ls -la".
Proof. vm_compute. reflexivity. Qed.

Example test_valid_JSON_in_code_block :
  ParseLLMResponse ("```json" ++ nl ++ quoted "{'command': 'ls -la'}" ++ nl ++ "```")%string
  = Ok "ls -la".
Proof. vm_compute. reflexivity. Qed.

Example test_valid_JSON_in_inline_code :
  ParseLLMResponse ("`" ++ quoted "{'command': 'ls -la'}" ++ "`")%string = Ok "ls -la".
Proof. vm_compute. reflexivity. Qed.

Example test_invalid_JSON :
  ParseLLMResponse "not a json" = Err SyntaxError.
Proof. vm_compute. reflexivity. Qed.

(** An object all of whose members named [command] hold the empty string
    leaves the field empty and saves no error. *)
Lemma storeMember_empty (members : list (list Z * Json.json)) :
  (forall (k : list Z) (v : Json.json),
     (k, v) ∈ members -> Json.equalFold (Json.unquote k) "command" = true ->
     v = Json.JString []) ->
  fold_left (Json.storeMember "command") members ("", None) = ("", None).
Proof.
  induction members as [|[k v] members IH]; intros Hall; [reflexivity|].
  cbn [fold_left]. unfold Json.storeMember at 2.
  destruct (Json.equalFold (Json.unquote k) "command") eqn:Hk.
  - rewrite (Hall k v (list_elem_of_here _ _) Hk).
    change (Json.unquote []) with "".
    apply IH. intros k' v' Hin. apply Hall. apply list_elem_of_further. exact Hin.
  - apply IH. intros k' v' Hin. apply Hall. apply list_elem_of_further. exact Hin.
Qed.

(** The claim C3 fails on the reply with an empty command: the result is
    the empty command and no error. *)
Lemma ParseLLMResponse_empty_command_ok :
  ParseLLMResponse replyEmptyCommand = Ok "" /\
  ~ (forall response : string,
       Parser.Unmarshal (jsonContent response) = Ok {| Command := "" |} ->
       exists e : error, ParseLLMResponse response = Err e) /\
  ~ (forall response command : string,
       ParseLLMResponse response = Ok command -> command <> "").
Proof.
  split; [vm_compute; reflexivity|]. split.
  - intros Hclaim.
    destruct (Hclaim replyEmptyCommand) as [e He]; [vm_compute; reflexivity|].
    vm_compute in He. discriminate.
  - intros Hclaim.
    apply (Hclaim replyEmptyCommand ""); [vm_compute|]; reflexivity.
Qed.

(** C3, amended. [ParseLLMResponse] returns a syntax error whenever the text
    it selects is not well-formed JSON, as for a response without content;
    it cannot panic. When the selected text is a JSON object whose
    members named [command] hold the empty string, or that has no such
    member, or is [null], the result is the empty command and no error. *)
Theorem ParseLLMResponse_malformed_or_empty (response : string) :
  (Json.parse (jsonContent response) = None ->
   ParseLLMResponse response = Err SyntaxError) /\
  (response = "" -> ParseLLMResponse response = Err SyntaxError) /\
  (forall members : list (list Z * Json.json),
     Json.parse (jsonContent response) = Some (Json.JObject members) ->
     (forall (k : list Z) (v : Json.json),
        (k, v) ∈ members -> Json.equalFold (Json.unquote k) "command" = true ->
        v = Json.JString []) ->
     ParseLLMResponse response = Ok "") /\
  (Json.parse (jsonContent response) = Some Json.JNull ->
   ParseLLMResponse response = Ok "").
Proof.
  split; [|split; [|split]].
  - intros Hbad. unfold ParseLLMResponse, Parser.Unmarshal, Json.UnmarshalStringField.
    rewrite Hbad. reflexivity.
  - intros ->. vm_compute. reflexivity.
  - intros members Hobj Hall.
    unfold ParseLLMResponse, Parser.Unmarshal, Json.UnmarshalStringField.
    rewrite Hobj, (storeMember_empty members Hall). reflexivity.
  - intros Hnull. unfold ParseLLMResponse, Parser.Unmarshal, Json.UnmarshalStringField.
    rewrite Hnull. reflexivity.
Qed.

(** The text of the test of malformed JSON, and a reply with an empty
    command. *)
Lemma ParseLLMResponse_malformed_or_empty_witness :
  ParseLLMResponse "not a json" = Err SyntaxError /\
  ParseLLMResponse replyEmptyCommand = Ok "".
Proof.
  split.
  - destruct (ParseLLMResponse_malformed_or_empty "not a json") as (Hbad & _).
    apply Hbad. vm_compute. reflexivity.
  - destruct (ParseLLMResponse_malformed_or_empty replyEmptyCommand) as (_ & _ & Hobj & _).
    apply (Hobj [(GoString.bytes "command", Json.JString [])]).
    + vm_compute. reflexivity.
    + intros k v Hin _. apply list_elem_of_singleton in Hin.
      congruence.
Defined.

(** A pattern that begins with a backtick matches nowhere in a text
    without backticks. *)
Lemma find_without_backtick (l : string) (l' : list Z) (r : Regexp.regex) (p : list Z) :
  GoString.bytes l = 0x60 :: l' ->
  Forall (fun b => b <> 0x60) p ->
  Regexp.find (Regexp.Seq (Regexp.Lit l) r) p = None.
Proof.
  intros Hl. induction p as [|c t IH]; intros Hall.
  - cbn [Regexp.find Regexp.matchAt]. rewrite Hl. reflexivity.
  - apply Forall_cons in Hall as [Hc Ht].
    cbn [Regexp.find Regexp.matchAt]. rewrite Hl. cbn [Regexp.lit].
    rewrite (proj2 (Z.eqb_neq 0x60 c)) by congruence.
    apply IH. exact Ht.
Qed.

(** A response without backticks is handed to [json.Unmarshal] as it is. *)
Lemma ParseLLMResponse_without_backtick (response : string) :
  Forall (fun b => b <> 0x60) (GoString.bytes response) ->
  jsonContent response = response.
Proof.
  intros Hall. unfold jsonContent, extractJSONFromMarkdown, Regexp.FirstSubmatch.
  unfold codeBlockRegex, inlineCodeRegex.
  rewrite (find_without_backtick "```" [0x60; 0x60]) by (reflexivity || exact Hall).
  rewrite (find_without_backtick "`" []) by (reflexivity || exact Hall).
  reflexivity.
Qed.

(** C4, at a reply of the shape the system prompt asks for whose command
    holds a pair of backticks: the reply as a whole is a JSON object with
    the command, but the text between the backticks is taken for inline
    code and selected, and the result is a syntax error. The same reply
    inside a fenced code block gives the command. *)
Theorem ParseLLMResponse_backtick_command :
  Parser.Unmarshal replyBacktickCommand = Ok {| Command := "echo `date`" |} /\
  extractJSONFromMarkdown replyBacktickCommand = "date" /\
  ParseLLMResponse replyBacktickCommand = Err SyntaxError /\
  ParseLLMResponse ("```json" ++ nl ++ replyBacktickCommand ++ nl ++ "```")%string
  = Ok "echo `date`".
Proof. repeat split; vm_compute; reflexivity. Qed.

(** * Further properties *)

Import StringsMore ContextOps Examples Replies Scenarios Traces.

(** ** The generation round, continued *)

Lemma generateSuggestions_cases (client : string -> string -> nat -> result string)
    (cm : ContextManager) (cfg : Config) (prompt : string) :
  0 <= SuggestionCount cfg ->
  generateSuggestions client cm cfg prompt =
  match omap taskSuggestion (replies client cm cfg prompt),
        omap taskError (replies client cm cfg prompt) with
  | [], first :: _ => Some (Err (FailedToGenerate first))
  | collected, _ => Some (Ok (deduplicate collected))
  end.
Proof.
  intros HN. unfold generateSuggestions.
  destruct (SuggestionCount cfg <? 0) eqn:Hneg; [apply Z.ltb_lt in Hneg; lia|].
  rewrite collect_slices. cbn [suggestions errors].
  destruct (omap taskSuggestion _) as [|s ss], (omap taskError _) as [|e es];
    reflexivity.
Qed.

Lemma generateSuggestions_count (client : string -> string -> nat -> result string)
    (cm : ContextManager) (cfg : Config) (prompt : string) (r : result (list string)) :
  generateSuggestions client cm cfg prompt = Some r -> 0 <= SuggestionCount cfg.
Proof.
  unfold generateSuggestions.
  destruct (SuggestionCount cfg <? 0) eqn:Hneg; [discriminate|].
  intros _. apply Z.ltb_ge in Hneg. exact Hneg.
Qed.

Lemma deduplicate_length (l : list string) :
  (length (deduplicate l) <= length l)%nat.
Proof.
  induction l as [|a l IH] using rev_ind; [cbn; lia|].
  rewrite deduplicate_snoc, length_app. cbn [length].
  case_bool_decide; [lia|]. rewrite length_app. cbn [length]. lia.
Qed.

Lemma omap_length_le {A B : Type} (f : A -> option B) (l : list A) :
  (length (omap f l) <= length l)%nat.
Proof.
  induction l as [|a l IH]; [cbn; lia|].
  cbn [omap list_omap]. destruct (f a); cbn [length]; lia.
Qed.

Lemma replies_length (client : string -> string -> nat -> result string)
    (cm : ContextManager) (cfg : Config) (prompt : string) :
  length (replies client cm cfg prompt) = Z.to_nat (SuggestionCount cfg).
Proof. unfold replies. rewrite length_map, length_seq. reflexivity. Qed.

Lemma taskSuggestion_Some (reply : result string) (c : string) :
  taskSuggestion reply = Some c ->
  c <> "" /\ exists response : string,
    reply = Ok response /\ ParseLLMResponse response = Ok c.
Proof.
  unfold taskSuggestion. destruct reply as [response|e]; [|discriminate].
  destruct (ParseLLMResponse response) as [command|e] eqn:Hparse; [|discriminate].
  case_bool_decide as Hempty; [discriminate|].
  intros [= <-]. split; [exact Hempty|]. exists response.
  split; [reflexivity|exact Hparse].
Qed.

Lemma generateSuggestions_Ok (client : string -> string -> nat -> result string)
    (cm : ContextManager) (cfg : Config) (prompt : string) (l : list string) :
  generateSuggestions client cm cfg prompt = Some (Ok l) ->
  l = deduplicate (omap taskSuggestion (replies client cm cfg prompt)).
Proof.
  intros Hrun. pose proof (generateSuggestions_count _ _ _ _ _ Hrun) as HN.
  rewrite generateSuggestions_cases in Hrun by exact HN.
  destruct (omap taskSuggestion (replies client cm cfg prompt)) as [|s ss];
    destruct (omap taskError (replies client cm cfg prompt)) as [|e es];
    congruence.
Qed.

(** A round that succeeds returns at most as many commands as were asked
    for, none of them twice, none of them empty, and each of them the
    command that [ParseLLMResponse] found in the reply to one of the
    requests of the round. *)
Theorem generateSuggestions_sound (client : string -> string -> nat -> result string)
    (cm : ContextManager) (cfg : Config) (prompt : string) (l : list string) :
  generateSuggestions client cm cfg prompt = Some (Ok l) ->
  NoDup l /\
  ("" ∉ l) /\
  (length l <= Z.to_nat (SuggestionCount cfg))%nat /\
  forall c : string, c ∈ l ->
    exists (i : nat) (response : string),
      (i < Z.to_nat (SuggestionCount cfg))%nat /\
      client prompt (if ContextMode cfg then GetContext cm else "") i = Ok response /\
      ParseLLMResponse response = Ok c.
Proof.
  intros Hrun. apply generateSuggestions_Ok in Hrun. subst l.
  set (collected := omap taskSuggestion (replies client cm cfg prompt)).
  assert (Hfrom : forall c : string, c ∈ deduplicate collected ->
            exists reply : result string,
              reply ∈ replies client cm cfg prompt /\ taskSuggestion reply = Some c).
  { intros c Hc. apply (proj1 (deduplicate_elem collected c)) in Hc.
    apply list_elem_of_omap in Hc. exact Hc. }
  split; [apply deduplicate_NoDup|]. split; [|split].
  - intros Hempty. destruct (Hfrom "" Hempty) as (reply & _ & Hs).
    apply taskSuggestion_Some in Hs as [Hne _]. congruence.
  - etransitivity; [apply deduplicate_length|].
    etransitivity; [apply omap_length_le|].
    rewrite replies_length. lia.
  - intros c Hc. destruct (Hfrom c Hc) as (reply & Hin & Hs).
    apply taskSuggestion_Some in Hs as (_ & response & -> & Hparse).
    unfold replies in Hin. apply list_elem_of_fmap in Hin as (i & Hi & Hseq).
    apply elem_of_seq in Hseq.
    exists i, response. split; [lia|]. split; [symmetry; exact Hi|exact Hparse].
Qed.

(** Three requests, one of which fails and two of which give the same
    command: one command comes back, from the first request. *)
Lemma generateSuggestions_sound_witness :
  exists (i : nat) (response : string),
    (i < 3)%nat /\ mixedClient "list files" "" i = Ok response /\
    ParseLLMResponse response = Ok "ls -la".
Proof.
  destruct (generateSuggestions_sound mixedClient NewContextManager defaults
              "list files" ["ls -la"]) as (_ & _ & _ & Hfrom).
  - vm_compute. reflexivity.
  - apply (Hfrom "ls -la"). apply list_elem_of_here.
Defined.

(** The order in which the goroutines reach the shared slices decides
    neither whether the round fails nor which commands it returns, only
    their order in the list and which of the errors is reported. *)
Theorem generateSuggestions_scheduling
    (client1 client2 : string -> string -> nat -> result string)
    (cm : ContextManager) (cfg : Config) (prompt : string) :
  replies client1 cm cfg prompt ≡ₚ replies client2 cm cfg prompt ->
  match generateSuggestions client1 cm cfg prompt,
        generateSuggestions client2 cm cfg prompt with
  | Some (Ok l1), Some (Ok l2) => l1 ≡ₚ l2
  | Some (Err _), Some (Err _) => True
  | None, None => True
  | _, _ => False
  end.
Proof.
  intros Hperm.
  destruct (Z.lt_ge_cases (SuggestionCount cfg) 0) as [Hneg|HN].
  - unfold generateSuggestions.
    rewrite (proj2 (Z.ltb_lt _ _) Hneg). exact I.
  - rewrite !generateSuggestions_cases by exact HN.
    pose proof (omap_Permutation taskSuggestion _ _ Hperm) as Hs.
    pose proof (omap_Permutation taskError _ _ Hperm) as He.
    pose proof (Permutation_length Hs) as Hls.
    pose proof (Permutation_length He) as Hle.
    destruct (omap taskSuggestion (replies client1 cm cfg prompt)) as [|s1 ss1];
      destruct (omap taskSuggestion (replies client2 cm cfg prompt)) as [|s2 ss2];
      destruct (omap taskError (replies client1 cm cfg prompt)) as [|e1 es1];
      destruct (omap taskError (replies client2 cm cfg prompt)) as [|e2 es2];
      cbn [length] in Hls, Hle; try discriminate; try exact I; try reflexivity;
      apply NoDup_Permutation;
      try apply deduplicate_NoDup;
      intros x; rewrite !deduplicate_elem, Hs; reflexivity.
Qed.

(** The same three replies in two orders: the failure second, the failure
    first. *)
Lemma generateSuggestions_scheduling_witness :
  match generateSuggestions mixedClient NewContextManager defaults "list files",
        generateSuggestions lateClient NewContextManager defaults "list files" with
  | Some (Ok l1), Some (Ok l2) => l1 ≡ₚ l2
  | Some (Err _), Some (Err _) => True
  | None, None => True
  | _, _ => False
  end.
Proof.
  apply generateSuggestions_scheduling.
  vm_compute. apply perm_swap.
Defined.

Lemma NoDup_constant (c : string) (l : list string) :
  NoDup l -> l <> [] -> (forall x : string, x ∈ l -> x = c) -> l = [c].
Proof.
  intros Hnd Hne Hall. destruct l as [|a l]; [congruence|].
  pose proof (Hall a (list_elem_of_here _ _)) as ->.
  destruct l as [|b l]; [reflexivity|].
  pose proof (Hall b (list_elem_of_further _ _ _ (list_elem_of_here _ _))) as ->.
  apply NoDup_cons in Hnd as [Hnin _]. exfalso. apply Hnin. apply list_elem_of_here.
Qed.

(** When every request of a round either fails or gives the command [c],
    and one of them gives it, the round returns [c] alone: errors beside a
    success are dropped, repetitions are merged. *)
Theorem generateSuggestions_same_command
    (client : string -> string -> nat -> result string)
    (cm : ContextManager) (cfg : Config) (prompt : string) (c : string) :
  0 <= SuggestionCount cfg ->
  (forall reply : result string, reply ∈ replies client cm cfg prompt ->
     taskSuggestion reply = Some c \/ taskSuggestion reply = None) ->
  (exists reply : result string,
     reply ∈ replies client cm cfg prompt /\ taskSuggestion reply = Some c) ->
  generateSuggestions client cm cfg prompt = Some (Ok [c]).
Proof.
  intros HN Hall (reply & Hin & Hc).
  rewrite generateSuggestions_cases by exact HN.
  remember (omap taskSuggestion (replies client cm cfg prompt)) as collected eqn:E.
  assert (Hmem : c ∈ collected).
  { subst collected. apply list_elem_of_omap. exists reply. split; assumption. }
  assert (Hdedup : deduplicate collected = [c]).
  { apply NoDup_constant; [apply deduplicate_NoDup| |].
    - intros Hnil. apply (proj2 (deduplicate_elem collected c)) in Hmem.
      rewrite Hnil in Hmem. apply elem_of_nil in Hmem. contradiction.
    - intros x Hx. apply (proj1 (deduplicate_elem collected x)) in Hx.
      subst collected.
      apply list_elem_of_omap in Hx as (r & Hr & Hs).
      destruct (Hall r Hr) as [Hsome|Hnone]; congruence. }
  clear E.
  destruct collected as [|s ss]; [apply elem_of_nil in Hmem; contradiction|].
  destruct (omap taskError (replies client cm cfg prompt)); rewrite Hdedup; reflexivity.
Qed.

(** Two successes with the same command and one failure out of three. *)
Lemma generateSuggestions_same_command_witness :
  generateSuggestions mixedClient NewContextManager defaults "list files" =
  Some (Ok ["ls -la"]).
Proof.
  apply generateSuggestions_same_command.
  - vm_compute. discriminate.
  - intros reply Hin. unfold replies in Hin.
    apply list_elem_of_fmap in Hin as (i & -> & _).
    destruct i as [|[|i]]; [left|right|left]; vm_compute; reflexivity.
  - exists (mixedClient "list files" "" 0%nat). split.
    + vm_compute. apply list_elem_of_here.
    + vm_compute. reflexivity.
Defined.

(** ** Deduplication, continued *)

Lemma deduplicate_NoDup_id (l : list string) : NoDup l -> deduplicate l = l.
Proof.
  induction l as [|a l IH] using rev_ind; intros Hnd; [reflexivity|].
  apply NoDup_app in Hnd as (Hl & Hdisj & _).
  rewrite deduplicate_snoc, IH by exact Hl.
  rewrite bool_decide_eq_false_2; [reflexivity|].
  intros Hin. apply (Hdisj a Hin). apply list_elem_of_here.
Qed.

Lemma deduplicate_sublist (l : list string) : sublist (deduplicate l) l.
Proof.
  induction l as [|a l IH] using rev_ind; [constructor|].
  rewrite deduplicate_snoc. case_bool_decide.
  - apply sublist_inserts_r. exact IH.
  - apply sublist_app; [exact IH|reflexivity].
Qed.

(** [deduplicate] leaves exactly the slices without repetitions as they are;
    applied twice it does what it does once; its result is the input with
    some items taken out, the others in place. *)
Theorem deduplicate_fixed (slice : list string) :
  (deduplicate slice = slice <-> NoDup slice) /\
  deduplicate (deduplicate slice) = deduplicate slice /\
  sublist (deduplicate slice) slice.
Proof.
  split; [|split].
  - split; [|apply deduplicate_NoDup_id].
    intros <-. apply deduplicate_NoDup.
  - apply deduplicate_NoDup_id, deduplicate_NoDup.
  - apply deduplicate_sublist.
Qed.

(** ** The session loop in context mode, continued *)



(** ** The context buffer, continued *)

Lemma calls_window (C : Z) (ops : list op) :
  1 <= C ->
  forall acc : list rune,
  calls {| tokenBuffer := lastn (Z.to_nat C) acc; maxTokens := C |} ops =
  Some {| tokenBuffer := lastn (Z.to_nat C) (pending acc ops); maxTokens := C |}.
Proof.
  intros HC. induction ops as [|o ops IH]; intros acc; [reflexivity|].
  assert (Hlen : forall l : list rune,
            Z.of_nat (length (lastn (Z.to_nat C) l)) <= C).
  { intros l. rewrite lastn_length. lia. }
  cbn [calls pending]. destruct o as [token| |chunk]; cbn [call].
  - rewrite (AddToken_window C HC) by apply Hlen.
    rewrite lastn_lastn_app. apply IH.
  - unfold Flush, make_runes. cbn [maxTokens].
    rewrite (proj2 (Z.ltb_ge C 0)) by lia.
    apply (IH []).
  - unfold AddChunk, Flush, make_runes. cbn [maxTokens].
    rewrite (proj2 (Z.ltb_ge C 0)) by lia.
    rewrite (AddTokens_window C HC) by (cbn; lia).
    apply IH.
Qed.

(** Whatever calls of [AddToken], [Flush] and [AddChunk] are made on the
    manager that [NewContextManager] returns, in whatever order, none of
    them panics, the buffer never holds more than 1500 tokens, and the
    context is the last 1500 of the tokens handed over since the manager
    was last emptied (by [Flush] or at the start of [AddChunk]). *)
Theorem ContextManager_calls (ops : list op) :
  exists cm : ContextManager,
    calls NewContextManager ops = Some cm /\
    tokenBuffer cm = lastn 1500 (pending [] ops) /\
    GetContext cm = string_of_runes (lastn 1500 (pending [] ops)) /\
    (length (tokenBuffer cm) <= 1500)%nat /\
    maxTokens cm = MaxContextTokens.
Proof.
  exists {| tokenBuffer := lastn 1500 (pending [] ops); maxTokens := MaxContextTokens |}.
  split; [|split; [|split; [|split]]].
  - apply (calls_window MaxContextTokens ops) with (acc := []).
    unfold MaxContextTokens. lia.
  - reflexivity.
  - unfold GetContext. cbn [tokenBuffer].
    destruct (lastn 1500 (pending [] ops)); reflexivity.
  - cbn [tokenBuffer]. rewrite lastn_length. lia.
  - reflexivity.
Qed.



(** ** The configuration layers, continued *)

(** What a field resolves to when the file is a JSON object of strings:
    the text of its variable in the environment when that is not empty and
    parses; or else the text under its key in the file when there is one
    and it parses; or else the default. *)
Theorem LoadConfig_resolution (ParseFloat : string -> option float)
    (data : string) (configMap : gmap string string) (env : gmap string string) :
  Json.UnmarshalStringMap data = Ok configMap ->
  exists cfg : Config,
    LoadConfig ParseFloat (Ok data) env = Ok cfg /\
    forall f : field,
      get f cfg =
      default
        (default (get f defaults) (configMap !! key f ≫= parseAs ParseFloat f))
        (nonEmpty (Getenv env (key f)) ≫= parseAs ParseFloat f).
Proof.
  intros Hmap. eexists. split; [apply LoadConfig_layers|].
  intros f. rewrite loadFromEnv_field.
  rewrite (loadFromConfigFile_field ParseFloat data configMap defaults f Hmap).
  reflexivity.
Qed.

(** A file that sets the key and the count, and an environment that sets
    the key: the key of the environment, the count of the file, the model
    of the defaults. *)
Lemma LoadConfig_resolution_witness :
  exists cfg : Config,
    LoadConfig noParseFloat fileGroqKey envGroqKey = Ok cfg /\
    get FGroqAPIKey cfg = VString "env-key" /\
    get FSuggestionCount cfg = VInt 5 /\
    get FGroqModel cfg = VString "llama-3.3-70b-versatile".
Proof.
  destruct (LoadConfig_resolution noParseFloat
              (quoted "{'GROQ_API_KEY': 'file-key', 'SHAI_SUGGESTION_COUNT': '5'}")
              (<["SHAI_SUGGESTION_COUNT" := "5"]> {["GROQ_API_KEY" := "file-key"]})
              envGroqKey) as (cfg & Hload & Hget).
  - vm_compute. reflexivity.
  - exists cfg. split; [exact Hload|].
    rewrite !Hget. repeat split; vm_compute; reflexivity.
Defined.






(** The count of suggestions is taken from the configuration unchecked: any
    text that [strconv.Atoi] accepts sets it. With a negative count
    [generateSuggestions] panics, in [make]; with the count 0 it returns no
    suggestion and no error, whatever the client would reply. *)
Theorem SuggestionCount_unchecked (ParseFloat : string -> option float)
    (file : result string) (env : gmap string string) (n : Z)
    (client : string -> string -> nat -> result string)
    (cm : ContextManager) (prompt : string) :
  Strconv.Atoi (Getenv env "SHAI_SUGGESTION_COUNT") = Some n ->
  exists cfg : Config,
    LoadConfig ParseFloat file env = Ok cfg /\
    SuggestionCount cfg = n /\
    (n < 0 -> generateSuggestions client cm cfg prompt = None) /\
    (n = 0 -> generateSuggestions client cm cfg prompt = Some (Ok [])).
Proof.
  intros Hatoi. eexists. split; [apply LoadConfig_layers|].
  set (cfg := fst (loadFromEnv ParseFloat env
                     (fst (loadFromConfigFile ParseFloat file defaults)))).
  assert (Hn : SuggestionCount cfg = n).
  { pose proof (loadFromEnv_field ParseFloat env
                  (fst (loadFromConfigFile ParseFloat file defaults))
                  FSuggestionCount) as H.
    fold cfg in H. cbn [get key parseAs] in H.
    assert (Hne : Getenv env "SHAI_SUGGESTION_COUNT" <> "").
    { intros E. rewrite E in Hatoi. vm_compute in Hatoi. discriminate. }
    unfold nonEmpty in H.
    rewrite bool_decide_eq_false_2 in H by exact Hne.
    cbn [mbind option_bind parseAs] in H. rewrite Hatoi in H.
    cbn [fmap option_fmap option_map default] in H.
    exact (f_equal (fun v => match v with VInt i => i | _ => 0 end) H). }
  split; [exact Hn|]. split.
  - intros Hneg. unfold generateSuggestions.
    rewrite Hn, (proj2 (Z.ltb_lt n 0) Hneg). reflexivity.
  - intros Hzero. rewrite generateSuggestions_cases by lia.
    unfold replies. rewrite Hn, Hzero. reflexivity.
Qed.

(** The count -1 in the environment. *)
Lemma SuggestionCount_unchecked_witness :
  exists cfg : Config,
    LoadConfig noParseFloat noFile envNegativeCount = Ok cfg /\
    generateSuggestions mixedClient NewContextManager cfg "list files" = None.
Proof.
  destruct (SuggestionCount_unchecked noParseFloat noFile envNegativeCount (-1)
              mixedClient NewContextManager "list files")
    as (cfg & Hload & _ & Hneg & _); [vm_compute; reflexivity|].
  exists cfg. split; [exact Hload|]. apply Hneg. lia.
Defined.

(** ** The response extractor, continued *)

Lemma byte_of_inj (a b : ascii) : GoString.byte_of a = GoString.byte_of b -> a = b.
Proof.
  unfold GoString.byte_of. intros H. apply N2Z.inj in H.
  rewrite <- (ascii_N_embedding a), <- (ascii_N_embedding b), H. reflexivity.
Qed.

Lemma bytes_app (s1 s2 : string) :
  GoString.bytes (s1 ++ s2)%string = GoString.bytes s1 ++ GoString.bytes s2.
Proof.
  induction s1 as [|a s1 IH]; [reflexivity|].
  unfold GoString.bytes in *. simpl. f_equal. exact IH.
Qed.

Lemma of_bytes_bytes (s : string) : GoString.of_bytes (GoString.bytes s) = s.
Proof.
  unfold GoString.of_bytes, GoString.bytes.
  induction s as [|a s IH]; [reflexivity|].
  cbn [list_ascii_of_string List.map string_of_list_ascii]. rewrite IH.
  unfold GoString.ascii_of, GoString.byte_of.
  rewrite N2Z.id, ascii_N_embedding. reflexivity.
Qed.

(** A literal matches at the head of a text exactly when it is a prefix. *)
Lemma lit_prefix (l s : string) (t : list Z) :
  Regexp.lit (GoString.bytes l) (GoString.bytes s) = None <->
  String.prefix l s = false.
Proof.
  revert s. induction l as [|a l IH]; intros s.
  - destruct s; cbn; split; intros H; discriminate H.
  - destruct s as [|b s]; [cbn; tauto|].
    unfold GoString.bytes in *.
    cbn [list_ascii_of_string List.map Regexp.lit String.prefix].
    destruct (ascii_dec a b) as [->|Hne].
    + rewrite Z.eqb_refl. apply IH.
    + rewrite (proj2 (Z.eqb_neq _ _)); [tauto|].
      intros H. apply byte_of_inj in H. contradiction.
Qed.

(** A pattern that begins with a literal finds nothing in a text that does
    not contain the literal. *)
Lemma find_not_contained (l : string) (r : Regexp.regex) (s : string) :
  Contains s l = false ->
  Regexp.find (Regexp.Seq (Regexp.Lit l) r) (GoString.bytes s) = None.
Proof.
  induction s as [|a s IH]; intros Hno; cbn [Contains] in Hno.
  - destruct (String.prefix l "") eqn:Hp; [discriminate|].
    pose proof (proj2 (lit_prefix l "" []) Hp) as Hlit.
    change (GoString.bytes "") with (@nil Z) in Hlit |- *.
    cbn [Regexp.find Regexp.matchAt]. rewrite Hlit. reflexivity.
  - destruct (String.prefix l (String a s)) eqn:Hp; [discriminate|].
    pose proof (proj2 (lit_prefix l (String a s) []) Hp) as Hlit.
    change (GoString.bytes (String a s))
      with (GoString.byte_of a :: GoString.bytes s) in Hlit |- *.
    cbn [Regexp.find Regexp.matchAt]. rewrite Hlit.
    apply IH. exact Hno.
Qed.

Lemma Contains_backtick (s : string) :
  Contains s "`" = false -> Forall (fun b => b <> 0x60) (GoString.bytes s).
Proof.
  induction s as [|a s IH]; intros Hno; [constructor|].
  cbn [Contains String.prefix] in Hno.
  destruct (ascii_dec "`" a) as [<-|Hne].
  - destruct s; discriminate.
  - change (GoString.bytes (String a s))
      with (GoString.byte_of a :: GoString.bytes s).
    constructor; [|apply IH; exact Hno].
    intros H. apply Hne. apply byte_of_inj. symmetry. exact H.
Qed.

(** The search passes over a stretch of text without backticks. *)
Lemma find_skip (l : string) (l' : list Z) (r : Regexp.regex) (p t : list Z) :
  GoString.bytes l = 0x60 :: l' ->
  Forall (fun b => b <> 0x60) p ->
  t <> [] ->
  Regexp.find (Regexp.Seq (Regexp.Lit l) r) (p ++ t) =
  Regexp.find (Regexp.Seq (Regexp.Lit l) r) t.
Proof.
  intros Hl Hall Ht. induction p as [|c p IH]; [reflexivity|].
  apply Forall_cons in Hall as [Hc Hp].
  cbn [app]. cbn [Regexp.find Regexp.matchAt]. rewrite Hl. cbn [Regexp.lit].
  rewrite (proj2 (Z.eqb_neq 0x60 c)) by congruence.
  apply IH. exact Hp.
Qed.

(** The greedy star runs to the first character outside the class when the
    rest of the pattern matches there. *)
Lemma star_stop (class : Z -> bool) (l : list Z) (c : Z) (t : list Z)
    (k : list Z -> option (list Z)) (m : list Z) :
  Forall (fun b => class b = true) l ->
  class c = false ->
  k (c :: t) = Some m ->
  Regexp.star class (l ++ c :: t) k = Some m.
Proof.
  intros Hall Hc Hk. induction l as [|a l IH].
  - cbn [app Regexp.star]. rewrite Hc. exact Hk.
  - apply Forall_cons in Hall as [Ha Hl].
    cbn [app Regexp.star]. rewrite Ha, (IH Hl). reflexivity.
Qed.

(** The pattern of a code block finds nothing in a text without three
    backticks in a row. *)
Lemma FirstSubmatch_unfenced (text : string) :
  Contains text "```" = false ->
  Regexp.FirstSubmatch codeBlockRegex text = None.
Proof.
  intros Hfence. unfold Regexp.FirstSubmatch, codeBlockRegex.
  rewrite (find_not_contained "```") by exact Hfence. reflexivity.
Qed.

(** The pattern of inline code finds the span between the first backtick
    and the next one. *)
Lemma FirstSubmatch_inline (pre body post : string) :
  Contains pre "`" = false ->
  Contains body "`" = false ->
  Regexp.FirstSubmatch inlineCodeRegex (pre ++ "`" ++ body ++ "`" ++ post)%string =
  Some body.
Proof.
  intros Hpre Hbody. unfold Regexp.FirstSubmatch.
  rewrite !bytes_app.
  unfold inlineCodeRegex.
  rewrite (find_skip "`" []); [|reflexivity|apply Contains_backtick; exact Hpre|discriminate].
  change (GoString.bytes "`") with [0x60]. cbn [app].
  cbn [Regexp.find Regexp.matchAt].
  change (GoString.bytes "`") with [0x60]. cbn [Regexp.lit].
  rewrite Z.eqb_refl.
  rewrite (star_stop Regexp.class_not_backtick (GoString.bytes body) 0x60
             (GoString.bytes post) _ (GoString.bytes body)).
  - cbn [fmap option_fmap option_map]. rewrite of_bytes_bytes. reflexivity.
  - apply Contains_backtick in Hbody.
    eapply Forall_impl; [exact Hbody|]. intros b Hb. cbn beta.
    unfold Regexp.class_not_backtick. rewrite (proj2 (Z.eqb_neq b 0x60) Hb).
    reflexivity.
  - reflexivity.
  - cbn [Regexp.lit]. rewrite Z.eqb_refl. cbn [default].
    rewrite length_app. cbn [length]. rewrite Nat.add_sub.
    rewrite take_app_length. reflexivity.
Qed.

(** When a response has no fenced block and its first backtick opens a span
    that a second backtick closes, that span is what is selected, without
    the white space around it. *)
Theorem extractJSONFromMarkdown_inline (pre body post : string) :
  Contains pre "`" = false ->
  Contains body "`" = false ->
  Contains (pre ++ "`" ++ body ++ "`" ++ post)%string "```" = false ->
  extractJSONFromMarkdown (pre ++ "`" ++ body ++ "`" ++ post)%string =
  Strings.TrimSpace body.
Proof.
  intros Hpre Hbody Hfence. unfold extractJSONFromMarkdown.
  rewrite (FirstSubmatch_unfenced _ Hfence).
  rewrite (FirstSubmatch_inline pre body post Hpre Hbody). reflexivity.
Qed.

(** A reply with its command in inline code, text before and after. *)
Lemma extractJSONFromMarkdown_inline_witness :
  extractJSONFromMarkdown
    ("Run this: " ++ "`" ++ quoted "{'command': 'ls -la'}" ++ "`" ++ " and enjoy.")%string
  = quoted "{'command': 'ls -la'}".
Proof.
  rewrite extractJSONFromMarkdown_inline; vm_compute; reflexivity.
Defined.

Lemma find_here (r : Regexp.regex) (s m : list Z) :
  Regexp.matchAt r s None (fun _ cap => Some (default [] cap)) = Some m ->
  Regexp.find r s = Some m.
Proof. intros H. destruct s; cbn [Regexp.find]; rewrite H; reflexivity. Qed.

Lemma starLazy_here (class : Z -> bool) (t : list Z)
    (k : list Z -> option (list Z)) (m : list Z) :
  k t = Some m -> Regexp.starLazy class t k = Some m.
Proof. intros H. destruct t; cbn [Regexp.starLazy]; rewrite H; reflexivity. Qed.

(** The lazy star stops at the first place where the rest of the pattern
    matches. *)
Lemma starLazy_skip (l t : list Z) (k : list Z -> option (list Z)) (m : list Z) :
  (forall l1 l2 : list Z, l = l1 ++ l2 -> l2 <> [] -> k (l2 ++ t) = None) ->
  k t = Some m ->
  Regexp.starLazy Regexp.class_any (l ++ t) k = Some m.
Proof.
  intros Hnone Hk. induction l as [|a l IH].
  - apply starLazy_here. exact Hk.
  - assert (H0 : k ((a :: l) ++ t) = None)
      by (apply (Hnone [] (a :: l)); [reflexivity|discriminate]).
    cbn [app] in H0 |- *. cbn [Regexp.starLazy]. rewrite H0.
    cbn [Regexp.class_any]. apply IH.
    intros l1 l2 -> Hne. apply (Hnone (a :: l1) l2); [reflexivity|exact Hne].
Qed.

Lemma lit_app (l t : list Z) : Regexp.lit l (l ++ t) = Some t.
Proof.
  induction l as [|c l IH]; [reflexivity|].
  cbn [app Regexp.lit]. rewrite Z.eqb_refl. exact IH.
Qed.

Lemma Contains_here (s sub : string) :
  String.prefix sub s = true -> Contains s sub = true.
Proof. intros H. destruct s; cbn [Contains]; rewrite H; reflexivity. Qed.

Lemma Contains_bytes (sub : string) (l1 l2 : list Z) :
  forall s : string,
  GoString.bytes s = l1 ++ GoString.bytes sub ++ l2 -> Contains s sub = true.
Proof.
  induction l1 as [|a l1 IH]; intros s Hs.
  - apply Contains_here.
    destruct (String.prefix sub s) eqn:Hp; [reflexivity|].
    apply (lit_prefix sub s []) in Hp.
    cbn [app] in Hs. rewrite Hs, lit_app in Hp. discriminate.
  - destruct s as [|c s]; [discriminate|].
    change (GoString.bytes (String c s))
      with (GoString.byte_of c :: GoString.bytes s) in Hs.
    injection Hs as _ Hs. cbn [Contains].
    destruct (String.prefix sub (String c s)); [reflexivity|].
    apply IH. exact Hs.
Qed.

(** Inside a text that does not contain a newline followed by three
    backticks, no closing fence is seen before the one that follows it. *)
Lemma no_fence_inside (body : string) (l1 l2 post : list Z) :
  Contains body (nl ++ "```") = false ->
  GoString.bytes body = l1 ++ l2 ->
  l2 <> [] ->
  Regexp.lit [0x0A; 0x60; 0x60; 0x60] (l2 ++ 0x0A :: 0x60 :: 0x60 :: 0x60 :: post) = None.
Proof.
  intros Hno Hsplit Hne.
  destruct l2 as [|x [|y [|z [|u l2]]]]; [congruence| | | |]; cbn [app Regexp.lit].
  - destruct (0x0A =? x); reflexivity.
  - destruct (0x0A =? x); [|reflexivity]. destruct (0x60 =? y); reflexivity.
  - destruct (0x0A =? x); [|reflexivity]. destruct (0x60 =? y); [|reflexivity].
    destruct (0x60 =? z); reflexivity.
  - destruct (0x0A =? x) eqn:Hx; [|reflexivity].
    destruct (0x60 =? y) eqn:Hy; [|reflexivity].
    destruct (0x60 =? z) eqn:Hz; [|reflexivity].
    destruct (0x60 =? u) eqn:Hu; [|reflexivity].
    apply Z.eqb_eq in Hx, Hy, Hz, Hu. subst x y z u.
    exfalso.
    assert (Hin : Contains body (nl ++ "```") = true).
    { apply (Contains_bytes (nl ++ "```") l1 l2). rewrite Hsplit. reflexivity. }
    congruence.
Qed.

(** The pattern of a code block at an opening fence, tagged or not, whose
    content begins with a character that is no white space and holds no
    closing fence: the capture is the content. *)
Lemma codeBlock_here (tag body post : string) (b : ascii) (rest : string) :
  tag = "" \/ tag = "json" ->
  body = String b rest ->
  Regexp.class_s (GoString.byte_of b) = false ->
  Contains body (nl ++ "```") = false ->
  Regexp.matchAt codeBlockRegex
    ([0x60; 0x60; 0x60] ++ GoString.bytes tag ++ [0x0A] ++ GoString.bytes body
       ++ [0x0A; 0x60; 0x60; 0x60] ++ GoString.bytes post)
    None (fun _ cap => Some (default [] cap))
  = Some (GoString.bytes body).
Proof.
  intros Htag Hbody Hb Hno.
  remember (0x0A :: 0x60 :: 0x60 :: 0x60 :: GoString.bytes post) as tail eqn:Etail.
  remember (GoString.bytes body ++ tail) as B eqn:EB.
  assert (HB : B = GoString.byte_of b :: (GoString.bytes rest ++ tail)).
  { rewrite EB, Hbody. reflexivity. }
  assert (Hb10 : (0x0A =? GoString.byte_of b) = false).
  { apply Z.eqb_neq. intros E. rewrite <- E in Hb. discriminate. }
  (* from the newline after the tag on *)
  assert (Hrest :
    Regexp.matchAt
      (Regexp.Seq (Regexp.Star Regexp.class_s)
         (Regexp.Seq (Regexp.Lit Regexp.newline)
            (Regexp.Seq (Regexp.Group (Regexp.StarLazy Regexp.class_any))
               (Regexp.Lit (Regexp.newline ++ "```")))))
      (0x0A :: B) None (fun _ cap => Some (default [] cap))
    = Some (GoString.bytes body)).
  { cbn [Regexp.matchAt].
    change (GoString.bytes Regexp.newline) with [0x0A].
    change (GoString.bytes (Regexp.newline ++ "```")) with [0x0A; 0x60; 0x60; 0x60].
    cbn [Regexp.star]. change (Regexp.class_s 0x0A) with true. cbv iota.
    rewrite HB. cbn [Regexp.star]. rewrite Hb.
    cbn [Regexp.lit]. rewrite Hb10, Z.eqb_refl.
    rewrite <- HB, EB.
    rewrite (starLazy_skip (GoString.bytes body) tail _ (GoString.bytes body)).
    - reflexivity.
    - intros l1 l2 Hsplit Hne. cbv beta. rewrite Etail.
      pose proof (no_fence_inside body l1 l2 (GoString.bytes post) Hno Hsplit Hne)
        as Hn.
      cbn [Regexp.lit] in Hn. rewrite Hn. reflexivity.
    - cbv beta. rewrite Etail at 1. cbn [Regexp.lit]. rewrite !Z.eqb_refl. cbn [default].
      rewrite length_app, Nat.add_sub, take_app_length. reflexivity. }
  unfold codeBlockRegex. cbn [Regexp.matchAt].
  change (GoString.bytes "```") with [0x60; 0x60; 0x60].
  cbn [app Regexp.lit]. rewrite !Z.eqb_refl.
  cbn [Regexp.matchAt] in Hrest.
  change (0x0A :: 0x60 :: 0x60 :: 0x60 :: GoString.bytes post) with
    (0x0A :: 0x60 :: 0x60 :: 0x60 :: GoString.bytes post) in Etail.
  rewrite <- Etail, <- EB.
  destruct Htag as [->| ->].
  - change (GoString.bytes "") with (@nil Z). cbn [app].
    change (GoString.bytes "json") with [0x6A; 0x73; 0x6F; 0x6E].
    cbn [Regexp.lit]. change (0x6A =? 0x0A) with false. cbv iota.
    exact Hrest.
  - change (GoString.bytes "json") with [0x6A; 0x73; 0x6F; 0x6E].
    cbn [app Regexp.lit]. rewrite !Z.eqb_refl.
    rewrite Hrest. reflexivity.
Qed.

(** The pattern of a code block finds the content of the fence that the
    first backticks of the text open. *)
Lemma FirstSubmatch_fenced (pre tag body post : string) (b : ascii) (rest : string) :
  Contains pre "`" = false ->
  tag = "" \/ tag = "json" ->
  body = String b rest ->
  Regexp.class_s (GoString.byte_of b) = false ->
  Contains body (nl ++ "```") = false ->
  Regexp.FirstSubmatch codeBlockRegex
    (pre ++ "```" ++ tag ++ nl ++ body ++ nl ++ "```" ++ post)%string
  = Some body.
Proof.
  intros Hpre Htag Hbody Hb Hno.
  unfold Regexp.FirstSubmatch.
  rewrite !bytes_app.
  change (GoString.bytes "```") with [0x60; 0x60; 0x60].
  change (GoString.bytes nl) with [0x0A].
  unfold codeBlockRegex at 1.
  rewrite (find_skip "```" [0x60; 0x60]);
    [|reflexivity|apply Contains_backtick; exact Hpre|discriminate].
  fold codeBlockRegex.
  rewrite (find_here codeBlockRegex _ (GoString.bytes body)).
  - cbn [fmap option_fmap option_map]. rewrite of_bytes_bytes. reflexivity.
  - pose proof (codeBlock_here tag body post b rest Htag Hbody Hb Hno) as H.
    cbn [app] in H |- *. exact H.
Qed.

(** A fenced code block wins: when the first backticks of a response open a
    fence, tagged or not, whose content begins with a character that is no
    white space and holds no closing fence, that content is selected,
    without the white space at its end, whatever backticks it holds and
    whatever text, inline code or other blocks follow the closing fence. *)
Theorem extractJSONFromMarkdown_fenced (pre tag body post : string)
    (b : ascii) (rest : string) :
  Contains pre "`" = false ->
  tag = "" \/ tag = "json" ->
  body = String b rest ->
  Regexp.class_s (GoString.byte_of b) = false ->
  Contains body (nl ++ "```") = false ->
  extractJSONFromMarkdown
    (pre ++ "```" ++ tag ++ nl ++ body ++ nl ++ "```" ++ post)%string
  = Strings.TrimSpace body.
Proof.
  intros Hpre Htag Hbody Hb Hno. unfold extractJSONFromMarkdown.
  rewrite (FirstSubmatch_fenced pre tag body post b rest Hpre Htag Hbody Hb Hno).
  reflexivity.
Qed.

(** A reply in a fenced block whose command holds backticks, with inline
    code after the block. *)
Lemma extractJSONFromMarkdown_fenced_witness :
  extractJSONFromMarkdown
    ("Here you go: " ++ "```" ++ "json" ++ nl ++ replyBacktickCommand ++ nl
       ++ "```" ++ " then run `it`")%string
  = replyBacktickCommand.
Proof.
  rewrite (extractJSONFromMarkdown_fenced "Here you go: " "json"
             replyBacktickCommand " then run `it`" "{"%char
             (quoted "'command': 'echo `date`'}")).
  - vm_compute. reflexivity.
  - vm_compute. reflexivity.
  - right. reflexivity.
  - vm_compute. reflexivity.
  - vm_compute. reflexivity.
  - vm_compute. reflexivity.
Defined.

(** ** Replies of the expected shape *)

Lemma plain_spec (b : Z) :
  plain b = true -> 0x20 <= b < 0x80 /\ b <> 0x22 /\ b <> 0x5C.
Proof.
  unfold plain. intros H.
  apply andb_prop in H as [H H4]. apply andb_prop in H as [H H3].
  apply andb_prop in H as [H1 H2].
  apply Z.leb_le in H1. apply Z.ltb_lt in H2.
  apply negb_true_iff, Z.eqb_neq in H3. apply negb_true_iff, Z.eqb_neq in H4.
  lia.
Qed.

(** Inside a string the scanner passes over plain bytes one by one. *)
Lemma lex_plain (p : list Z) :
  Forall (fun b => plain b = true) p ->
  forall (acc : list Z) (toks : list Json.token) (t : list Z),
  Json.lex (Json.MString acc) toks (p ++ t) =
  Json.lex (Json.MString (rev p ++ acc)) toks t.
Proof.
  induction 1 as [|c p Hc Hp IH]; intros acc toks t; [reflexivity|].
  apply plain_spec in Hc as (Hr & Hq & Hb).
  cbn [app Json.lex].
  rewrite (proj2 (Z.eqb_neq c 0x22) Hq), (proj2 (Z.eqb_neq c 0x5C) Hb).
  rewrite (proj2 (Z.ltb_ge c 0x20)) by lia.
  rewrite IH. cbn [rev]. rewrite <- app_assoc. reflexivity.
Qed.

(** Plain bytes are what they stand for. *)
Lemma unquoteFrom_plain (p : list Z) :
  Forall (fun b => plain b = true) p -> Json.unquoteFrom 0 p = p.
Proof.
  induction 1 as [|c p Hc Hp IH]; [reflexivity|].
  apply plain_spec in Hc as (Hr & Hq & Hb).
  cbn [Json.unquoteFrom].
  rewrite (proj2 (Z.eqb_neq c 0x5C) Hb), (proj2 (Z.ltb_lt c 0x80)) by lia.
  rewrite IH. reflexivity.
Qed.

Lemma Unmarshal_reply (command : string) :
  Forall (fun b => plain b = true) (GoString.bytes command) ->
  Parser.Unmarshal (reply command) = Ok {| Command := command |}.
Proof.
  intros Hplain.
  unfold Parser.Unmarshal, Json.UnmarshalStringField, Json.parse, reply.
  rewrite !bytes_app.
  change (GoString.bytes (quoted "{'command': '"))
    with ([0x7B; 0x22; 0x63; 0x6F; 0x6D; 0x6D; 0x61; 0x6E; 0x64; 0x22; 0x3A; 0x20]
            ++ [0x22]).
  change (GoString.bytes (quoted "'}")) with [0x22; 0x7D].
  rewrite <- app_assoc.
  change (Json.lex Json.MDefault []
            ([0x7B; 0x22; 0x63; 0x6F; 0x6D; 0x6D; 0x61; 0x6E; 0x64; 0x22; 0x3A; 0x20]
               ++ [0x22] ++ GoString.bytes command ++ [0x22; 0x7D]))
    with (Json.lex (Json.MString [])
            [Json.TColon; Json.TString (GoString.bytes "command"); Json.TLBrace]
            (GoString.bytes command ++ [0x22; 0x7D])).
  rewrite (lex_plain _ Hplain). rewrite app_nil_r.
  cbn [Json.lex]. change (0x22 =? 0x22) with true. cbv iota.
  cbn [Json.start]. rewrite rev_involutive.
  change (Json.start
            (Json.TString (GoString.bytes command)
               :: [Json.TColon; Json.TString (GoString.bytes "command"); Json.TLBrace])
            0x7D)
    with (Some (Json.MDefault,
                Json.TRBrace :: Json.TString (GoString.bytes command)
                  :: [Json.TColon; Json.TString (GoString.bytes "command"); Json.TLBrace])).
  cbv iota beta. cbn [rev app].
  change (Json.steps (Json.EValue, [])
            [Json.TLBrace; Json.TString (GoString.bytes "command"); Json.TColon;
             Json.TString (GoString.bytes command); Json.TRBrace])
    with (Some (Json.JObject
                  [(GoString.bytes "command", Json.JString (GoString.bytes command))])).
  cbn [fold_left Json.storeMember].
  change (Json.equalFold (Json.unquote (GoString.bytes "command")) "command") with true.
  cbv iota. unfold Json.unquote.
  rewrite (unquoteFrom_plain _ Hplain), of_bytes_bytes. reflexivity.
Qed.

(** [strings.TrimSpace] leaves a text alone that begins and ends with ASCII
    characters other than white space. *)
Lemma TrimSpace_tight (s : string) (a z : Z) (m : list Z) :
  GoString.bytes s = a :: m ++ [z] ->
  a < 0x80 -> Strings.IsSpace a = false ->
  z < 0x80 -> Strings.IsSpace z = false ->
  Strings.TrimSpace s = s.
Proof.
  intros Hs Ha Hsa Hz Hsz. unfold Strings.TrimSpace. rewrite Hs.
  assert (Hleft : Strings.TrimLeft (a :: m ++ [z]) = a :: m ++ [z]).
  { unfold Strings.TrimLeft. cbn [Strings.leadingSpace DecodeRune].
    rewrite (proj2 (Z.ltb_lt a 0x80) Ha), Hsa. reflexivity. }
  rewrite Hleft. unfold Strings.TrimRight.
  change (a :: m ++ [z]) with ((a :: m) ++ [z]).
  rewrite rev_app_distr. cbn [rev app Strings.trailingSpace].
  unfold Strings.DecodeLastRune.
  rewrite rev_app_distr, rev_involutive. cbn [rev app].
  rewrite (proj2 (Z.ltb_lt z 0x80) Hz), Hsz.
  rewrite Nat.sub_0_r, firstn_all.
  cbn [app]. rewrite <- Hs. apply of_bytes_bytes.
Qed.

Lemma without_backtick (s : string) :
  Forall (fun b => b <> 0x60) (GoString.bytes s) -> Contains s "`" = false.
Proof.
  induction s as [|a s IH]; intros Hall; [reflexivity|].
  change (GoString.bytes (String a s))
    with (GoString.byte_of a :: GoString.bytes s) in Hall.
  apply Forall_cons in Hall as [Ha Hs].
  cbn [Contains String.prefix].
  destruct (ascii_dec "`" a) as [<-|Hne]; [exfalso; apply Ha; reflexivity|].
  apply IH. exact Hs.
Qed.

Lemma without_newline (s x : string) :
  Forall (fun b => b <> 0x0A) (GoString.bytes s) -> Contains s (nl ++ x) = false.
Proof.
  induction s as [|a s IH]; intros Hall; [reflexivity|].
  change (GoString.bytes (String a s))
    with (GoString.byte_of a :: GoString.bytes s) in Hall.
  apply Forall_cons in Hall as [Ha Hs].
  change (nl ++ x)%string with (String (ascii_of_N 10) x) in IH |- *.
  cbn [Contains String.prefix].
  destruct (ascii_dec (ascii_of_N 10) a) as [<-|Hne]; [exfalso; apply Ha; reflexivity|].
  apply IH. exact Hs.
Qed.

Lemma reply_bytes (command : string) :
  GoString.bytes (reply command) =
  0x7B :: ([0x22; 0x63; 0x6F; 0x6D; 0x6D; 0x61; 0x6E; 0x64; 0x22; 0x3A; 0x20; 0x22]
             ++ GoString.bytes command ++ [0x22]) ++ [0x7D].
Proof.
  unfold reply. rewrite !bytes_app.
  change (GoString.bytes (quoted "{'command': '"))
    with ([0x7B; 0x22; 0x63; 0x6F; 0x6D; 0x6D; 0x61; 0x6E; 0x64; 0x22; 0x3A; 0x20; 0x22]).
  change (GoString.bytes (quoted "'}")) with ([0x22] ++ [0x7D]).
  cbn [app]. rewrite <- !app_assoc. reflexivity.
Qed.

Lemma reply_Forall (P : Z -> Prop) (command : string) :
  Forall P [0x7B; 0x22; 0x63; 0x6F; 0x6D; 0x6D; 0x61; 0x6E; 0x64; 0x3A; 0x20; 0x7D] ->
  Forall P (GoString.bytes command) ->
  Forall P (GoString.bytes (reply command)).
Proof.
  intros Hfix Hcmd. rewrite reply_bytes.
  rewrite !Forall_cons in Hfix. destruct_and!.
  repeat (apply Forall_cons; split; [assumption|]).
  cbn [app]. repeat (apply Forall_cons; split; [assumption|]).
  apply Forall_app. split.
  - apply Forall_app. split; [exact Hcmd|]. apply Forall_cons; split; [assumption|constructor].
  - apply Forall_cons; split; [assumption|constructor].
Qed.

Lemma reply_tight (command : string) :
  Strings.TrimSpace (reply command) = reply command.
Proof.
  apply (TrimSpace_tight _ _ _ _ (reply_bytes command)); (lia || reflexivity).
Qed.

Lemma reply_not_empty (command : string) : reply command <> "".
Proof.
  intros H. apply (f_equal GoString.bytes) in H. rewrite reply_bytes in H.
  discriminate.
Qed.

(** The reply the system prompt asks for gives its command back: bare when
    the command has no backtick; inside a fenced block, tagged or not, that
    the first backticks of the response open, whatever the command and
    whatever follows the block; inside inline code that the first backtick
    of the response opens, when the command has no backtick and the response
    no fence. The command is any text of plain ASCII characters. *)
Theorem ParseLLMResponse_reply (command : string) :
  Forall (fun b => plain b = true) (GoString.bytes command) ->
  (Contains command "`" = false ->
   ParseLLMResponse (reply command) = Ok command) /\
  (forall pre tag post : string,
     Contains pre "`" = false ->
     tag = "" \/ tag = "json" ->
     ParseLLMResponse
       (pre ++ "```" ++ tag ++ nl ++ reply command ++ nl ++ "```" ++ post)%string
     = Ok command) /\
  (forall pre post : string,
     Contains command "`" = false ->
     Contains pre "`" = false ->
     Contains (pre ++ "`" ++ reply command ++ "`" ++ post)%string "```" = false ->
     ParseLLMResponse (pre ++ "`" ++ reply command ++ "`" ++ post)%string
     = Ok command).
Proof.
  intros Hplain.
  assert (Hparse : forall response : string,
            jsonContent response = reply command ->
            ParseLLMResponse response = Ok command).
  { intros response Hcontent. unfold ParseLLMResponse.
    rewrite Hcontent, (Unmarshal_reply command Hplain). reflexivity. }
  assert (Hselected : forall response : string,
            extractJSONFromMarkdown response = Strings.TrimSpace (reply command) ->
            jsonContent response = reply command).
  { intros response Hex. unfold jsonContent. rewrite Hex, reply_tight.
    rewrite bool_decide_eq_false_2 by apply reply_not_empty. reflexivity. }
  assert (Hquiet : Contains command "`" = false ->
            Forall (fun b => b <> 0x60) (GoString.bytes (reply command))).
  { intros Hno. apply reply_Forall.
    - repeat (apply Forall_cons; split; [discriminate|]). constructor.
    - apply Contains_backtick. exact Hno. }
  split; [|split].
  - intros Hno. apply Hparse.
    apply ParseLLMResponse_without_backtick. apply Hquiet. exact Hno.
  - intros pre tag post Hpre Htag. apply Hparse, Hselected.
    unfold extractJSONFromMarkdown.
    assert (Hshape : exists (b : ascii) (rest : string),
              reply command = String b rest /\ GoString.byte_of b = 0x7B).
    { unfold reply. eexists _, _. split; reflexivity. }
    destruct Hshape as (b & rest & Hshape & Hb).
    rewrite (FirstSubmatch_fenced pre tag (reply command) post b rest Hpre Htag Hshape).
    + reflexivity.
    + rewrite Hb. reflexivity.
    + apply without_newline. apply reply_Forall.
      * repeat (apply Forall_cons; split; [discriminate|]). constructor.
      * eapply Forall_impl; [exact Hplain|]. intros c Hc. cbn beta in Hc.
        apply plain_spec in Hc. lia.
  - intros pre post Hno Hpre Hfence. apply Hparse, Hselected.
    unfold extractJSONFromMarkdown.
    rewrite (FirstSubmatch_unfenced _ Hfence).
    rewrite (FirstSubmatch_inline pre (reply command) post Hpre); [reflexivity|].
    apply without_backtick, Hquiet. exact Hno.
Qed.

(** A command with a pair of backticks comes back from a fenced block, and
    a command without backticks from a bare reply. *)
Lemma ParseLLMResponse_reply_witness :
  ParseLLMResponse (reply "ls -la | wc -l") = Ok "ls -la | wc -l" /\
  ParseLLMResponse
    ("Sure: " ++ "```" ++ "json" ++ nl ++ reply "echo `date`" ++ nl ++ "```"
       ++ " runs `date`.")%string
  = Ok "echo `date`".
Proof.
  split.
  - destruct (ParseLLMResponse_reply "ls -la | wc -l") as (Hbare & _).
    + repeat (apply Forall_cons; split; [reflexivity|]). constructor.
    + apply Hbare. reflexivity.
  - destruct (ParseLLMResponse_reply "echo `date`") as (_ & Hfenced & _).
    + repeat (apply Forall_cons; split; [reflexivity|]). constructor.
    + apply (Hfenced "Sure: " "json" " runs `date`."); [reflexivity|right; reflexivity].
Defined.

(** ** The client *)

Lemma append_empty (s : string) : (s ++ "")%string = s.
Proof.
  induction s as [|a s IH]; [reflexivity|].
  change (String a s ++ "")%string with (String a (s ++ "")%string).
  rewrite IH. reflexivity.
Qed.

Lemma Sprintf_s (t s : string) :
  Fmt.Sprintf [Fmt.Text t; Fmt.Verb Fmt.Vs] [Fmt.Str s] = (t ++ s)%string.
Proof.
  change (Fmt.Sprintf [Fmt.Text t; Fmt.Verb Fmt.Vs] [Fmt.Str s])
    with (t ++ (s ++ ""))%string.
  rewrite append_empty. reflexivity.
Qed.

Lemma provider_unsupported (cfg : Config) :
  APIProvider cfg <> "openai" -> APIProvider cfg <> "groq" ->
  Llm.provider cfg =
  Err (ClientError ("unsupported API provider: " ++ APIProvider cfg)).
Proof.
  intros Ho Hg. unfold Llm.provider.
  rewrite !bool_decide_eq_false_2 by assumption.
  rewrite Sprintf_s. reflexivity.
Qed.

(** A round all of whose requests fail with the same error fails with that
    error. *)
Lemma round_all_fail (client : string -> string -> nat -> result string)
    (cm : ContextManager) (cfg : Config) (prompt : string) (e : error) :
  0 < SuggestionCount cfg ->
  (forall (context : string) (i : nat), client prompt context i = Err e) ->
  generateSuggestions client cm cfg prompt = Some (Err (FailedToGenerate e)).
Proof.
  intros HN Hfail. rewrite generateSuggestions_cases by lia.
  unfold replies.
  assert (Hs : forall l : list nat,
            omap taskSuggestion
              (List.map (client prompt (if ContextMode cfg then GetContext cm else "")) l) = []).
  { induction l as [|i l IH]; [reflexivity|].
    cbn [List.map omap list_omap]. rewrite Hfail. cbn [taskSuggestion]. exact IH. }
  rewrite Hs.
  destruct (Z.to_nat (SuggestionCount cfg)) as [|n] eqn:Hn; [lia|].
  cbn [seq List.map omap list_omap]. rewrite Hfail. reflexivity.
Qed.

(** The name of the provider is taken from the environment unchecked. A
    name other than openai and groq, in these letters, is found out when a
    completion is asked for: no request is made, and a round of at least
    one request fails with the error that names the provider. *)
Theorem unsupported_provider (ParseFloat : string -> option float)
    (file : result string) (env : gmap string string) (p : string)
    (Do : nat -> Llm.Request -> result (Z * string))
    (Unmarshal : string -> result (list string)) (platformInfo : string)
    (cm : ContextManager) (prompt : string) :
  Getenv env "SHAI_API_PROVIDER" = p ->
  p <> "" -> p <> "openai" -> p <> "groq" ->
  exists cfg : Config,
    LoadConfig ParseFloat file env = Ok cfg /\
    APIProvider cfg = p /\
    (forall systemPrompt userPrompt : string,
       Llm.prepare cfg systemPrompt userPrompt =
       Err (ClientError ("unsupported API provider: " ++ p))) /\
    (0 < SuggestionCount cfg ->
     generateSuggestions (Llm.client Do Unmarshal platformInfo cfg) cm cfg prompt =
     Some (Err (FailedToGenerate (ClientError ("unsupported API provider: " ++ p))))).
Proof.
  intros Henv Hne Ho Hg. eexists. split; [apply LoadConfig_layers|].
  set (cfg := fst (loadFromEnv ParseFloat env
                     (fst (loadFromConfigFile ParseFloat file defaults)))).
  assert (Hp : APIProvider cfg = p).
  { pose proof (loadFromEnv_field ParseFloat env
                  (fst (loadFromConfigFile ParseFloat file defaults))
                  FAPIProvider) as H.
    fold cfg in H. cbn [get key parseAs] in H.
    rewrite Henv in H. unfold nonEmpty in H.
    rewrite bool_decide_eq_false_2 in H by exact Hne.
    cbn [mbind option_bind default] in H.
    exact (f_equal (fun v => match v with VString s => s | _ => "" end) H). }
  assert (Hprepare : forall systemPrompt userPrompt : string,
            Llm.prepare cfg systemPrompt userPrompt =
            Err (ClientError ("unsupported API provider: " ++ p))).
  { intros systemPrompt userPrompt. unfold Llm.prepare.
    rewrite provider_unsupported by (rewrite Hp; assumption).
    rewrite Hp. reflexivity. }
  split; [exact Hp|]. split; [exact Hprepare|].
  intros HN. apply round_all_fail; [exact HN|].
  intros context i. unfold Llm.client, Llm.GenerateShellCommand, Llm.GenerateCompletion.
  rewrite Hprepare. reflexivity.
Qed.

(** The provider OpenAI, in capital letters. *)
Lemma unsupported_provider_witness :
  exists cfg : Config,
    LoadConfig noParseFloat noFile envCapitalProvider = Ok cfg /\
    generateSuggestions (Llm.client (answering 200 "") noChoices "" cfg)
      NewContextManager cfg "list files" =
    Some (Err (FailedToGenerate (ClientError "unsupported API provider: OpenAI"))).
Proof.
  destruct (unsupported_provider noParseFloat noFile envCapitalProvider "OpenAI"
              (answering 200 "") noChoices "" NewContextManager "list files")
    as (cfg & Hload & _ & _ & Hround);
    [vm_compute; reflexivity|discriminate|discriminate|discriminate|].
  exists cfg. split; [exact Hload|]. apply Hround.
  vm_compute in Hload. injection Hload as <-. reflexivity.
Defined.

(** ** The shell history *)

Lemma Contains_empty (sub : string) : sub <> "" -> Contains "" sub = false.
Proof. intros H. destruct sub; [congruence|reflexivity]. Qed.

Lemma Sprintf_zsh (timestamp : Z) (command : string) :
  Fmt.Sprintf [Fmt.Text ": "; Fmt.Verb Fmt.Vd; Fmt.Text ":0;"; Fmt.Verb Fmt.Vs; Fmt.Text nl]
    [Fmt.Int "int64" timestamp; Fmt.Str command] =
  (": " ++ Fmt.decimal timestamp ++ ":0;" ++ command ++ nl)%string.
Proof.
  change (Fmt.Sprintf _ _)
    with (": " ++ Fmt.decimal timestamp ++ ":0;" ++ command ++ nl ++ "")%string.
  rewrite append_empty. reflexivity.
Qed.

Lemma Sprintf_fish (timestamp : Z) (command : string) :
  Fmt.Sprintf [Fmt.Text "- cmd: "; Fmt.Verb Fmt.Vs; Fmt.Text nl; Fmt.Text "  when: ";
               Fmt.Verb Fmt.Vd; Fmt.Text nl]
    [Fmt.Str command; Fmt.Int "int64" timestamp] =
  ("- cmd: " ++ command ++ nl ++ "  when: " ++ Fmt.decimal timestamp ++ nl)%string.
Proof.
  change (Fmt.Sprintf _ _)
    with ("- cmd: " ++ command ++ nl ++ "  when: " ++ Fmt.decimal timestamp ++ nl ++ "")%string.
  rewrite append_empty. reflexivity.
Qed.

Lemma Sprintf_line (command : string) :
  Fmt.Sprintf [Fmt.Verb Fmt.Vs; Fmt.Text nl] [Fmt.Str command] = (command ++ nl)%string.
Proof.
  change (Fmt.Sprintf _ _) with (command ++ nl ++ "")%string.
  rewrite append_empty. reflexivity.
Qed.

Lemma Sprintf_line_extra (timestamp : Z) (command : string) :
  Fmt.Sprintf [Fmt.Verb Fmt.Vs; Fmt.Text nl] [Fmt.Str command; Fmt.Int "int64" timestamp] =
  (command ++ nl ++ "%!(EXTRA int64=" ++ Fmt.decimal timestamp ++ ")")%string.
Proof. reflexivity. Qed.

(** A shell whose name contains tcsh contains csh. *)
Lemma Contains_tcsh (shell : string) :
  Contains shell "tcsh" = true -> Contains shell "csh" = true.
Proof.
  induction shell as [|a shell IH]; [discriminate|].
  cbn [Contains]. destruct (String.prefix "tcsh" (String a shell)) eqn:Ht.
  - intros _. destruct (String.prefix "csh" (String a shell)); [reflexivity|].
    cbn [String.prefix] in Ht.
    destruct (ascii_dec "t" a) as [_|]; [|discriminate].
    apply Contains_here. exact Ht.
  - intros H. destruct (String.prefix "csh" (String a shell)); [reflexivity|].
    apply IH. exact H.
Qed.

(** What [writeToShellHistory] does when the history file can be opened,
    as one table over the name of the shell. The file and the shape of the
    entry go by the first of zsh, bash, csh, ksh and fish that occurs
    anywhere in SHELL; the operands of the entry go by zsh, then fish. So a
    SHELL that contains bash, csh or ksh and also fish, but not zsh, gets
    the one-line entry of the first three followed by the note of
    [fmt.Sprintf] on the operand that is left over, the time. The command
    is written as it is. *)
Theorem writeToShellHistory_by_substring (Clean : string -> string)
    (OpenFile : string -> option string) (WriteString : string -> string -> option string)
    (env : gmap string string) (timestamp : Z) (command : string) :
  (forall path : string, OpenFile path = None) ->
  let shell := Getenv env "SHELL" in
  let file := fun name : string => History.Join Clean (Getenv env "HOME") name in
  let write := fun path entry : string => (WriteString path entry, Some (path, entry)) in
  History.writeToShellHistory Clean OpenFile WriteString env timestamp command =
  if Contains shell "zsh" then
    write (file ".zsh_history")
      (": " ++ Fmt.decimal timestamp ++ ":0;" ++ command ++ nl)%string
  else if Contains shell "bash" || Contains shell "csh" || Contains shell "ksh" then
    write
      (file (if Contains shell "bash" then ".bash_history"
             else if Contains shell "csh" then ".history"
             else ".sh_history"))
      (if Contains shell "fish"
       then (command ++ nl ++ "%!(EXTRA int64=" ++ Fmt.decimal timestamp ++ ")")%string
       else (command ++ nl)%string)
  else if Contains shell "fish" then
    write (file ".local/share/fish/fish_history")
      ("- cmd: " ++ command ++ nl ++ "  when: " ++ Fmt.decimal timestamp ++ nl)%string
  else if bool_decide (shell = "") then
    (Some "SHELL environment variable not set", None)
  else
    (Some ("unsupported shell: " ++ shell)%string, None).
Proof.
  intros Hopen shell file write. unfold History.writeToShellHistory.
  fold shell. unfold History.historyFile.
  case_bool_decide as Hshell.
  { rewrite Hshell. reflexivity. }
  destruct (Contains shell "zsh") eqn:Hzsh.
  { cbn [orb]. cbv beta iota zeta. rewrite Hopen, Sprintf_zsh. reflexivity. }
  destruct (Contains shell "bash") eqn:Hbash.
  { cbn [orb]. cbv beta iota zeta. rewrite Hopen. cbn [orb].
    destruct (Contains shell "fish"); [rewrite Sprintf_line_extra|rewrite Sprintf_line];
      reflexivity. }
  destruct (Contains shell "csh") eqn:Hcsh.
  { cbn [orb]. cbv beta iota zeta. rewrite Hopen. cbn [orb].
    destruct (Contains shell "fish"); [rewrite Sprintf_line_extra|rewrite Sprintf_line];
      reflexivity. }
  destruct (Contains shell "tcsh") eqn:Htcsh.
  { apply Contains_tcsh in Htcsh. congruence. }
  destruct (Contains shell "ksh") eqn:Hksh.
  { cbn [orb]. cbv beta iota zeta. rewrite Hopen. cbn [orb].
    destruct (Contains shell "fish"); [rewrite Sprintf_line_extra|rewrite Sprintf_line];
      reflexivity. }
  cbn [orb]. destruct (Contains shell "fish") eqn:Hfish.
  { cbn [orb]. cbv beta iota zeta. rewrite Hopen, Sprintf_fish. reflexivity. }
  cbn [orb]. cbv beta iota zeta. rewrite Sprintf_s. reflexivity.
Qed.

(** A user of fish whose home directory has bash in its name: the entry
    goes to the history of bash, with the time as a left-over operand. *)
Lemma writeToShellHistory_by_substring_witness :
  History.writeToShellHistory clean opens writes envFish 1700000000 "ls -la" =
  (None,
   Some ("/home/bashir/.bash_history",
         ("ls -la" ++ nl ++ "%!(EXTRA int64=1700000000)")%string)).
Proof.
  rewrite (writeToShellHistory_by_substring clean opens writes envFish 1700000000 "ls -la");
    [|reflexivity].
  vm_compute. reflexivity.
Defined.

(** ** The session loop *)

Lemma generateSuggestions_None (client : string -> string -> nat -> result string)
    (cm : ContextManager) (cfg : Config) (prompt : string) :
  generateSuggestions client cm cfg prompt = None <-> SuggestionCount cfg < 0.
Proof.
  split.
  - intros Hnone. destruct (Z.lt_ge_cases (SuggestionCount cfg) 0) as [Hneg|HN]; [exact Hneg|].
    rewrite generateSuggestions_cases in Hnone by exact HN.
    destruct (omap taskSuggestion (replies client cm cfg prompt));
      destruct (omap taskError (replies client cm cfg prompt)); discriminate.
  - intros Hneg. unfold generateSuggestions.
    rewrite (proj2 (Z.ltb_lt _ _) Hneg). reflexivity.
Qed.

(** On a manager of capacity 1 at least, [AddChunk] returns, keeps the
    capacity and leaves the last tokens of the chunk in the buffer. *)
Lemma AddChunk_capacity (cm : ContextManager) (chunk : string) :
  1 <= maxTokens cm ->
  AddChunk cm chunk =
  Some {| tokenBuffer := lastn (Z.to_nat (maxTokens cm)) (range chunk);
          maxTokens := maxTokens cm |}.
Proof.
  intros HC. destruct cm as [buf C]. cbn [maxTokens] in *.
  unfold AddChunk, Flush, make_runes. cbn [maxTokens].
  rewrite (proj2 (Z.ltb_ge C 0)) by lia.
  rewrite (AddTokens_window C HC) by (cbn; lia). reflexivity.
Qed.

Lemma lastOutput_app (es1 es2 : list Session.event) :
  forall output : string,
  lastOutput output (es1 ++ es2) = lastOutput (lastOutput output es1) es2.
Proof.
  induction es1 as [|e es1 IH]; intros output; [reflexivity|].
  destruct e; cbn [app lastOutput]; apply IH.
Qed.

Lemma contextsFollow_app (mode : bool) (es1 es2 : list Session.event) :
  forall output : string,
  contextsFollow mode output es1 ->
  contextsFollow mode (lastOutput output es1) es2 ->
  contextsFollow mode output (es1 ++ es2).
Proof.
  induction es1 as [|e es1 IH]; intros output H1 H2; [exact H2|].
  destruct e; cbn [app contextsFollow lastOutput] in *;
    try (apply IH; assumption).
  destruct H1 as [Hc H1]. split; [exact Hc|]. apply IH; assumption.
Qed.

Lemma lastOutput_stdout (texts : list string) (es : list Session.event) (output : string) :
  lastOutput output (List.map Session.Stdout texts ++ es) = lastOutput output es.
Proof. induction texts as [|t texts IH]; [reflexivity|exact IH]. Qed.

Lemma contextsFollow_stdout (mode : bool) (texts : list string)
    (es : list Session.event) (output : string) :
  contextsFollow mode output (List.map Session.Stdout texts ++ es) =
  contextsFollow mode output es.
Proof. induction texts as [|t texts IH]; [reflexivity|exact IH]. Qed.

Lemma GetContext_buffer (cm : ContextManager) :
  GetContext cm = string_of_runes (tokenBuffer cm).
Proof.
  unfold GetContext. destruct (tokenBuffer cm); reflexivity.
Qed.

Lemma executeInContext_inv (userCommand : string) :
  match executeInContext userCommand with
  | RunAttached command => command = userCommand
  | ChangeDir path =>
    Strings.HasPrefix userCommand "cd" = true /\
    path = Strings.TrimSpace (Strings.TrimPrefix userCommand "cd")
  | RunCaptured command => command = userCommand
  end.
Proof.
  unfold executeInContext. destruct (startsWithAny userCommand TextEditors); [reflexivity|].
  destruct (Strings.HasPrefix userCommand "cd") eqn:Hcd; [|reflexivity].
  split; reflexivity.
Qed.

Lemma logged_app (es1 es2 : list Session.event) :
  forall pending : option string,
  logged pending es1 -> logged None es2 -> logged pending (es1 ++ es2).
Proof.
  induction es1 as [|e es1 IH]; intros pending H1 H2.
  - cbn in H1. subst pending. exact H2.
  - destruct e; cbn [app logged] in *;
      try (apply IH; assumption);
      (destruct H1 as [Hp H1]; split; [exact Hp|apply IH; assumption]).
Qed.

Lemma logged_stdout (texts : list string) (es : list Session.event)
    (pending : option string) :
  logged pending (List.map Session.Stdout texts ++ es) = logged pending es.
Proof. induction texts as [|t texts IH]; [reflexivity|exact IH]. Qed.

Lemma Forall_stdout (P : Session.event -> Prop) (texts : list string) :
  (forall text : string, P (Session.Stdout text)) ->
  Forall P (List.map Session.Stdout texts).
Proof.
  intros HP. induction texts as [|t texts IH]; constructor; [apply HP|exact IH].
Qed.

Section SessionFacts.

Variable world : Type.
Variable after : world -> Session.event -> world.
Variable getwd : world -> option string.
Variable client : world -> string -> string -> nat -> result string.
Variable readString : world -> Session.input.
Variable historyError : world -> string -> option string.
Variable runError : world -> string -> option string.
Variable combinedOutput : world -> string -> string * option string.
Variable chdirError : world -> string -> option string.
Variable ExpandEnv : world -> string -> string.
Variable Clean : string -> string.
Variable Sscanf : string -> option Z.

Local Abbreviation turn :=
  (Session.turn world after getwd client readString historyError runError
     combinedOutput chdirError ExpandEnv Clean Sscanf).
Local Abbreviation loop :=
  (Session.loop world after getwd client readString historyError runError
     combinedOutput chdirError ExpandEnv Clean Sscanf).
Local Abbreviation Run :=
  (Session.Run world after getwd client readString historyError runError
     combinedOutput chdirError ExpandEnv Clean Sscanf).

Lemma bind_inv {A B : Type} (m : Session.M world A) (k : A -> Session.M world B)
    (w : world) (es : list Session.event) (b : B) :
  Session.bind world after m k w = (es, b) ->
  exists (es1 : list Session.event) (a : A) (es2 : list Session.event),
    m w = (es1, a) /\ k a (fold_left after es1 w) = (es2, b) /\ es = es1 ++ es2.
Proof.
  unfold Session.bind. destruct (m w) as [es1 a].
  destruct (k a (fold_left after es1 w)) as [es2 b'] eqn:Hk.
  intros [= <- <-]. exists es1, a, es2. auto.
Qed.

(** The loop keeps what every turn keeps. [J] holds of the calls made so
    far and of the manager between two turns, [E] of the calls and the
    outcome wherever the loop stops. *)
Lemma loop_inv (cfg : Config) (J : list Session.event -> ContextManager -> Prop)
    (E : list Session.event -> Session.outcome -> Prop) :
  (forall (es : list Session.event) (prompt : string) (cm : ContextManager) (w : world)
          (ts : list Session.event) (nx : Session.next),
     J es cm -> turn cfg prompt cm w = (ts, nx) ->
     match nx with
     | Session.Continue _ cm' => J (es ++ ts) cm'
     | Session.Return err => E (es ++ ts) (Session.Returned err)
     | Session.Panic at_ => E (es ++ ts) (Session.Panicked at_)
     end) ->
  (forall (es : list Session.event) (cm : ContextManager),
     J es cm -> E es Session.Unfinished) ->
  forall (turns : nat) (es0 : list Session.event) (prompt : string)
         (cm : ContextManager) (w : world) (es : list Session.event)
         (out : Session.outcome),
    J es0 cm -> loop turns cfg prompt cm w = (es, out) -> E (es0 ++ es) out.
Proof.
  intros Hturn Hstop. induction turns as [|turns IH]; intros es0 prompt cm w es out HJ Hrun.
  - cbn in Hrun. injection Hrun as <- <-. rewrite app_nil_r. eapply Hstop, HJ.
  - cbn [Session.loop] in Hrun.
    apply bind_inv in Hrun as (ts & nx & es2 & Ht & Hrest & ->).
    pose proof (Hturn es0 prompt cm w ts nx HJ Ht) as Hnx.
    destruct nx as [prompt' cm'|err|].
    + rewrite app_assoc. eapply IH; [exact Hnx|exact Hrest].
    + cbn in Hrest. injection Hrest as <- <-. rewrite app_nil_r. exact Hnx.
    + cbn in Hrest. injection Hrest as <- <-. rewrite app_nil_r. exact Hnx.
Qed.

Lemma Run_inv (cfg : Config) (J : list Session.event -> ContextManager -> Prop)
    (E : list Session.event -> Session.outcome -> Prop) :
  (forall (es : list Session.event) (prompt : string) (cm : ContextManager) (w : world)
          (ts : list Session.event) (nx : Session.next),
     J es cm -> turn cfg prompt cm w = (ts, nx) ->
     match nx with
     | Session.Continue _ cm' => J (es ++ ts) cm'
     | Session.Return err => E (es ++ ts) (Session.Returned err)
     | Session.Panic at_ => E (es ++ ts) (Session.Panicked at_)
     end) ->
  (forall (es : list Session.event) (cm : ContextManager),
     J es cm -> E es Session.Unfinished) ->
  (forall pre : list Session.event, preamble cfg pre -> J pre NewContextManager) ->
  forall (turns : nat) (promptArgs : list string) (w : world)
         (es : list Session.event) (out : Session.outcome),
    Run turns cfg promptArgs w = (es, out) -> E es out.
Proof.
  intros Hturn Hstop Hpre turns promptArgs w es out Hrun.
  unfold Session.Run in Hrun.
  apply bind_inv in Hrun as (pre & [] & es2 & Hp & Hloop & ->).
  eapply (loop_inv cfg J E Hturn Hstop); [|exact Hloop].
  apply Hpre. unfold preamble. destruct (ContextMode cfg).
  - apply bind_inv in Hp as (e1 & [] & e2 & H1 & Hp & ->).
    apply bind_inv in Hp as (e3 & dir & e4 & H3 & Hp & ->).
    unfold Session.getCurrentDir in H3.
    apply bind_inv in H3 as (e5 & d & e6 & H5 & H6 & ->).
    cbv in H1, H5, H6, Hp.
    injection H1 as <-. injection H5 as <- <-. injection H6 as <- <-.
    injection Hp as <-. eexists _, _. reflexivity.
  - cbv in Hp. injection Hp as <-. reflexivity.
Qed.

Lemma printOptions_inv (options : list string) :
  forall (i : Z) (w : world) (es : list Session.event) (a : unit),
  Session.printOptions world after i options w = (es, a) ->
  exists texts : list string, es = List.map Session.Stdout texts.
Proof.
  induction options as [|option rest IH]; intros i w es a Hrun.
  - cbn in Hrun. injection Hrun as <- _. exists []. reflexivity.
  - cbn [Session.printOptions] in Hrun.
    apply bind_inv in Hrun as (es1 & [] & es2 & H1 & H2 & ->).
    cbv [Session.Print Session.call] in H1. injection H1 as <-.
    apply IH in H2 as [texts ->].
    eexists (_ :: texts). reflexivity.
Qed.

(** One step of the symbolic run of a computation that is known to have
    made the calls [es] and returned [a]. *)
Ltac exec_step :=
  match goal with
  | H : Session.bind _ _ _ _ _ = (_, _) |- _ =>
    let Hm := fresh "Hm" in
    apply bind_inv in H as (? & ? & ? & Hm & H & ->)
  | H : Session.ret _ _ _ = (_, _) |- _ =>
    unfold Session.ret in H; simplify_eq
  | H : Session.Print _ _ _ = (_, _) |- _ =>
    unfold Session.Print, Session.call in H; simplify_eq
  | H : Session.readLine _ _ _ = (_, _) |- _ =>
    unfold Session.readLine, Session.call in H; simplify_eq
  | H : Session.call _ _ _ _ = (_, _) |- _ =>
    unfold Session.call in H; simplify_eq
  | H : Session.observe _ _ _ = (_, _) |- _ =>
    unfold Session.observe in H; simplify_eq
  | H : Session.getCurrentDir _ _ _ _ = (_, _) |- _ =>
    unfold Session.getCurrentDir in H
  | H : Session.report _ _ ?err _ = (_, _) |- _ =>
    unfold Session.report in H; destruct err eqn:?
  | H : Session.generate _ _ _ _ _ _ = (_, _) |- _ =>
    unfold Session.generate in H
  | H : Session.execute _ _ _ _ _ _ _ _ _ _ = (_, _) |- _ =>
    unfold Session.execute in H
  | H : Session.selected _ _ _ _ _ _ _ _ _ _ _ _ _ _ = (_, _) |- _ =>
    unfold Session.selected in H
  | H : Session.printOptions _ _ _ _ _ = (_, _) |- _ =>
    apply printOptions_inv in H as [? ->]
  | H : (let '(_, _) := ?x in _) _ = (_, _) |- _ => destruct x eqn:?
  | H : (if ?b then _ else _) _ = (_, _) |- _ => destruct b eqn:?
  | H : (match ?x with _ => _ end) _ = (_, _) |- _ => destruct x eqn:?
  | H : (let '(_, _) := ?x in _) = (_, _) |- _ => destruct x eqn:?
  | H : (if ?b then _ else _) = (_, _) |- _ => destruct b eqn:?
  | H : (match ?x with _ => _ end) = (_, _) |- _ => destruct x eqn:?
  | H : (_, _) = (_, _) |- _ => simplify_eq
  end.

Ltac exec := repeat exec_step.

Lemma snd_bind {A B : Type} (m : Session.M world A) (k : A -> Session.M world B)
    (w : world) :
  snd (Session.bind world after m k w) =
  snd (k (snd (m w)) (fold_left after (fst (m w)) w)).
Proof.
  unfold Session.bind. destruct (m w) as [es a]. cbn [fst snd].
  destruct (k a (fold_left after es w)). reflexivity.
Qed.

Lemma turn_capacity (cfg : Config) (prompt : string) (cm : ContextManager) (w : world)
    (ts : list Session.event) (nx : Session.next) :
  maxTokens cm = MaxContextTokens ->
  turn cfg prompt cm w = (ts, nx) ->
  match nx with
  | Session.Continue _ cm' => maxTokens cm' = MaxContextTokens
  | Session.Return _ => True
  | Session.Panic at_ => at_ = Session.InMake
  end.
Proof.
  intros Hcap Hrun. unfold Session.turn in Hrun. exec.
  all: try exact I; try exact Hcap; try reflexivity.
  all: try match goal with
       | H : AddChunk _ _ = _ |- _ =>
         rewrite AddChunk_capacity in H by (rewrite Hcap; unfold MaxContextTokens; lia);
         simplify_eq; try exact Hcap
       | H : _ !! _ = None, Hb : _ || _ = false |- _ =>
         apply lookup_ge_None in H; apply orb_false_elim in Hb as [Hlo Hhi];
         apply Z.ltb_ge in Hlo, Hhi; lia
       end.
Qed.

(** [Run] can panic in one place only, the [make] of [generateSuggestions],
    and with a negative count of suggestions it does so in its first turn,
    before it has asked the model or the user for anything: the index into
    the options is in range whenever it is used, and the manager keeps its
    capacity of 1500, so that [AddChunk] does not panic. *)
Theorem Run_panics_in_make (turns : nat) (cfg : Config) (promptArgs : list string) (w : world) :
  (forall at_ : Session.site,
     snd (Run turns cfg promptArgs w) = Session.Panicked at_ -> at_ = Session.InMake) /\
  (SuggestionCount cfg < 0 ->
   match turns with
   | O => True
   | S _ =>
     snd (Run turns cfg promptArgs w) = Session.Panicked Session.InMake /\
     preamble cfg (fst (Run turns cfg promptArgs w))
   end).
Proof.
  split.
  - intros at_ Hpanic.
    destruct (Run turns cfg promptArgs w) as [es out] eqn:Hrun.
    cbn [snd] in Hpanic.
    refine (Run_inv cfg (fun _ cm => maxTokens cm = MaxContextTokens)
              (fun _ out => forall at_ : Session.site,
                   out = Session.Panicked at_ -> at_ = Session.InMake)
              _ _ _ turns promptArgs w es out Hrun at_ Hpanic).
    + intros es0 prompt cm w0 ts nx Hcap Hturn.
      pose proof (turn_capacity cfg prompt cm w0 ts nx Hcap Hturn) as Hnx.
      destruct nx; [exact Hnx|discriminate|].
      intros at' [= <-]. exact Hnx.
    + intros; discriminate.
    + intros; reflexivity.
  - intros Hneg. destruct turns as [|turns]; [exact I|].
    destruct (Run (S turns) cfg promptArgs w) as [es out] eqn:Hrun.
    cbn [fst snd]. unfold Session.Run in Hrun.
    apply bind_inv in Hrun as (pre & [] & es2 & Hp & Hloop & ->).
    cbn [Session.loop] in Hloop.
    apply bind_inv in Hloop as (ts & nx & es3 & Ht & Hrest & ->).
    unfold Session.turn in Ht.
    apply bind_inv in Ht as (es4 & round & es5 & Hg & Ht & ->).
    unfold Session.generate in Hg.
    rewrite (proj2 (generateSuggestions_None _ _ _ _) Hneg) in Hg.
    injection Hg as <- <-. cbn in Ht. injection Ht as <- <-.
    cbn in Hrest. injection Hrest as <- <-.
    split; [reflexivity|]. rewrite !app_nil_r.
    unfold preamble. destruct (ContextMode cfg).
    + exec. eexists _, _. reflexivity.
    + exec. reflexivity.
Qed.

Lemma turn_context (cfg : Config) (prompt : string) (cm : ContextManager) (w : world)
    (ts : list Session.event) (nx : Session.next) (output : string) :
  maxTokens cm = MaxContextTokens ->
  tokenBuffer cm = lastn 1500 (range output) ->
  turn cfg prompt cm w = (ts, nx) ->
  contextsFollow (ContextMode cfg) output ts /\
  match nx with
  | Session.Continue _ cm' =>
    maxTokens cm' = MaxContextTokens /\
    tokenBuffer cm' = lastn 1500 (range (lastOutput output ts))
  | _ => True
  end.
Proof.
  intros Hcap Hbuf Hrun.
  assert (Hctx : (if ContextMode cfg then GetContext cm else "") =
                 (if ContextMode cfg
                  then string_of_runes (lastn 1500 (range output)) else "")).
  { rewrite GetContext_buffer, Hbuf. reflexivity. }
  unfold Session.turn in Hrun. exec.
  all: try match goal with
       | H : AddChunk _ _ = _ |- _ =>
         rewrite AddChunk_capacity in H by (rewrite Hcap; unfold MaxContextTokens; lia);
         rewrite Hcap in H; simplify_eq
       end.
  all: repeat (cbn [app contextsFollow lastOutput fst snd tokenBuffer maxTokens];
               rewrite ?contextsFollow_stdout, ?lastOutput_stdout).
  all: auto.
Qed.

(** In context mode the context of every round is the text of the last
    1500 characters of the output of the command that was captured last
    before the round, and empty when none was: the context does not add
    up over the commands, and a command run on the terminal, a change of
    directory or a selection that is no command leaves it as it is.
    Outside context mode every context is empty. *)
Theorem Run_context (turns : nat) (cfg : Config) (promptArgs : list string) (w : world) :
  contextsFollow (ContextMode cfg) "" (fst (Run turns cfg promptArgs w)).
Proof.
  destruct (Run turns cfg promptArgs w) as [es out] eqn:Hrun. cbn [fst].
  refine (Run_inv cfg
            (fun es cm =>
               maxTokens cm = MaxContextTokens /\
               tokenBuffer cm = lastn 1500 (range (lastOutput "" es)) /\
               contextsFollow (ContextMode cfg) "" es)
            (fun es _ => contextsFollow (ContextMode cfg) "" es)
            _ _ _ turns promptArgs w es out Hrun).
  - intros es0 prompt cm w0 ts nx (Hcap & Hbuf & Hes) Hturn.
    destruct (turn_context cfg prompt cm w0 ts nx (lastOutput "" es0) Hcap Hbuf Hturn)
      as [Hts Hnx].
    pose proof (contextsFollow_app (ContextMode cfg) es0 ts "" Hes Hts) as Hall.
    destruct nx as [prompt' cm'|err|]; [|exact Hall|exact Hall].
    destruct Hnx as [Hcap' Hbuf']. rewrite lastOutput_app. auto.
  - intros es0 cm (_ & _ & Hes). exact Hes.
  - intros pre Hpre. unfold preamble in Hpre.
    destruct (ContextMode cfg).
    + destruct Hpre as (dir & text & ->). repeat split.
    + subst pre. repeat split.
Qed.

(** What is known of the command once [executeInContext] has taken its
    branch. *)
Ltac branch :=
  repeat match goal with
  | H : executeInContext ?c = _ |- _ =>
    let Hinv := fresh "Hinv" in
    pose proof (executeInContext_inv c) as Hinv; rewrite H in Hinv; clear H;
    lazymatch type of Hinv with
    | _ /\ _ => destruct Hinv as [? ?]
    | _ => idtac
    end; subst
  end.

Ltac forall_events :=
  repeat match goal with
  | |- Forall _ [] => constructor
  | |- Forall _ (_ :: _) => constructor; [reflexivity|]
  | |- Forall _ (_ ++ _) => apply Forall_app; split
  | |- Forall _ (List.map Session.Stdout _) => apply Forall_stdout; intros; reflexivity
  end.

Lemma turn_history (cfg : Config) (prompt : string) (cm : ContextManager) (w : world)
    (ts : list Session.event) (nx : Session.next) :
  turn cfg prompt cm w = (ts, nx) ->
  (SkipHistory cfg = false -> logged None ts) /\
  (SkipHistory cfg = true -> Forall (fun e => isHistory e = false) ts).
Proof.
  intros Hrun. unfold Session.turn in Hrun. exec. all: branch.
  all: split; intros Hskip;
    try match goal with
        | H : negb (SkipHistory _) = _ |- _ => rewrite Hskip in H; discriminate H
        end.
  all: repeat (cbn [app logged]; rewrite ?logged_stdout).
  all: try (forall_events; fail).
  all: try reflexivity.
  all: eauto.
Qed.

(** With the history on, what is written to it and what is run go in
    pairs: every command is written to the history just before it is
    run, whether it then succeeds or not, a change of directory and an
    editor included, and nothing else is written. With the history off
    nothing is written. *)
Theorem Run_history (turns : nat) (cfg : Config) (promptArgs : list string) (w : world) :
  (SkipHistory cfg = false -> logged None (fst (Run turns cfg promptArgs w))) /\
  (SkipHistory cfg = true ->
   Forall (fun e => isHistory e = false) (fst (Run turns cfg promptArgs w))).
Proof.
  destruct (Run turns cfg promptArgs w) as [es out] eqn:Hrun. cbn [fst].
  refine (Run_inv cfg
            (fun es _ =>
               (SkipHistory cfg = false -> logged None es) /\
               (SkipHistory cfg = true -> Forall (fun e => isHistory e = false) es))
            (fun es _ =>
               (SkipHistory cfg = false -> logged None es) /\
               (SkipHistory cfg = true -> Forall (fun e => isHistory e = false) es))
            _ _ _ turns promptArgs w es out Hrun).
  - intros es0 prompt cm w0 ts nx [Hon Hoff] Hturn.
    destruct (turn_history cfg prompt cm w0 ts nx Hturn) as [Hon' Hoff'].
    assert (Hall : (SkipHistory cfg = false -> logged None (es0 ++ ts)) /\
                   (SkipHistory cfg = true ->
                    Forall (fun e => isHistory e = false) (es0 ++ ts))).
    { split; intros Hskip.
      - apply logged_app; auto.
      - apply Forall_app. auto. }
    destruct nx; exact Hall.
  - intros es0 cm H. exact H.
  - intros pre Hpre. unfold preamble in Hpre.
    destruct (ContextMode cfg).
    + destruct Hpre as (dir & text & ->). split; intros _; [reflexivity|forall_events].
    + subst pre. split; intros _; [reflexivity|constructor].
Qed.

End SessionFacts.
